(** * Skills, Agents and Commands indexes and the management view router

    A shallow embedding of
      - src/services/SkillsManager.ts
      - src/services/AgentsManager.ts
      - src/services/CommandsManager.ts
      - src/providers/ManagementViewProvider.ts   (the message router)

    Conventions.
      - A JavaScript string is a [string] whose characters are the code units
        U+0000..U+00FF; the character classes and case mapping below are
        those of ECMAScript on that range.
      - A call that may throw returns a [result]; a function with local or
        instance state is a computation [M S A] that threads the state and
        keeps it when an exception is thrown, as JavaScript does.
      - The host (file system, [os], [process], [JSON], [Date]) is a record
        of functions, so a statement about every host is a statement about
        every file system state.
      - [console] output is not modelled.  *)

From Stdlib Require Import String Ascii List ZArith Lia Bool.
Import ListNotations.
Set Warnings "-register-all".
Open Scope list_scope.
Open Scope string_scope.

(** ** JavaScript values, exceptions, results *)

(** Values that come out of [JSON.parse] or arrive in a webview message.
    Of a number only its being zero is observed, so integers suffice. *)
Inductive jsval : Type :=
| JUndefined
| JNull
| JBool (b : bool)
| JNum (z : Z)
| JStr (s : string)
| JArr (items : list jsval)
| JObj (fields : list (string * jsval)).

(** What a [throw] carries: an [Error] instance with its message, or any
    other value. *)
Inductive exn : Type :=
| JsError (message : string)
| JsThrown (v : jsval).

Inductive result (A : Type) : Type :=
| Ok (a : A)
| Throw (e : exn).
Arguments Ok {A} a.
Arguments Throw {A} e.

Definition is_ok {A} (r : result A) : bool :=
  match r with Ok _ => true | Throw _ => false end.

Module Js.

(** ToBoolean. *)
Definition truthy (v : jsval) : bool :=
  match v with
  | JUndefined | JNull => false
  | JBool b => b
  | JNum z => negb (Z.eqb z 0)
  | JStr s => negb (String.eqb s "")
  | JArr _ | JObj _ => true
  end.

(** [a || b]. *)
Definition or (a b : jsval) : jsval := if truthy a then a else b.

(** [s === v] for a string [s]. *)
Definition strict_eq_str (s : string) (v : jsval) : bool :=
  match v with JStr s' => String.eqb s s' | _ => false end.

Fixpoint assoc (k : string) (fields : list (string * jsval)) : jsval :=
  match fields with
  | [] => JUndefined
  | (k', v) :: rest => if String.eqb k k' then v else assoc k rest
  end.

(** [v.key] for an own data property [key] that no prototype defines:
    a TypeError on [null] and [undefined], [undefined] on a primitive or an
    array, the field of an object. *)
Definition get_prop (v : jsval) (key : string) : result jsval :=
  match v with
  | JUndefined =>
      Throw (JsError ("Cannot read properties of undefined (reading '" ++ key ++ "')"))
  | JNull =>
      Throw (JsError ("Cannot read properties of null (reading '" ++ key ++ "')"))
  | JObj fields => Ok (assoc key fields)
  | _ => Ok JUndefined
  end.

Definition code (c : ascii) : nat := nat_of_ascii c.

(** WhiteSpace and LineTerminator code points below U+0100: the class [\s]
    and the characters [trim] removes. *)
Definition is_space (c : ascii) : bool :=
  let n := code c in
  (((9 <=? n) && (n <=? 13)) || (n =? 32) || (n =? 160))%nat.

(** LineTerminator code points below U+0100. *)
Definition is_line_terminator (c : ascii) : bool :=
  let n := code c in ((n =? 10) || (n =? 13))%nat.

(** Simple lower-case mapping on U+0000..U+00FF: A-Z and the Latin-1
    capitals other than the multiplication sign. *)
Definition lower_char (c : ascii) : ascii :=
  let n := code c in
  if (((65 <=? n) && (n <=? 90))
      || ((192 <=? n) && (n <=? 222) && negb (n =? 215)))%nat
  then ascii_of_nat (n + 32) else c.

Fixpoint toLowerCase (s : string) : string :=
  match s with
  | EmptyString => EmptyString
  | String c s' => String (lower_char c) (toLowerCase s')
  end.

(** [v.toLowerCase()] on a value that should be a string; [what] is the
    source text of the callee, which the TypeError quotes. *)
Definition call_toLowerCase (what : string) (v : jsval) : result string :=
  match v with
  | JStr s => Ok (toLowerCase s)
  | JUndefined =>
      Throw (JsError "Cannot read properties of undefined (reading 'toLowerCase')")
  | JNull =>
      Throw (JsError "Cannot read properties of null (reading 'toLowerCase')")
  | _ => Throw (JsError (what ++ ".toLowerCase is not a function"))
  end.

(** [s.includes(sub)]. *)
Fixpoint includes (s sub : string) : bool :=
  if String.prefix sub s then true
  else match s with
       | EmptyString => false
       | String _ s' => includes s' sub
       end.

(** [s.endsWith(suffix)]. *)
Fixpoint endsWith (s suffix : string) : bool :=
  if String.eqb s suffix then true
  else match s with
       | EmptyString => false
       | String _ s' => endsWith s' suffix
       end.

Fixpoint trimStart (s : string) : string :=
  match s with
  | EmptyString => EmptyString
  | String c s' => if is_space c then trimStart s' else s
  end.

Fixpoint trimEnd (s : string) : string :=
  match s with
  | EmptyString => EmptyString
  | String c s' =>
      match trimEnd s' with
      | EmptyString => if is_space c then EmptyString else String c EmptyString
      | t => String c t
      end
  end.

Definition trim (s : string) : string := trimEnd (trimStart s).

End Js.

(** ** The regular expressions of [extractDescription]

    The three patterns are sequences of literal characters and of
    quantified character classes around one capture group, so the matcher
    covers that fragment: ordered backtracking, greedy quantifiers trying
    the longest run first and lazy ones the shortest. *)
Module Regex.

Inductive atom : Type :=
| Lit (c : ascii)                                  (* a literal character *)
| Rep (cls : ascii -> bool) (min : nat) (greedy : bool)
                                  (* cls{min,} when greedy, cls{min,}? when lazy *)
| Open                                             (* "(" of group 1 *)
| Close.                                           (* ")" of group 1 *)

(** Where a match may start: anywhere, at the start of the input ([^]), or
    at the start of a line ([^] under the [m] flag). *)
Inductive anchor : Type := Anywhere | InputStart | LineStart.

Record regex : Type := { start : anchor; body : list atom }.

Fixpoint lits (s : string) : list atom :=
  match s with
  | EmptyString => []
  | String c s' => Lit c :: lits s'
  end.

Definition space : ascii -> bool := Js.is_space.                 (* \s *)
Definition any : ascii -> bool := fun _ => true.                 (* [\s\S] *)
Definition dot : ascii -> bool := fun c => negb (Js.is_line_terminator c). (* . *)

Definition snoc (s : string) (c : ascii) : string := s ++ String c EmptyString.

(** [match_here r s open acc]: match the atoms [r] at the head of [s];
    [acc] is what group 1 has captured so far and [open] says whether the
    group is being filled.  Returns the capture of the first successful
    alternative in backtracking order. *)
Fixpoint match_here (r : list atom) : string -> bool -> string -> option string :=
  match r with
  | [] => fun _ _ acc => Some acc
  | Open :: r' => fun s _ _ => match_here r' s true EmptyString
  | Close :: r' => fun s _ acc => match_here r' s false acc
  | Lit c :: r' =>
      fun s o acc =>
        match s with
        | String c' s' =>
            if Ascii.eqb c c'
            then match_here r' s' o (if o then snoc acc c' else acc)
            else None
        | EmptyString => None
        end
  | Rep cls min greedy :: r' =>
      let k := match_here r' in
      let rep := fix rep (s : string) : nat -> bool -> string -> option string :=
        fun need o acc =>
          let stop := match need with O => k s o acc | S _ => None end in
          let more :=
            match s with
            | String c s' =>
                if cls c
                then rep s' (Nat.pred need) o (if o then snoc acc c else acc)
                else None
            | EmptyString => None
            end in
          if greedy
          then match more with Some x => Some x | None => stop end
          else match stop with Some x => Some x | None => more end in
      fun s o acc => rep s min o acc
  end.

Definition match_at (re : regex) (s : string) : option string :=
  match_here (body re) s false EmptyString.

Definition start_allowed (a : anchor) (prev : option ascii) : bool :=
  match a, prev with
  | Anywhere, _ => true
  | _, None => true
  | InputStart, Some _ => false
  | LineStart, Some c => Js.is_line_terminator c
  end.

(** Leftmost match: try every start position in turn; [prev] is the
    character before the position. *)
Fixpoint exec_from (re : regex) (prev : option ascii) (s : string) : option string :=
  match (if start_allowed (start re) prev then match_at re s else None) with
  | Some cap => Some cap
  | None =>
      match s with
      | EmptyString => None
      | String c s' => exec_from re (Some c) s'
      end
  end.

(** [s.match(re)] for a regex without the [g] flag, returning group 1. *)
Definition exec (re : regex) (s : string) : option string := exec_from re None s.

End Regex.

Definition LF : ascii := ascii_of_nat 10.
Definition nl : string := String LF EmptyString.
(** The double quote character, as a string. *)
Definition dq : string := String (ascii_of_nat 34) EmptyString.

(** ** Description extraction (AgentsManager.ts 128-146, CommandsManager.ts 129-147) *)
Module Markdown.
Import Regex.

(** [/^---\s*\n([\s\S]*?)\n---/] *)
Definition frontmatter_re : regex :=
  {| start := InputStart;
     body := (lits "---" ++ [Rep space 0 true; Lit LF; Open; Rep any 0 false; Close; Lit LF]
              ++ lits "---")%list |}.

(** [/description:\s*(.+)/] *)
Definition desc_re : regex :=
  {| start := Anywhere;
     body := (lits "description:" ++ [Rep space 0 true; Open; Rep dot 1 true; Close])%list |}.

(** [/^#\s+(.+)/m] *)
Definition title_re : regex :=
  {| start := LineStart;
     body := (lits "#" ++ [Rep space 1 true; Open; Rep dot 1 true; Close])%list |}.

Definition titleOf (content : string) : option string :=
  match exec title_re content with
  | Some t => Some (Js.trim t)
  | None => None
  end.

Definition extractDescription (content : string) : option string :=
  match exec frontmatter_re content with
  | Some frontmatter =>
      match exec desc_re frontmatter with
      | Some d => Some (Js.trim d)
      | None => titleOf content
      end
  | None => titleOf content
  end.

(** A text without any [#]. *)
Fixpoint hashFree (s : string) : Prop :=
  match s with
  | EmptyString => True
  | String c s' => c <> "#"%char /\ hashFree s'
  end.

End Markdown.

(** ** Computations with state and exceptions *)

Definition M (S A : Type) : Type := S -> result A * S.

Definition ret {S A} (a : A) : M S A := fun s => (Ok a, s).

Definition bind {S A B} (m : M S A) (k : A -> M S B) : M S B :=
  fun s =>
    match m s with
    | (Ok a, s') => k a s'
    | (Throw e, s') => (Throw e, s')
    end.

(** A call of a function without side effect on the state: [await f(...)]. *)
Definition lift {S A} (r : result A) : M S A := fun s => (r, s).

(** [try { body } catch (error) { handler }]: what [body] did to the state
    before it threw stays done. *)
Definition try_catch {S A} (body : M S A) (handler : exn -> M S A) : M S A :=
  fun s =>
    match body s with
    | (Ok a, s') => (Ok a, s')
    | (Throw e, s') => handler e s'
    end.

Declare Scope comp_scope.
Delimit Scope comp_scope with comp.
Notation "x <- m ;; k" := (bind m (fun x => k))
  (at level 61, m at next level, right associativity) : comp_scope.
Notation "m ;; k" := (bind m (fun _ => k))
  (at level 61, right associativity) : comp_scope.
Open Scope comp_scope.

(** [for (const x of xs) { body }]; [continue] is [ret tt]. *)
Fixpoint for_of {S X} (xs : list X) (body : X -> M S unit) : M S unit :=
  match xs with
  | [] => ret tt
  | x :: rest => body x ;; for_of rest body
  end.

(** [array.push(x)] and [array.push(...xs)] on a local array held as the
    state. *)
Definition push {A} (x : A) : M (list A) unit := fun arr => (Ok tt, (arr ++ [x])%list).
Definition push_all {A} (xs : list A) : M (list A) unit := fun arr => (Ok tt, (arr ++ xs)%list).

(** A function that fills a local array inside [try]/[catch] and ends with
    [return array]. *)
Definition returning_array {A} (body : M (list A) unit) : result (list A) :=
  match body [] with
  | (Ok _, arr) => Ok arr
  | (Throw e, _) => Throw e
  end.

(** [xs.filter(p)] with a callback that may throw. *)
Fixpoint filter_r {A} (p : A -> result bool) (xs : list A) : result (list A) :=
  match xs with
  | [] => Ok []
  | x :: rest =>
      match p x with
      | Throw e => Throw e
      | Ok b =>
          match filter_r p rest with
          | Throw e => Throw e
          | Ok ys => Ok (if b then x :: ys else ys)
          end
      end
  end.

(** An array that outlives the call that built it.  [id] stands for the
    identity of the object: two arrays are the same object exactly when
    their [id]s agree.  No code of the four files writes to an array after
    it has been cached or returned, so the elements are carried by value. *)
Record JsArray (A : Type) : Type := { id : nat; elems : list A }.
Arguments id {A} _.
Arguments elems {A} _.

(** ** The host *)

Record Dirent : Type := { d_name : string; isDirectory : bool }.

(** What the code asks of its environment.  Of [os], [process] and [fs]
    only [fs.existsSync] never throws: [os.homedir()] throws when no home
    directory can be found, [process.cwd()] when the working directory has
    been removed, the file reads and [JSON.parse] on what they are given.
    [Date.now()] returns. *)

Record Host : Type := {
  existsSync : string -> bool;                     (* fs.existsSync, which never throws *)
  readdirSync : string -> result (list Dirent);    (* fs.readdirSync(p, { withFileTypes: true }) *)
  readFileSync : string -> result string;          (* fs.readFileSync(p, 'utf-8') *)
  JSON_parse : string -> result jsval;             (* JSON.parse *)
  homedir : result string;                         (* os.homedir() *)
  cwd : result string;                             (* process.cwd() *)
  Date_now : Z                                     (* Date.now() *)
}.

(** [fs.readdirSync(p)]: the names only. *)
Definition readdirNames (h : Host) (p : string) : result (list string) :=
  match readdirSync h p with
  | Ok entries => Ok (map d_name entries)
  | Throw e => Throw e
  end.

(** [if (fs.existsSync(p)) { field = f(fs.readFileSync(p, 'utf-8')) }] *)
Definition readIfExists {A} (h : Host) (p : string) (f : string -> result A)
  : result (option A) :=
  if existsSync h p
  then match readFileSync h p with
       | Throw e => Throw e
       | Ok content =>
           match f content with
           | Throw e => Throw e
           | Ok a => Ok (Some a)
           end
       end
  else Ok None.

Module Path.

(** [path.join] of [path.posix]: the arguments that are not empty are
    put together with the separator between them, and the result is
    normalised. *)
Definition sep : ascii := "/"%char.

(** The segments of a path, split at the separators. *)
Fixpoint segments (p : string) : list string :=
  match p with
  | EmptyString => [EmptyString]
  | String c p' =>
      if Ascii.eqb c sep then EmptyString :: segments p'
      else match segments p' with
           | seg :: rest => String c seg :: rest
           | [] => [String c EmptyString]
           end
  end.

(** One segment of [normalizeString]; [res] holds the segments kept so
    far, the last one first.  An empty segment and [.] are dropped; [..]
    removes the segment before it, and is kept only in a relative path that
    has nothing left to remove. *)
Definition step (allowAboveRoot : bool) (res : list string) (seg : string) : list string :=
  if String.eqb seg "" || String.eqb seg "." then res
  else if String.eqb seg ".."
       then match res with
            | last :: before =>
                if String.eqb last ".."
                then (if allowAboveRoot then seg :: res else res)
                else before
            | [] => if allowAboveRoot then [seg] else []
            end
       else seg :: res.

Definition normalizeString (allowAboveRoot : bool) (segs : list string) : list string :=
  rev (fold_left (step allowAboveRoot) segs []).

Definition isAbsolute (p : string) : bool :=
  match p with
  | String c _ => Ascii.eqb c sep
  | EmptyString => false
  end.

Fixpoint trailingSeparator (p : string) : bool :=
  match p with
  | EmptyString => false
  | String c EmptyString => Ascii.eqb c sep
  | String _ p' => trailingSeparator p'
  end.

(** [path.normalize] *)
Definition normalize (p : string) : string :=
  if String.eqb p "" then "."
  else
    let body := String.concat "/" (normalizeString (negb (isAbsolute p)) (segments p)) in
    if String.eqb body ""
    then if isAbsolute p then "/" else if trailingSeparator p then "./" else "."
    else
      let body := if trailingSeparator p then body ++ "/" else body in
      if isAbsolute p then "/" ++ body else body.

(** [path.join(a, ...rest)] *)
Definition join (a : string) (rest : list string) : string :=
  match filter (fun arg => negb (String.eqb arg "")) (a :: rest) with
  | [] => "."
  | args => normalize (String.concat "/" args)
  end.

(** [path.join(a, b)] *)
Definition join2 (a b : string) : string := join a [b].

(** [String.prototype.slice(0, n)]. *)
Fixpoint take (n : nat) (s : string) : string :=
  match n, s with
  | S n', String c s' => String c (take n' s')
  | _, _ => EmptyString
  end.

(** [path.basename(file, ext)] for a [file] without separator: the
    extension is removed when [file] ends with it; a [file] equal to the
    extension gives the empty name. *)
Definition basename (file ext : string) : string :=
  if Js.endsWith file ext
  then take (String.length file - String.length ext) file
  else file.

(** [path.join(a, ...before, b, ...after)] where [b] comes from a message:
    [path.join] throws a TypeError unless every argument is a string. *)
Definition joinChecked (a : string) (before : list string) (b : jsval)
           (after : list string) : result string :=
  match b with
  | JStr s => Ok (join a (before ++ s :: after))
  | _ => Throw (JsError ("The " ++ dq ++ "path" ++ dq ++ " argument must be of type string"))
  end.

End Path.

Arguments Path.join : simpl never.
Arguments Path.join2 : simpl never.

(** ** SkillsManager.ts *)
Module SkillsManager.

Inductive SkillLocation : Type := user | project | managed.

Definition location_str (l : SkillLocation) : string :=
  match l with user => "user" | project => "project" | managed => "managed" end.

Definition location_eqb (a b : SkillLocation) : bool :=
  match a, b with
  | user, user | project, project | managed, managed => true
  | _, _ => false
  end.

(** [description] holds whatever [skillJson.description || undefined]
    evaluated to; [JUndefined] is the absent description. *)
Record Skill : Type := {
  name : string;
  location : SkillLocation;
  path : string;
  description : jsval;
  pluginName : option string;
  hasReadme : bool;
  hasPrompt : bool
}.

Record SkillDetails : Type := {
  skill : Skill;                       (* the fields copied by { ...skill } *)
  skillJson : option jsval;
  readmeContent : option string;
  promptContent : option string
}.

(** The instance: [cachedSkills] ([None] is [null]) and [lastLoadTime];
    [next_id] numbers the arrays the instance creates. *)
Record t : Type := {
  next_id : nat;
  cachedSkills : option (JsArray Skill);
  lastLoadTime : Z
}.

Definition init : t := {| next_id := 0; cachedSkills := None; lastLoadTime := 0 |}.

(** An array literal or an array received from a scan, as an object. *)
Definition new_array (l : list Skill) : M t (JsArray Skill) :=
  fun st =>
    (Ok {| id := next_id st; elems := l |},
     {| next_id := S (next_id st);
        cachedSkills := cachedSkills st;
        lastLoadTime := lastLoadTime st |}).

Definition set_cachedSkills (c : option (JsArray Skill)) : M t unit :=
  fun st =>
    (Ok tt, {| next_id := next_id st; cachedSkills := c; lastLoadTime := lastLoadTime st |}).

Definition set_lastLoadTime (z : Z) : M t unit :=
  fun st =>
    (Ok tt, {| next_id := next_id st; cachedSkills := cachedSkills st; lastLoadTime := z |}).

Definition push_spread (a : JsArray Skill) (xs : list Skill) : JsArray Skill :=
  {| id := id a; elems := (elems a ++ xs)%list |}.

(** The body of the inner [try] of [loadSkillsFromDirectory] up to the
    object literal (lines 199-210). *)
Definition readSkill (h : Host) (dirPath : string) (location : SkillLocation)
           (pluginName : option string) (entry : Dirent) : result Skill :=
  let skillPath := Path.join2 dirPath (d_name entry) in
  let skillJsonPath := Path.join2 skillPath "skill.json" in
  let readmePath := Path.join2 skillPath "README.md" in
  let promptPath := Path.join2 skillPath "prompt.md" in
  match readFileSync h skillJsonPath with
  | Throw e => Throw e
  | Ok skillJsonContent =>
      match JSON_parse h skillJsonContent with
      | Throw e => Throw e
      | Ok skillJson =>
          match Js.get_prop skillJson "description" with
          | Throw e => Throw e
          | Ok d =>
              Ok {| name := d_name entry;
                    location := location;
                    path := skillPath;
                    description := Js.or d JUndefined;
                    pluginName := pluginName;
                    hasReadme := existsSync h readmePath;
                    hasPrompt := existsSync h promptPath |}
          end
      end
  end.

(** lines 169-223 *)
Definition loadSkillsFromDirectory (h : Host) (dirPath : string)
           (location : SkillLocation) (pluginName : option string)
  : result (list Skill) :=
  returning_array
    (try_catch
       (if negb (existsSync h dirPath) then ret tt
        else
          entries <- lift (readdirSync h dirPath) ;;
          for_of entries (fun entry =>
            if negb (isDirectory entry) then ret tt
            else
              let skillPath := Path.join2 dirPath (d_name entry) in
              let skillJsonPath := Path.join2 skillPath "skill.json" in
              if negb (existsSync h skillJsonPath) then ret tt
              else
                try_catch
                  (skill <- lift (readSkill h dirPath location pluginName entry) ;;
                   push skill)
                  (fun error => ret tt)))
       (fun error => ret tt)).

(** What one iteration of the loop adds to the array: the skill of a
    subdirectory that holds a descriptor which reads and parses, nothing
    otherwise. *)
Definition keptSkill (h : Host) (dirPath : string) (location : SkillLocation)
           (pluginName : option string) (entry : Dirent) : list Skill :=
  if isDirectory entry
  then if existsSync h (Path.join2 (Path.join2 dirPath (d_name entry)) "skill.json")
       then match readSkill h dirPath location pluginName entry with
            | Ok skill => [skill]
            | Throw _ => []
            end
       else []
  else [].

(** A skill whose directory holds the descriptor. *)
Definition hasDescriptor (h : Host) (sk : Skill) : Prop :=
  existsSync h (Path.join2 (path sk) "skill.json") = true.

(** The invariant of the array that [loadManagedSkills] fills. *)
Definition managedOk (h : Host) (sk : Skill) : Prop :=
  location sk = managed /\ hasDescriptor h sk.

(** The precedence of the locations: user, then project, then managed. *)
Definition rank (l : SkillLocation) : nat :=
  match l with user => 0 | project => 1 | managed => 2 end.

(** [x] at index [i] and [y] at index [j]: whenever the location of [x]
    comes before that of [y], so does [x] before [y]. *)
Definition inPrecedenceOrder (l : list Skill) : Prop :=
  forall i j x y,
    nth_error l i = Some x -> nth_error l j = Some y ->
    (rank (location x) < rank (location y))%nat -> (i < j)%nat.

(** lines 100-105 *)
Definition loadUserSkills (h : Host) : result (list Skill) :=
  match homedir h with
  | Throw e => Throw e
  | Ok homeDir =>
      let userSkillsPath := Path.join homeDir [".claude"; "skills"] in
      loadSkillsFromDirectory h userSkillsPath user None
  end.

(** lines 110-115 *)
Definition loadProjectSkills (h : Host) : result (list Skill) :=
  match cwd h with
  | Throw e => Throw e
  | Ok cwd =>
      let projectSkillsPath := Path.join cwd [".claude"; "skills"] in
      loadSkillsFromDirectory h projectSkillsPath project None
  end.

(** lines 120-164; [os.homedir()] is called before the [try]. *)
Definition loadManagedSkills (h : Host) : result (list Skill) :=
  match homedir h with
  | Throw e => Throw e
  | Ok homeDir =>
      let pluginsPath := Path.join homeDir [".claude"; "plugins"; "marketplaces"] in
      returning_array
        (try_catch
           (if negb (existsSync h pluginsPath) then ret tt
            else
              marketplaces <- lift (readdirNames h pluginsPath) ;;
              for_of marketplaces (fun marketplace =>
                let marketplacePath := Path.join2 pluginsPath marketplace in
                let pluginsDir := Path.join2 marketplacePath "plugins" in
                if negb (existsSync h pluginsDir) then ret tt
                else
                  plugins <- lift (readdirNames h pluginsDir) ;;
                  for_of plugins (fun pluginName =>
                    let pluginPath := Path.join2 pluginsDir pluginName in
                    let skillsDir := Path.join2 pluginPath "skills" in
                    if existsSync h skillsDir
                    then
                      pluginSkills <- lift (loadSkillsFromDirectory h skillsDir managed
                                                                    (Some pluginName)) ;;
                      push_all pluginSkills
                    else ret tt)))
           (fun error => ret tt))
  end.

(** The [try] block of [loadSkills] (lines 68-88) over the outcomes of its
    three scans. *)
Definition loadSkills_try (now : Z)
           (userScan projectScan managedScan : result (list Skill))
  : M t (JsArray Skill) :=
  skills <- new_array [] ;;
  userSkills <- lift userScan ;;
  let skills := push_spread skills userSkills in
  projectSkills <- lift projectScan ;;
  let skills := push_spread skills projectSkills in
  managedSkills <- lift managedScan ;;
  let skills := push_spread skills managedSkills in
  set_cachedSkills (Some skills) ;;
  set_lastLoadTime now ;;
  ret skills.

(** The [catch] block (lines 90-94). *)
Definition loadSkills_catch (error : exn) : M t (JsArray Skill) :=
  empty <- new_array [] ;;
  set_cachedSkills (Some empty) ;;
  new_array [].

(** [loadSkills] (lines 59-95) over the outcomes of its three scans. *)
Definition loadSkills_with (now : Z)
           (userScan projectScan managedScan : result (list Skill))
           (forceReload : bool) : M t (JsArray Skill) :=
  fun st =>
    match cachedSkills st, forceReload with
    | Some cached, false => (Ok cached, st)
    | _, _ =>
        try_catch (loadSkills_try now userScan projectScan managedScan)
                  loadSkills_catch st
    end.

Definition loadSkills (h : Host) (forceReload : bool) : M t (JsArray Skill) :=
  loadSkills_with (Date_now h) (loadUserSkills h) (loadProjectSkills h)
                  (loadManagedSkills h) forceReload.

Definition matchesSkill (skillName location : jsval) (s : Skill) : bool :=
  Js.strict_eq_str (name s) skillName
  && Js.strict_eq_str (location_str (SkillsManager.location s)) location.

(** lines 231-271.  The router passes [message.skillName] and
    [message.location] as they arrive, so both are [jsval]s. *)
Definition getSkillDetails (h : Host) (skillName location : jsval)
  : M t (option SkillDetails) :=
  try_catch
    (skills <- loadSkills h false ;;
     match find (matchesSkill skillName location) (elems skills) with
     | None => ret None
     | Some skill =>
         let skillJsonPath := Path.join2 (path skill) "skill.json" in
         let readmePath := Path.join2 (path skill) "README.md" in
         let promptPath := Path.join2 (path skill) "prompt.md" in
         json <- lift (readIfExists h skillJsonPath (JSON_parse h)) ;;
         readme <- lift (readIfExists h readmePath Ok) ;;
         prompt <- lift (readIfExists h promptPath Ok) ;;
         ret (Some {| skill := skill;
                      skillJson := json;
                      readmeContent := readme;
                      promptContent := prompt |})
     end)
    (fun error => ret None).

(** [field?.toLowerCase().includes(lowerQuery)] as a condition:
    [undefined] (a short-circuited chain) counts as false. *)
Definition optIncludes (what : string) (field : jsval) (lowerQuery : string)
  : result bool :=
  match field with
  | JUndefined | JNull => Ok false
  | _ =>
      match Js.call_toLowerCase what field with
      | Throw e => Throw e
      | Ok lower => Ok (Js.includes lower lowerQuery)
      end
  end.

(** The callback of [skills.filter] (lines 283-295). *)
Definition searchPredicate (lowerQuery : string) (locationFilter : option SkillLocation)
           (skill : Skill) : result bool :=
  if match locationFilter with
     | Some f => negb (location_eqb (SkillsManager.location skill) f)
     | None => false
     end
  then Ok false
  else
    let matchesName := Js.includes (Js.toLowerCase (name skill)) lowerQuery in
    match optIncludes "skill.description?" (description skill) lowerQuery with
    | Throw e => Throw e
    | Ok matchesDescription =>
        let matchesPlugin :=
          match pluginName skill with
          | Some p => Js.includes (Js.toLowerCase p) lowerQuery
          | None => false
          end in
        Ok (matchesName || matchesDescription || matchesPlugin)
    end.

(** lines 279-296 *)
Definition searchSkills (h : Host) (query : jsval) (locationFilter : option SkillLocation)
  : M t (list Skill) :=
  skills <- loadSkills h false ;;
  lowerQuery <- lift (Js.call_toLowerCase "query" query) ;;
  lift (filter_r (searchPredicate lowerQuery locationFilter) (elems skills)).

(** A description of the declared type [string | undefined]. *)
Definition stringDescription (s : Skill) : Prop :=
  description s = JUndefined \/ exists d, description s = JStr d.

(** The search criterion in the words of the specification: the entry
    passes the location filter, and its name, its description when present
    or its plugin name when present contains the lower-cased query, the
    field being lower-cased too. *)
Definition matchesQuery (lowerQuery : string) (locationFilter : option SkillLocation)
           (s : Skill) : bool :=
  match locationFilter with
  | Some f => location_eqb (SkillsManager.location s) f
  | None => true
  end
  && (Js.includes (Js.toLowerCase (name s)) lowerQuery
      || match description s with
         | JStr d => Js.includes (Js.toLowerCase d) lowerQuery
         | _ => false
         end
      || match pluginName s with
         | Some p => Js.includes (Js.toLowerCase p) lowerQuery
         | None => false
         end).

(** lines 301-305 *)
Definition clearCache : M t unit :=
  set_cachedSkills None ;; set_lastLoadTime 0.

(** lines 310-312 *)
Definition getCachedSkills (st : t) : list Skill :=
  match cachedSkills st with
  | Some a => elems a
  | None => []
  end.

End SkillsManager.

(** ** AgentsManager.ts *)
Module AgentsManager.

Record Agent : Type := {
  name : string;
  path : string;
  description : option string;
  hasReadme : bool
}.

Record AgentDetails : Type := {
  agent : Agent;                       (* the fields copied by { ...agent } *)
  content : option string;
  readmeContent : option string
}.

Record t : Type := {
  next_id : nat;
  cachedAgents : option (JsArray Agent);
  lastLoadTime : Z
}.

Definition init : t := {| next_id := 0; cachedAgents := None; lastLoadTime := 0 |}.

Definition new_array (l : list Agent) : M t (JsArray Agent) :=
  fun st =>
    (Ok {| id := next_id st; elems := l |},
     {| next_id := S (next_id st);
        cachedAgents := cachedAgents st;
        lastLoadTime := lastLoadTime st |}).

Definition set_cachedAgents (c : option (JsArray Agent)) : M t unit :=
  fun st =>
    (Ok tt, {| next_id := next_id st; cachedAgents := c; lastLoadTime := lastLoadTime st |}).

Definition set_lastLoadTime (z : Z) : M t unit :=
  fun st =>
    (Ok tt, {| next_id := next_id st; cachedAgents := cachedAgents st; lastLoadTime := z |}).

(** The body of the inner [try] of [loadAgentsFromDirectory] up to the
    object literal (lines 102-110). *)
Definition readAgent (h : Host) (dirPath file : string) : result Agent :=
  let agentPath := Path.join2 dirPath file in
  let agentName := Path.basename file ".md" in
  let readmePath := Path.join dirPath [agentName; "README.md"] in
  match readFileSync h agentPath with
  | Throw e => Throw e
  | Ok content =>
      Ok {| name := agentName;
            path := agentPath;
            description := Markdown.extractDescription content;
            hasReadme := existsSync h readmePath |}
  end.

(** lines 81-123 *)
Definition loadAgentsFromDirectory (h : Host) (dirPath : string) : result (list Agent) :=
  returning_array
    (try_catch
       (if negb (existsSync h dirPath) then ret tt
        else
          files <- lift (readdirNames h dirPath) ;;
          for_of files (fun file =>
            if negb (Js.endsWith file ".md") then ret tt
            else
              try_catch
                (agent <- lift (readAgent h dirPath file) ;;
                 push agent)
                (fun error => ret tt)))
       (fun error => ret tt)).

(** What one iteration of the loop adds to the array. *)
Definition keptAgent (h : Host) (dirPath file : string) : list Agent :=
  if Js.endsWith file ".md"
  then match readAgent h dirPath file with
       | Ok agent => [agent]
       | Throw _ => []
       end
  else [].

(** The [try] block of [loadAgents] (lines 58-69) over the outcome of its
    scan; the array the scan returns is the one that is cached. *)
Definition loadAgents_try (now : Z) (scan : result (list Agent)) : M t (JsArray Agent) :=
  scanned <- lift scan ;;
  agents <- new_array scanned ;;
  set_cachedAgents (Some agents) ;;
  set_lastLoadTime now ;;
  ret agents.

(** The [catch] block (lines 71-75). *)
Definition loadAgents_catch (error : exn) : M t (JsArray Agent) :=
  empty <- new_array [] ;;
  set_cachedAgents (Some empty) ;;
  new_array [].

(** [loadAgents] (lines 49-76) over the outcome of its scan. *)
Definition loadAgents_with (now : Z) (scan : result (list Agent)) (forceReload : bool)
  : M t (JsArray Agent) :=
  fun st =>
    match cachedAgents st, forceReload with
    | Some cached, false => (Ok cached, st)
    | _, _ => try_catch (loadAgents_try now scan) loadAgents_catch st
    end.

(** Lines 59-62: the home directory is asked for inside the [try], and
    the scan is given the agents directory under it. *)
Definition scanAgents (h : Host) : result (list Agent) :=
  match homedir h with
  | Throw e => Throw e
  | Ok homeDir =>
      let agentsPath := Path.join homeDir [".claude"; "agents"] in
      loadAgentsFromDirectory h agentsPath
  end.

Definition loadAgents (h : Host) (forceReload : bool) : M t (JsArray Agent) :=
  loadAgents_with (Date_now h) (scanAgents h) forceReload.

Definition matchesAgent (agentName : jsval) (a : Agent) : bool :=
  Js.strict_eq_str (name a) agentName.

(** lines 151-181 *)
Definition getAgentDetails (h : Host) (agentName : jsval) : M t (option AgentDetails) :=
  try_catch
    (agents <- loadAgents h false ;;
     match find (matchesAgent agentName) (elems agents) with
     | None => ret None
     | Some agent =>
         content <- lift (readIfExists h (path agent) Ok) ;;
         homeDir <- lift (homedir h) ;;
         readmePath <- lift (Path.joinChecked homeDir [".claude"; "agents"]
                                              agentName ["README.md"]) ;;
         readme <- lift (readIfExists h readmePath Ok) ;;
         ret (Some {| agent := agent; content := content; readmeContent := readme |})
     end)
    (fun error => ret None).

(** The callback of [agents.filter] (lines 190-195). *)
Definition searchPredicate (lowerQuery : string) (agent : Agent) : result bool :=
  let matchesName := Js.includes (Js.toLowerCase (name agent)) lowerQuery in
  let matchesDescription :=
    match description agent with
    | Some d => Js.includes (Js.toLowerCase d) lowerQuery
    | None => false
    end in
  Ok (matchesName || matchesDescription).

(** lines 186-196 *)
Definition searchAgents (h : Host) (query : jsval) : M t (list Agent) :=
  agents <- loadAgents h false ;;
  lowerQuery <- lift (Js.call_toLowerCase "query" query) ;;
  lift (filter_r (searchPredicate lowerQuery) (elems agents)).

(** lines 201-205 *)
Definition clearCache : M t unit :=
  set_cachedAgents None ;; set_lastLoadTime 0.

(** lines 210-212 *)
Definition getCachedAgents (st : t) : list Agent :=
  match cachedAgents st with
  | Some a => elems a
  | None => []
  end.

End AgentsManager.

(** ** CommandsManager.ts *)
Module CommandsManager.

Record Command : Type := {
  name : string;
  path : string;
  description : option string;
  usage : option string;               (* declared, never assigned *)
  hasReadme : bool
}.

Record CommandDetails : Type := {
  command : Command;                       (* the fields copied by { ...command } *)
  content : option string;
  readmeContent : option string
}.

Record t : Type := {
  next_id : nat;
  cachedCommands : option (JsArray Command);
  lastLoadTime : Z
}.

Definition init : t := {| next_id := 0; cachedCommands := None; lastLoadTime := 0 |}.

Definition new_array (l : list Command) : M t (JsArray Command) :=
  fun st =>
    (Ok {| id := next_id st; elems := l |},
     {| next_id := S (next_id st);
        cachedCommands := cachedCommands st;
        lastLoadTime := lastLoadTime st |}).

Definition set_cachedCommands (c : option (JsArray Command)) : M t unit :=
  fun st =>
    (Ok tt, {| next_id := next_id st; cachedCommands := c; lastLoadTime := lastLoadTime st |}).

Definition set_lastLoadTime (z : Z) : M t unit :=
  fun st =>
    (Ok tt, {| next_id := next_id st; cachedCommands := cachedCommands st; lastLoadTime := z |}).

(** The body of the inner [try] of [loadCommandsFromDirectory] up to the
    object literal (lines 103-111). *)
Definition readCommand (h : Host) (dirPath file : string) : result Command :=
  let commandPath := Path.join2 dirPath file in
  let commandName := Path.basename file ".md" in
  let readmePath := Path.join dirPath [commandName; "README.md"] in
  match readFileSync h commandPath with
  | Throw e => Throw e
  | Ok content =>
      Ok {| name := commandName;
            path := commandPath;
            description := Markdown.extractDescription content;
            usage := None;
            hasReadme := existsSync h readmePath |}
  end.

(** lines 82-124 *)
Definition loadCommandsFromDirectory (h : Host) (dirPath : string) : result (list Command) :=
  returning_array
    (try_catch
       (if negb (existsSync h dirPath) then ret tt
        else
          files <- lift (readdirNames h dirPath) ;;
          for_of files (fun file =>
            if negb (Js.endsWith file ".md") then ret tt
            else
              try_catch
                (command <- lift (readCommand h dirPath file) ;;
                 push command)
                (fun error => ret tt)))
       (fun error => ret tt)).

(** What one iteration of the loop adds to the array. *)
Definition keptCommand (h : Host) (dirPath file : string) : list Command :=
  if Js.endsWith file ".md"
  then match readCommand h dirPath file with
       | Ok command => [command]
       | Throw _ => []
       end
  else [].

(** The [try] block of [loadCommands] (lines 59-70) over the outcome of its
    scan; the array the scan returns is the one that is cached. *)
Definition loadCommands_try (now : Z) (scan : result (list Command)) : M t (JsArray Command) :=
  scanned <- lift scan ;;
  commands <- new_array scanned ;;
  set_cachedCommands (Some commands) ;;
  set_lastLoadTime now ;;
  ret commands.

(** The [catch] block (lines 72-76). *)
Definition loadCommands_catch (error : exn) : M t (JsArray Command) :=
  empty <- new_array [] ;;
  set_cachedCommands (Some empty) ;;
  new_array [].

(** [loadCommands] (lines 50-77) over the outcome of its scan. *)
Definition loadCommands_with (now : Z) (scan : result (list Command)) (forceReload : bool)
  : M t (JsArray Command) :=
  fun st =>
    match cachedCommands st, forceReload with
    | Some cached, false => (Ok cached, st)
    | _, _ => try_catch (loadCommands_try now scan) loadCommands_catch st
    end.

(** Lines 60-63: the home directory is asked for inside the [try], and
    the scan is given the commands directory under it. *)
Definition scanCommands (h : Host) : result (list Command) :=
  match homedir h with
  | Throw e => Throw e
  | Ok homeDir =>
      let commandsPath := Path.join homeDir [".claude"; "commands"] in
      loadCommandsFromDirectory h commandsPath
  end.

Definition loadCommands (h : Host) (forceReload : bool) : M t (JsArray Command) :=
  loadCommands_with (Date_now h) (scanCommands h) forceReload.

Definition matchesCommand (commandName : jsval) (c : Command) : bool :=
  Js.strict_eq_str (name c) commandName.

(** lines 152-182 *)
Definition getCommandDetails (h : Host) (commandName : jsval) : M t (option CommandDetails) :=
  try_catch
    (commands <- loadCommands h false ;;
     match find (matchesCommand commandName) (elems commands) with
     | None => ret None
     | Some command =>
         content <- lift (readIfExists h (path command) Ok) ;;
         homeDir <- lift (homedir h) ;;
         readmePath <- lift (Path.joinChecked homeDir [".claude"; "commands"]
                                              commandName ["README.md"]) ;;
         readme <- lift (readIfExists h readmePath Ok) ;;
         ret (Some {| command := command; content := content; readmeContent := readme |})
     end)
    (fun error => ret None).

(** The callback of [commands.filter] (lines 191-196). *)
Definition searchPredicate (lowerQuery : string) (command : Command) : result bool :=
  let matchesName := Js.includes (Js.toLowerCase (name command)) lowerQuery in
  let matchesDescription :=
    match description command with
    | Some d => Js.includes (Js.toLowerCase d) lowerQuery
    | None => false
    end in
  Ok (matchesName || matchesDescription).

(** lines 187-197 *)
Definition searchCommands (h : Host) (query : jsval) : M t (list Command) :=
  commands <- loadCommands h false ;;
  lowerQuery <- lift (Js.call_toLowerCase "query" query) ;;
  lift (filter_r (searchPredicate lowerQuery) (elems commands)).

(** lines 202-206 *)
Definition clearCache : M t unit :=
  set_cachedCommands None ;; set_lastLoadTime 0.

(** lines 211-213 *)
Definition getCachedCommands (st : t) : list Command :=
  match cachedCommands st with
  | Some a => elems a
  | None => []
  end.

End CommandsManager.

(** ** ManagementViewProvider.ts: the message router *)
Module ManagementViewProvider.

(** A message from the webview: an object whose properties are read as
    they come; a property that is not there reads [JUndefined]. *)
Record Message : Type := {
  type : jsval;
  requestId : jsval;
  pluginId : jsval;
  skillName : jsval;
  location : jsval;
  query : jsval;
  commandName : jsval;
  agentName : jsval
}.

Section Router.

(** services/PluginManager.ts is not among the sources: its plugin
    records, its state and its four methods are parameters, free to
    return anything or to throw. *)
Variable Plugin : Type.
Variable rawName : Plugin -> jsval.
Variable PluginManager : Type.
Variable loadInstalledPlugins : bool -> M PluginManager (list Plugin).
Variable getPluginEnabledStatus : jsval -> M PluginManager bool.
Variable enablePlugin : jsval -> M PluginManager bool.
Variable disablePlugin : jsval -> M PluginManager bool.

Inductive Payload : Type :=
| PluginsData (plugins : list (Plugin * bool))        (* { ...plugin, enabled } *)
| PluginResult (pluginId : jsval) (success : bool)    (* { pluginId, success } *)
| PluginEnabledStatus (pluginId : jsval) (enabled : bool)
| SkillsData (skills : list SkillsManager.Skill)
| SkillDetailsData (details : option SkillsManager.SkillDetails)
| CommandsData (commands : list CommandsManager.Command)
| CommandDetailsData (details : option CommandsManager.CommandDetails)
| AgentsData (agents : list AgentsManager.Agent)
| AgentDetailsData (details : option AgentsManager.AgentDetails).

(** What [postMessage] is given: [{ type, requestId, data }] or
    [{ type: 'error', requestId, error }]. *)
Inductive Outgoing : Type :=
| Response (type : string) (requestId : jsval) (data : Payload)
| ErrorResponse (requestId : jsval) (error : string).



(** [showInformationMessage(`Plugin "${pluginId}" enabled`)] and its
    [disabled] twin, by the value spliced into the text. *)
Inductive Notice : Type :=
| PluginEnabledNotice (pluginId : jsval)
| PluginDisabledNotice (pluginId : jsval).

(** The provider with its four managers; [panel] tells whether
    [_panel] is set, [posted] is what the webview has been sent and
    [notifications] what [showInformationMessage] has shown. *)
Record State : Type := {
  panel : bool;
  posted : list Outgoing;
  notifications : list Notice;
  pluginManager : PluginManager;
  skillsManager : SkillsManager.t;
  commandsManager : CommandsManager.t;
  agentsManager : AgentsManager.t
}.

Definition onPlugins {A} (m : M PluginManager A) : M State A :=
  fun st =>
    let (r, pm) := m (pluginManager st) in
    (r, {| panel := panel st; posted := posted st; notifications := notifications st;
           pluginManager := pm; skillsManager := skillsManager st;
           commandsManager := commandsManager st; agentsManager := agentsManager st |}).

Definition onSkills {A} (m : M SkillsManager.t A) : M State A :=
  fun st =>
    let (r, sm) := m (skillsManager st) in
    (r, {| panel := panel st; posted := posted st; notifications := notifications st;
           pluginManager := pluginManager st; skillsManager := sm;
           commandsManager := commandsManager st; agentsManager := agentsManager st |}).

Definition onCommands {A} (m : M CommandsManager.t A) : M State A :=
  fun st =>
    let (r, cm) := m (commandsManager st) in
    (r, {| panel := panel st; posted := posted st; notifications := notifications st;
           pluginManager := pluginManager st; skillsManager := skillsManager st;
           commandsManager := cm; agentsManager := agentsManager st |}).

Definition onAgents {A} (m : M AgentsManager.t A) : M State A :=
  fun st =>
    let (r, am) := m (agentsManager st) in
    (r, {| panel := panel st; posted := posted st; notifications := notifications st;
           pluginManager := pluginManager st; skillsManager := skillsManager st;
           commandsManager := commandsManager st; agentsManager := am |}).

(** lines 290-294 *)
Definition _sendMessage (message : Outgoing) : M State unit :=
  fun st =>
    if panel st
    then (Ok tt,
          {| panel := panel st; posted := (posted st ++ [message])%list;
             notifications := notifications st;
             pluginManager := pluginManager st; skillsManager := skillsManager st;
             commandsManager := commandsManager st; agentsManager := agentsManager st |})
    else (Ok tt, st).

(** [vscode.window.showInformationMessage(text)] *)
Definition showInformationMessage (text : Notice) : M State unit :=
  fun st =>
    (Ok tt,
     {| panel := panel st; posted := posted st;
        notifications := (notifications st ++ [text])%list;
        pluginManager := pluginManager st; skillsManager := skillsManager st;
        commandsManager := commandsManager st; agentsManager := agentsManager st |}).

(** [plugins.map(plugin => ({ ...plugin, enabled: ... }))] *)
Fixpoint withStatus (plugins : list Plugin) : M PluginManager (list (Plugin * bool)) :=
  match plugins with
  | [] => ret []
  | plugin :: rest =>
      enabled <- (if Js.truthy (rawName plugin)
                  then getPluginEnabledStatus (rawName plugin)
                  else ret true) ;;
      others <- withStatus rest ;;
      ret ((plugin, enabled) :: others)
  end.

(** lines 157-171 *)
Definition _handleGetPlugins (requestId : jsval) : M State unit :=
  plugins <- onPlugins (loadInstalledPlugins false) ;;
  pluginsWithStatus <- onPlugins (withStatus plugins) ;;
  _sendMessage (Response "pluginsData" requestId (PluginsData pluginsWithStatus)).

(** lines 173-185 *)
Definition _handleEnablePlugin (pluginId requestId : jsval) : M State unit :=
  success <- onPlugins (enablePlugin pluginId) ;;
  _sendMessage (Response "pluginEnabled" requestId (PluginResult pluginId success)) ;;
  if success
  then showInformationMessage (PluginEnabledNotice pluginId)
  else ret tt.

(** lines 187-199 *)
Definition _handleDisablePlugin (pluginId requestId : jsval) : M State unit :=
  success <- onPlugins (disablePlugin pluginId) ;;
  _sendMessage (Response "pluginDisabled" requestId (PluginResult pluginId success)) ;;
  if success
  then showInformationMessage (PluginDisabledNotice pluginId)
  else ret tt.

(** lines 201-209 *)
Definition _handleGetPluginStatus (pluginId requestId : jsval) : M State unit :=
  enabled <- onPlugins (getPluginEnabledStatus pluginId) ;;
  _sendMessage (Response "pluginStatus" requestId (PluginEnabledStatus pluginId enabled)).

(** lines 213-221 *)
Definition _handleGetSkills (h : Host) (requestId : jsval) : M State unit :=
  skills <- onSkills (SkillsManager.loadSkills h false) ;;
  _sendMessage (Response "skillsData" requestId (SkillsData (elems skills))).

(** lines 223-231 *)
Definition _handleGetSkillDetails (h : Host) (skillName location requestId : jsval)
  : M State unit :=
  details <- onSkills (SkillsManager.getSkillDetails h skillName location) ;;
  _sendMessage (Response "skillDetails" requestId (SkillDetailsData details)).

(** lines 233-241 *)
Definition _handleSearchSkills (h : Host) (query requestId : jsval) : M State unit :=
  skills <- onSkills (SkillsManager.searchSkills h query None) ;;
  _sendMessage (Response "skillsSearchResults" requestId (SkillsData skills)).

(** lines 245-253 *)
Definition _handleGetCommands (h : Host) (requestId : jsval) : M State unit :=
  commands <- onCommands (CommandsManager.loadCommands h false) ;;
  _sendMessage (Response "commandsData" requestId (CommandsData (elems commands))).

(** lines 255-263 *)
Definition _handleGetCommandDetails (h : Host) (commandName requestId : jsval)
  : M State unit :=
  details <- onCommands (CommandsManager.getCommandDetails h commandName) ;;
  _sendMessage (Response "commandDetails" requestId (CommandDetailsData details)).

(** lines 267-275 *)
Definition _handleGetAgents (h : Host) (requestId : jsval) : M State unit :=
  agents <- onAgents (AgentsManager.loadAgents h false) ;;
  _sendMessage (Response "agentsData" requestId (AgentsData (elems agents))).

(** lines 277-285 *)
Definition _handleGetAgentDetails (h : Host) (agentName requestId : jsval)
  : M State unit :=
  details <- onAgents (AgentsManager.getAgentDetails h agentName) ;;
  _sendMessage (Response "agentDetails" requestId (AgentDetailsData details)).

(** The request tags of the [switch] (lines 92-140). *)
Definition knownTags : list string :=
  ["getPlugins"; "enablePlugin"; "disablePlugin"; "getPluginStatus";
   "getSkills"; "getSkillDetails"; "searchSkills";
   "getCommands"; "getCommandDetails";
   "getAgents"; "getAgentDetails"].

Definition recognized (message : Message) : bool :=
  existsb (fun tag => Js.strict_eq_str tag (type message)) knownTags.

(** The [switch] inside the [try] (lines 90-143); [default] only logs. *)
Definition dispatch (h : Host) (message : Message) : M State unit :=
  let requestId := requestId message in
  let tag_is tag := Js.strict_eq_str tag (type message) in
  if tag_is "getPlugins" then _handleGetPlugins requestId
  else if tag_is "enablePlugin" then _handleEnablePlugin (pluginId message) requestId
  else if tag_is "disablePlugin" then _handleDisablePlugin (pluginId message) requestId
  else if tag_is "getPluginStatus" then _handleGetPluginStatus (pluginId message) requestId
  else if tag_is "getSkills" then _handleGetSkills h requestId
  else if tag_is "getSkillDetails"
       then _handleGetSkillDetails h (skillName message) (location message) requestId
  else if tag_is "searchSkills" then _handleSearchSkills h (query message) requestId
  else if tag_is "getCommands" then _handleGetCommands h requestId
  else if tag_is "getCommandDetails"
       then _handleGetCommandDetails h (commandName message) requestId
  else if tag_is "getAgents" then _handleGetAgents h requestId
  else if tag_is "getAgentDetails"
       then _handleGetAgentDetails h (agentName message) requestId
  else ret tt.

(** [error instanceof Error ? error.message : 'Unknown error'] *)
Definition errorText (error : exn) : string :=
  match error with
  | JsError message => message
  | JsThrown _ => "Unknown error"
  end.

(** lines 86-153 *)
Definition _handleMessage (h : Host) (message : Message) : M State unit :=
  try_catch
    (dispatch h message)
    (fun error =>
       _sendMessage (ErrorResponse (requestId message) (errorText error))).

(** A computation that leaves the panel and the posted messages as
    they are, whatever its outcome. *)
Definition quiet {A} (m : M State A) : Prop :=
  forall st, panel (snd (m st)) = panel st /\ posted (snd (m st)) = posted st.

(** A handler of the request [requestId]: it leaves the panel alone; if
    it throws it has posted nothing; if it returns it has posted, to
    the panel if there is one, one response that carries [requestId]. *)
Definition responds (requestId : jsval) (m : M State unit) : Prop :=
  forall st,
    panel (snd (m st)) = panel st
    /\ match fst (m st) with
       | Throw _ => posted (snd (m st)) = posted st
       | Ok _ =>
           exists type data,
             posted (snd (m st))
             = (posted st ++ if panel st then [Response type requestId data] else [])%list
       end.

End Router.

Arguments Response {Plugin} type requestId data.
Arguments ErrorResponse {Plugin} requestId error.

End ManagementViewProvider.

(** ** The description heuristic in the words of the specification

    "(1) look for a leading delimited block bounded by a fixed marker line
    at content start and the same marker recurring; if found, search within
    it for a [description:] keyed line and take the remainder of that line,
    trimmed; (2) else look for the first line beginning with a single [#]
    heading marker and take the remainder, trimmed; (3) else no
    description." *)
Module DescriptionSpec.

(** The lines of a text, split at line feeds. *)
Fixpoint lines_from (current rest : string) : list string :=
  match rest with
  | EmptyString => [current]
  | String c rest' =>
      if Ascii.eqb c LF
      then current :: lines_from EmptyString rest'
      else lines_from (current ++ String c EmptyString) rest'
  end.

Definition lines (content : string) : list string := lines_from EmptyString content.

Definition marker : string := "---".

Fixpoint drop (n : nat) (s : string) : string :=
  match n, s with
  | S n', String _ s' => drop n' s'
  | _, _ => s
  end.

(** A line that holds the marker and nothing else but white space. *)
Definition markerLine (l : string) : bool := String.eqb (Js.trim l) marker.

(** The lines before the next marker line, when the marker recurs. *)
Fixpoint untilMarker (ls : list string) : option (list string) :=
  match ls with
  | [] => None
  | l :: rest =>
      if markerLine l then Some []
      else match untilMarker rest with
           | Some block => Some (l :: block)
           | None => None
           end
  end.

Definition leadingBlock (content : string) : option (list string) :=
  match lines content with
    | first :: rest => if markerLine first then untilMarker rest else None
  | [] => None
  end.

(** The trimmed remainder of the first line that begins with [key]. *)
Fixpoint remainderOfFirst (begins : string -> bool) (skip : nat) (ls : list string)
  : option string :=
  match ls with
  | [] => None
  | l :: rest =>
      if begins l then Some (Js.trim (drop skip l))
      else remainderOfFirst begins skip rest
  end.

Definition keyedLine (l : string) : bool := String.prefix "description:" l.

(** A line beginning with the heading marker: one [#], then the end of
    the line or white space. *)
Definition headingLine (l : string) : bool :=
  match l with
  | String c rest =>
      Ascii.eqb c "#"%char
      && match rest with
         | EmptyString => true
         | String c' _ => Js.is_space c'
         end
  | EmptyString => false
  end.

Definition headingOf (content : string) : option string :=
  remainderOfFirst headingLine 1 (lines content).

Definition describe (content : string) : option string :=
  match leadingBlock content with
  | Some block =>
      match remainderOfFirst keyedLine (String.length "description:") block with
      | Some d => Some d
      | None => headingOf content
      end
  | None => headingOf content
  end.

End DescriptionSpec.

(** ** A file system to run the code on *)
Module Sample.

Fixpoint lookup {V} (k : string) (table : list (string * V)) : option V :=
  match table with
  | [] => None
  | (k', v) :: rest => if String.eqb k k' then Some v else lookup k rest
  end.

Definition present {V} (k : string) (table : list (string * V)) : bool :=
  match lookup k table with Some _ => true | None => false end.

(** A host from its regular files, its directories with their listings,
    and the JSON texts it holds with their values; any other text is
    rejected by [JSON_parse], so the files of the host hold either a listed
    document or a text that is not JSON. *)
Definition hostWith (files : list (string * string))
           (dirs : list (string * list Dirent))
           (documents : list (string * jsval))
           (home work : result string) (now : Z) : Host :=
  {| existsSync := fun p => present p files || present p dirs;
     readdirSync := fun p =>
       match lookup p dirs with
       | Some entries => Ok entries
       | None => Throw (JsError ("ENOTDIR: not a directory, scandir '" ++ p ++ "'"))
       end;
     readFileSync := fun p =>
       match lookup p files with
       | Some text => Ok text
       | None => Throw (JsError ("EISDIR: illegal operation on a directory, read"))
       end;
     JSON_parse := fun text =>
       match lookup text documents with
       | Some v => Ok v
       | None => Throw (JsError "Unexpected token in JSON")
       end;
     homedir := home;
     cwd := work;
     Date_now := now |}.

(** A host on which the home and the working directory are known. *)
Definition hostOf (files : list (string * string))
           (dirs : list (string * list Dirent))
           (documents : list (string * jsval))
           (home work : string) (now : Z) : Host :=
  hostWith files dirs documents (Ok home) (Ok work) now.

Definition dir (n : string) : Dirent := {| d_name := n; isDirectory := true |}.
Definition file (n : string) : Dirent := {| d_name := n; isDirectory := false |}.

Definition home : string := "/home/u".
Definition work : string := "/work".
Definition userSkills : string := Path.join home [".claude"; "skills"].
Definition projectSkills : string := Path.join work [".claude"; "skills"].
Definition marketplaces : string := Path.join home [".claude"; "plugins"; "marketplaces"].
Definition pluginsDir : string := Path.join marketplaces ["mk"; "plugins"].
Definition pluginSkills : string := Path.join pluginsDir ["plug"; "skills"].
Definition agentsDir : string := Path.join home [".claude"; "agents"].
Definition commandsDir : string := Path.join home [".claude"; "commands"].

(** [{"description":"does foo"}], [{}], [{"description":"Managed Baz"}],
    [{"description":42}] *)
Definition fooJson : string :=
  "{" ++ dq ++ "description" ++ dq ++ ":" ++ dq ++ "does foo" ++ dq ++ "}".
Definition emptyJson : string := "{}".
Definition bazJson : string :=
  "{" ++ dq ++ "description" ++ dq ++ ":" ++ dq ++ "Managed Baz" ++ dq ++ "}".
Definition oddJson : string := "{" ++ dq ++ "description" ++ dq ++ ":42}".

Definition documents : list (string * jsval) :=
  [ (fooJson, JObj [("description", JStr "does foo")]);
    (emptyJson, JObj []);
    (bazJson, JObj [("description", JStr "Managed Baz")]);
    (oddJson, JObj [("description", JNum 42)]) ].

Definition helperMd : string :=
  "---" ++ nl ++ "description: hello" ++ nl ++ "---" ++ nl ++ "# Title".

(** User skills [foo] (descriptor only), [broken] (a descriptor that is not
    JSON) and [bare] (README.md and prompt.md, no descriptor), next to a
    plain file; project skill [bar] with a README; plugin [plug] of
    marketplace [mk] with skill [baz]; agents [helper.md] and [ghost.md]
    (a directory, so reading it fails); command [build.md]. *)
Definition files : list (string * string) :=
  [ (Path.join userSkills ["foo"; "skill.json"], fooJson);
    (Path.join userSkills ["broken"; "skill.json"], "{ not json");
    (Path.join userSkills ["bare"; "README.md"], "# Bare");
    (Path.join userSkills ["bare"; "prompt.md"], "Do it.");
    (Path.join userSkills ["notes.txt"], "notes");
    (Path.join projectSkills ["bar"; "skill.json"], emptyJson);
    (Path.join projectSkills ["bar"; "README.md"], "# Bar");
    (Path.join pluginSkills ["baz"; "skill.json"], bazJson);
    (Path.join agentsDir ["helper.md"], helperMd);
    (Path.join agentsDir ["notes.txt"], "notes");
    (Path.join commandsDir ["build.md"], "# Title Only") ].

Definition dirs : list (string * list Dirent) :=
  [ (userSkills, [dir "bare"; dir "foo"; file "notes.txt"; dir "broken"]);
    (Path.join userSkills ["foo"], [file "skill.json"]);
    (Path.join userSkills ["broken"], [file "skill.json"]);
    (Path.join userSkills ["bare"], [file "README.md"; file "prompt.md"]);
    (projectSkills, [dir "bar"]);
    (Path.join projectSkills ["bar"], [file "README.md"; file "skill.json"]);
    (marketplaces, [dir "mk"]);
    (pluginsDir, [dir "plug"]);
    (pluginSkills, [dir "baz"]);
    (Path.join pluginSkills ["baz"], [file "skill.json"]);
    (agentsDir, [dir "ghost.md"; file "helper.md"; file "notes.txt"]);
    (Path.join agentsDir ["ghost.md"], []);
    (commandsDir, [file "build.md"]) ].

Definition host : Host := hostOf files dirs documents home work 1700000000000.

(** The same host with one more user skill, [odd], whose descriptor gives
    a number as description. *)
Definition oddHost : Host :=
  hostOf ((Path.join userSkills ["odd"; "skill.json"], oddJson) :: files)
         ((userSkills, [dir "foo"; dir "odd"])
            :: (Path.join userSkills ["odd"], [file "skill.json"]) :: dirs)
         documents home work 1700000000000.

(** An error for a scan to throw. *)
Definition boom : exn := JsError "boom".

(** The sample host after the working directory has been removed with all
    it held: [process.cwd()] throws. *)
Definition outside {V} (entry : string * V) : bool := negb (String.prefix work (fst entry)).

Definition goneHost : Host :=
  hostWith (filter outside files) (filter outside dirs) documents
           (Ok home) (Throw (JsError "ENOENT: no such file or directory, uv_cwd"))
           1700000000000.

(** The sample host for a user without home directory: [os.homedir()]
    throws. *)
Definition homelessHost : Host :=
  hostWith files dirs documents
           (Throw (JsError "ENOENT: no such file or directory, uv_os_homedir")) (Ok work)
           1700000000000.

(** A host without any of the scanned directories. *)
Definition emptyHost : Host := hostOf [] [] [] home work 5.

(** The sample host with two more marketplaces after [mk]: [bad], whose
    [plugins] is a regular file, and [late], whose plugin [p2] has the
    skill [qux]. *)
Definition lateSkills : string := Path.join marketplaces ["late"; "plugins"; "p2"; "skills"].

Definition brokenMarketHost : Host :=
  hostOf ((Path.join marketplaces ["bad"; "plugins"], "not a directory")
            :: (Path.join lateSkills ["qux"; "skill.json"], emptyJson) :: files)
         ((marketplaces, [dir "mk"; dir "bad"; dir "late"])
            :: (Path.join marketplaces ["late"; "plugins"], [dir "p2"])
            :: (lateSkills, [dir "qux"]) :: dirs)
         documents home work 1700000000000.

(** The sample host after [foo] has lost its descriptor and gained a
    README, and [helper.md] has been removed. *)
Definition laterHost : Host :=
  hostOf [ (Path.join userSkills ["foo"; "README.md"], "# Foo");
           (Path.join commandsDir ["build.md"], "# Title Only") ]
         dirs documents home work 1700000000500.

End Sample.


(** ** A plugin registry to run the router with *)
Module SampleRouter.
Import ManagementViewProvider.

(** A plugin is its raw name; the registry has no state; listing the
    installed plugins fails with an [Error], disabling throws a string,
    and enabling and the status succeed. *)
Definition Plugin : Type := string.
Definition rawName (p : Plugin) : jsval := JStr p.
Definition Registry : Type := unit.
Definition loadInstalledPlugins (forceReload : bool) : M Registry (list Plugin) :=
  fun r => (Throw (JsError "registry unavailable"), r).
Definition getPluginEnabledStatus (pluginId : jsval) : M Registry bool := ret true.
Definition enablePlugin (pluginId : jsval) : M Registry bool := ret true.
Definition disablePlugin (pluginId : jsval) : M Registry bool :=
  fun r => (Throw (JsThrown (JStr "busy")), r).

Definition handle : Host -> Message -> M (State Plugin Registry) unit :=
  _handleMessage Plugin rawName Registry loadInstalledPlugins getPluginEnabledStatus
                 enablePlugin disablePlugin.

Definition run : Host -> Message -> M (State Plugin Registry) unit :=
  dispatch Plugin rawName Registry loadInstalledPlugins getPluginEnabledStatus
           enablePlugin disablePlugin.

(** The provider with its panel open and nothing loaded or posted. *)
Definition start : State Plugin Registry :=
  {| panel := true; posted := []; notifications := [];
     pluginManager := tt;
     skillsManager := SkillsManager.init;
     commandsManager := CommandsManager.init;
     agentsManager := AgentsManager.init |}.

(** [{ type, requestId }] with one more property for the query. *)
Definition request (type : string) (requestId : Z) (query : jsval) : Message :=
  {| type := JStr type; requestId := JNum requestId;
     pluginId := JUndefined; skillName := JUndefined; location := JUndefined;
     query := query; commandName := JUndefined; agentName := JUndefined |}.

End SampleRouter.

(** ** Readings for the rest of the code *)
Module Text.

(** [sub] occurs in [s] as a run of consecutive characters. *)
Definition occursIn (sub s : string) : Prop :=
  exists before after, s = before ++ sub ++ after.

(** Every character of [s] satisfies [p]. *)
Fixpoint every (p : ascii -> bool) (s : string) : bool :=
  match s with
  | EmptyString => true
  | String c s' => p c && every p s'
  end.

(** Atoms without the opening parenthesis of the group. *)
Definition noOpen (r : list Regex.atom) : bool :=
  forallb (fun a => match a with Regex.Open => false | _ => true end) r.

End Text.

(** Segments of paths, for what [path.join] keeps of them. *)
Module Segments.

(** An argument that [path.join] does not skip. *)
Definition present (arg : string) : bool := negb (String.eqb arg "").

(** A text without separator. *)
Fixpoint sepFree (s : string) : bool :=
  match s with
  | EmptyString => true
  | String c s' => negb (Ascii.eqb c Path.sep) && sepFree s'
  end.

(** A segment that is kept as it is. *)
Definition plain (seg : string) : bool :=
  negb (String.eqb seg "" || String.eqb seg "." || String.eqb seg "..").

(** A stack that [normalizeString] can have built, the last segment
    first: no empty and no [.] segment, and [..] only at the bottom, in a
    path that may go above its root. *)
Fixpoint normal (allowAboveRoot : bool) (res : list string) : bool :=
  match res with
  | [] => true
  | seg :: below =>
      if String.eqb seg ".."
      then allowAboveRoot && forallb (String.eqb "..") below
      else plain seg && normal allowAboveRoot below
  end.

End Segments.

Module ManagedScan.
Import SkillsManager.

(** What the inner loop of [loadManagedSkills] adds for one plugin
    (lines 144-156). *)
Definition ofPlugin (h : Host) (pluginsDir pluginName : string) : list Skill :=
  let skillsDir := Path.join2 (Path.join2 pluginsDir pluginName) "skills" in
  if existsSync h skillsDir
  then match loadSkillsFromDirectory h skillsDir managed (Some pluginName) with
       | Ok pluginSkills => pluginSkills
       | Throw _ => []
       end
  else [].

(** What the outer loop has added when it ends: the plugins of each
    marketplace in turn, up to the first marketplace whose [plugins]
    directory exists and cannot be listed; there the loop is left for the
    [catch] (lines 133-161). *)
Fixpoint ofMarketplaces (h : Host) (pluginsPath : string) (marketplaces : list string)
  : list Skill :=
  match marketplaces with
  | [] => []
  | marketplace :: rest =>
      let pluginsDir := Path.join2 (Path.join2 pluginsPath marketplace) "plugins" in
      if existsSync h pluginsDir
      then match readdirNames h pluginsDir with
           | Ok plugins =>
               (flat_map (ofPlugin h pluginsDir) plugins
                ++ ofMarketplaces h pluginsPath rest)%list
           | Throw _ => []
           end
      else ofMarketplaces h pluginsPath rest
  end.

(** A marketplace that does not stop the loop. *)
Definition listable (h : Host) (pluginsPath marketplace : string) : Prop :=
  let pluginsDir := Path.join2 (Path.join2 pluginsPath marketplace) "plugins" in
  existsSync h pluginsDir = false \/ exists plugins, readdirNames h pluginsDir = Ok plugins.

End ManagedScan.

Module SkillSearch.
Import SkillsManager.

(** A description on which [skill.description?.toLowerCase()] does not
    throw. *)
Definition searchable (s : Skill) : bool :=
  match description s with
  | JUndefined | JNull | JStr _ => true
  | _ => false
  end.

(** The entry is not excluded by the location filter. *)
Definition passesFilter (locationFilter : option SkillLocation) (s : Skill) : bool :=
  match locationFilter with
  | Some f => location_eqb (location s) f
  | None => true
  end.

End SkillSearch.

(** ** ManagementViewProvider.ts: the end of a panel *)
Module PanelLifecycle.
Import ManagementViewProvider.

Section Lifecycle.

Variable Plugin : Type.
Variable PluginManager : Type.

(** A [vscode.Disposable], by the order of its registration. *)
Definition Disposable : Type := nat.

(** The provider with [_disposables], in array order, and the
    disposables on which [dispose()] has been called, in call order. *)
Record Provider : Type := {
  view : State Plugin PluginManager;
  _disposables : list Disposable;
  disposedOf : list Disposable
}.

(** [while (a.length) { const d = a.pop(); if (d) { d.dispose(); } }] on
    the array read from its end. *)
Fixpoint popAll (fromEnd : list Disposable) (calls : list Disposable) : list Disposable :=
  match fromEnd with
  | [] => calls
  | disposable :: rest => popAll rest (calls ++ [disposable])%list
  end.

Definition closePanel (st : State Plugin PluginManager) : State Plugin PluginManager :=
  {| panel := false; posted := posted _ _ st; notifications := notifications _ _ st;
     pluginManager := pluginManager _ _ st; skillsManager := skillsManager _ _ st;
     commandsManager := commandsManager _ _ st; agentsManager := agentsManager _ _ st |}.

(** lines 398-407 *)
Definition _dispose (p : Provider) : Provider :=
  {| view := closePanel (view p);
     _disposables := [];
     disposedOf := popAll (rev (_disposables p)) (disposedOf p) |}.

(** lines 412-414 *)
Definition dispose (p : Provider) : Provider := _dispose p.

End Lifecycle.

End PanelLifecycle.

(** A plugin registry for the examples: two installed plugins, the
    second without a raw name; the state is the list of the disabled
    plugin ids; enabling or disabling reports failure for an id that is
    not installed, and asking for the status of a value that is not a
    string throws. *)
Module SampleRegistry.
Import ManagementViewProvider.

Record Plugin : Type := { name : string; raw : jsval }.

Definition rawName (p : Plugin) : jsval := raw p.

Definition installed : list Plugin :=
  [{| name := "alpha"; raw := JStr "alpha@mk" |}; {| name := "beta"; raw := JUndefined |}].

Definition Registry : Type := list string.

Definition isInstalled (pluginId : jsval) : bool :=
  existsb (fun p => match raw p with
                    | JStr r => Js.strict_eq_str r pluginId
                    | _ => false
                    end) installed.

Definition loadInstalledPlugins (forceReload : bool) : M Registry (list Plugin) :=
  ret installed.

Definition getPluginEnabledStatus (pluginId : jsval) : M Registry bool :=
  fun disabled =>
    match pluginId with
    | JStr p => (Ok (negb (existsb (String.eqb p) disabled)), disabled)
    | _ => (Throw (JsError "plugin id must be a string"), disabled)
    end.

Definition enablePlugin (pluginId : jsval) : M Registry bool :=
  fun disabled =>
    match pluginId with
    | JStr p =>
        if isInstalled pluginId
        then (Ok true, filter (fun d => negb (String.eqb p d)) disabled)
        else (Ok false, disabled)
    | _ => (Ok false, disabled)
    end.

Definition disablePlugin (pluginId : jsval) : M Registry bool :=
  fun disabled =>
    match pluginId with
    | JStr p =>
        if isInstalled pluginId
        then (Ok true, (disabled ++ [p])%list)
        else (Ok false, disabled)
    | _ => (Ok false, disabled)
    end.

Definition handle : Host -> Message -> M (State Plugin Registry) unit :=
  _handleMessage Plugin rawName Registry loadInstalledPlugins getPluginEnabledStatus
                 enablePlugin disablePlugin.

(** The provider with its panel open, nothing loaded or posted, and
    [alpha@mk] disabled. *)
Definition start : State Plugin Registry :=
  {| panel := true; posted := []; notifications := [];
     pluginManager := ["alpha@mk"];
     skillsManager := SkillsManager.init;
     commandsManager := CommandsManager.init;
     agentsManager := AgentsManager.init |}.

(** [{ type, requestId, pluginId }] *)
Definition pluginRequest (type : string) (requestId : Z) (pluginId : jsval) : Message :=
  {| type := JStr type; requestId := JNum requestId;
     pluginId := pluginId; skillName := JUndefined; location := JUndefined;
     query := JUndefined; commandName := JUndefined; agentName := JUndefined |}.

(** [{ type, requestId, skillName, location, commandName, agentName }] *)
Definition detailsRequest (type : string) (requestId : Z) (name location : jsval) : Message :=
  {| type := JStr type; requestId := JNum requestId;
     pluginId := JUndefined; skillName := name; location := location;
     query := JUndefined; commandName := name; agentName := name |}.

End SampleRegistry.

(** * Properties *)

(** ** Computations *)

Lemma bind_ok {S A B} (m : M S A) (k : A -> M S B) s a s' :
  m s = (Ok a, s') -> bind m k s = k a s'.
Proof. intros E. unfold bind. now rewrite E. Qed.

Lemma bind_throw {S A B} (m : M S A) (k : A -> M S B) s e s' :
  m s = (Throw e, s') -> bind m k s = (Throw e, s').
Proof. intros E. unfold bind. now rewrite E. Qed.

(** A function that ends with [return array] after a [try] whose handler
    only logs returns the array as the [try] block left it: it cannot
    throw. *)
Lemma returning_array_logged {A} (body : M (list A) unit) :
  returning_array (try_catch body (fun _ => ret tt)) = Ok (snd (body [])).
Proof.
  unfold returning_array, try_catch.
  destruct (body []) as [[u | e] arr]; reflexivity.
Qed.

(** A loop whose iterations cannot throw appends what each iteration
    appends. *)
Lemma for_of_appends {X A} (kept : X -> list A) (body : X -> M (list A) unit) :
  (forall x arr, body x arr = (Ok tt, (arr ++ kept x)%list)) ->
  forall xs arr, for_of xs body arr = (Ok tt, (arr ++ flat_map kept xs)%list).
Proof.
  intros Hbody xs. induction xs as [| x rest IH]; intros arr; simpl.
  - now rewrite app_nil_r.
  - rewrite (bind_ok _ _ _ _ _ (Hbody x arr)), IH, <- app_assoc. reflexivity.
Qed.

(** A property of the array that every iteration keeps, whatever its
    outcome, holds when the loop ends or throws. *)
Lemma for_of_keeps {X A} (P : list A -> Prop) (body : X -> M (list A) unit) :
  (forall x arr, P arr -> P (snd (body x arr))) ->
  forall xs arr, P arr -> P (snd (for_of xs body arr)).
Proof.
  intros Hbody xs. induction xs as [| x rest IH]; intros arr HP; simpl; [exact HP |].
  unfold bind. specialize (Hbody x arr HP).
  destruct (body x arr) as [[u | e] arr']; simpl in *; auto.
Qed.

(** ** The scans *)

Section Scans.

Variable h : Host.

Lemma loadSkillsFromDirectory_eq dirPath loc plugin :
  SkillsManager.loadSkillsFromDirectory h dirPath loc plugin
  = Ok (if existsSync h dirPath
        then match readdirSync h dirPath with
             | Ok entries => flat_map (SkillsManager.keptSkill h dirPath loc plugin) entries
             | Throw _ => []
             end
        else []).
Proof.
  unfold SkillsManager.loadSkillsFromDirectory.
  rewrite returning_array_logged. f_equal.
  destruct (existsSync h dirPath); simpl; [| reflexivity].
  unfold bind, lift. destruct (readdirSync h dirPath) as [entries | e]; [| reflexivity].
  rewrite for_of_appends with (kept := SkillsManager.keptSkill h dirPath loc plugin);
    [reflexivity |].
  intros entry arr. unfold SkillsManager.keptSkill.
  destruct (isDirectory entry); simpl; [| now rewrite app_nil_r].
  destruct (existsSync h _); simpl; [| now rewrite app_nil_r].
  unfold try_catch, bind, lift, push, ret.
  destruct (SkillsManager.readSkill h dirPath loc plugin entry); simpl;
    [reflexivity | now rewrite app_nil_r].
Qed.

Lemma loadAgentsFromDirectory_eq dirPath :
  AgentsManager.loadAgentsFromDirectory h dirPath
  = Ok (if existsSync h dirPath
        then match readdirSync h dirPath with
             | Ok entries =>
                 flat_map (AgentsManager.keptAgent h dirPath) (map d_name entries)
             | Throw _ => []
             end
        else []).
Proof.
  unfold AgentsManager.loadAgentsFromDirectory.
  rewrite returning_array_logged. f_equal.
  destruct (existsSync h dirPath); simpl; [| reflexivity].
  unfold bind, lift, readdirNames.
  destruct (readdirSync h dirPath) as [entries | e]; [| reflexivity].
  rewrite for_of_appends with (kept := AgentsManager.keptAgent h dirPath);
    [reflexivity |].
  intros file arr. unfold AgentsManager.keptAgent.
  destruct (Js.endsWith file ".md"); simpl; [| now rewrite app_nil_r].
  unfold try_catch, bind, lift, push, ret.
  destruct (AgentsManager.readAgent h dirPath file); simpl;
    [reflexivity | now rewrite app_nil_r].
Qed.

Lemma loadCommandsFromDirectory_eq dirPath :
  CommandsManager.loadCommandsFromDirectory h dirPath
  = Ok (if existsSync h dirPath
        then match readdirSync h dirPath with
             | Ok entries =>
                 flat_map (CommandsManager.keptCommand h dirPath) (map d_name entries)
             | Throw _ => []
             end
        else []).
Proof.
  unfold CommandsManager.loadCommandsFromDirectory.
  rewrite returning_array_logged. f_equal.
  destruct (existsSync h dirPath); simpl; [| reflexivity].
  unfold bind, lift, readdirNames.
  destruct (readdirSync h dirPath) as [entries | e]; [| reflexivity].
  rewrite for_of_appends with (kept := CommandsManager.keptCommand h dirPath);
    [reflexivity |].
  intros file arr. unfold CommandsManager.keptCommand.
  destruct (Js.endsWith file ".md"); simpl; [| now rewrite app_nil_r].
  unfold try_catch, bind, lift, push, ret.
  destruct (CommandsManager.readCommand h dirPath file); simpl;
    [reflexivity | now rewrite app_nil_r].
Qed.

(** What a skill that the loop kept looks like. *)
Lemma keptSkill_inv dirPath loc plugin entry sk :
  In sk (SkillsManager.keptSkill h dirPath loc plugin entry) ->
  isDirectory entry = true
  /\ existsSync h (Path.join2 (Path.join2 dirPath (d_name entry)) "skill.json") = true
  /\ SkillsManager.name sk = d_name entry
  /\ SkillsManager.path sk = Path.join2 dirPath (d_name entry)
  /\ SkillsManager.location sk = loc
  /\ SkillsManager.pluginName sk = plugin.
Proof.
  unfold SkillsManager.keptSkill.
  destruct (isDirectory entry); [| intros []].
  destruct (existsSync h _) eqn:Hex; [| intros []].
  destruct (SkillsManager.readSkill h dirPath loc plugin entry) as [s | e] eqn:Hread;
    [| intros []].
  intros [<- | []].
  unfold SkillsManager.readSkill in Hread.
  destruct (readFileSync h _); [| discriminate].
  destruct (JSON_parse h _); [| discriminate].
  destruct (Js.get_prop _ _); [| discriminate].
  injection Hread as <-. simpl. repeat split; auto.
Qed.

Lemma scanned_skill_inv dirPath loc plugin skills sk :
  SkillsManager.loadSkillsFromDirectory h dirPath loc plugin = Ok skills ->
  In sk skills ->
  exists entries entry,
    readdirSync h dirPath = Ok entries
    /\ In entry entries
    /\ isDirectory entry = true
    /\ existsSync h (Path.join2 (Path.join2 dirPath (d_name entry)) "skill.json") = true
    /\ SkillsManager.name sk = d_name entry
    /\ SkillsManager.path sk = Path.join2 dirPath (d_name entry)
    /\ SkillsManager.location sk = loc
    /\ SkillsManager.pluginName sk = plugin.
Proof.
  rewrite loadSkillsFromDirectory_eq. intros [= <-] Hin.
  destruct (existsSync h dirPath); [| destruct Hin].
  destruct (readdirSync h dirPath) as [entries | e]; [| destruct Hin].
  apply in_flat_map in Hin as (entry & Hentry & Hkept).
  exists entries, entry. split; [reflexivity |]. split; [exact Hentry |].
  eapply keptSkill_inv; eassumption.
Qed.

Lemma loadManagedSkills_ok home :
  homedir h = Ok home ->
  exists skills,
    SkillsManager.loadManagedSkills h = Ok skills /\ Forall (SkillsManager.managedOk h) skills.
Proof.
  intros Hhome. unfold SkillsManager.loadManagedSkills. rewrite Hhome.
  rewrite returning_array_logged. eexists. split; [reflexivity |].
  destruct (existsSync h _); simpl; [| constructor].
  unfold bind at 1, lift at 1.
  destruct (readdirNames h _) as [marketplaces | e]; simpl; [| constructor].
  apply for_of_keeps with (P := Forall (SkillsManager.managedOk h)); [| constructor].
  intros marketplace arr Harr.
  destruct (existsSync h _); simpl; [| exact Harr].
  unfold bind at 1, lift at 1.
  destruct (readdirNames h _) as [plugins | e]; simpl; [| exact Harr].
  apply for_of_keeps with (P := Forall (SkillsManager.managedOk h)); [| exact Harr].
  intros pluginName arr' Harr'.
  destruct (existsSync h _); simpl; [| exact Harr'].
  unfold bind, lift, push_all.
  destruct (SkillsManager.loadSkillsFromDirectory h _ _ _) as [found | e] eqn:Hscan;
    simpl; [| exact Harr'].
  apply Forall_app. split; [exact Harr' |].
  apply Forall_forall. intros sk Hin.
  destruct (scanned_skill_inv _ _ _ _ _ Hscan Hin)
    as (entries & entry & _ & _ & _ & Hex & _ & Hpath & Hloc & _).
  split; [exact Hloc | unfold SkillsManager.hasDescriptor; now rewrite Hpath].
Qed.

(** A scan of a location does not start when its root cannot be
    determined: the error of [os.homedir()] or [process.cwd()] is the
    scan's. *)
Lemma scans_throw :
  (forall e, homedir h = Throw e ->
             SkillsManager.loadUserSkills h = Throw e
             /\ SkillsManager.loadManagedSkills h = Throw e)
  /\ (forall e, cwd h = Throw e -> SkillsManager.loadProjectSkills h = Throw e).
Proof.
  unfold SkillsManager.loadUserSkills, SkillsManager.loadManagedSkills,
    SkillsManager.loadProjectSkills.
  split; [intros e -> | intros e ->]; auto.
Qed.

End Scans.

(** ** Loading *)

Section Loading.

Import SkillsManager.

Lemma loadSkills_with_cached now u p m st cached :
  cachedSkills st = Some cached ->
  loadSkills_with now u p m false st = (Ok cached, st).
Proof. intros E. unfold loadSkills_with. now rewrite E. Qed.

Lemma loadSkills_with_reload now u p m force st :
  cachedSkills st = None \/ force = true ->
  loadSkills_with now u p m force st
  = try_catch (loadSkills_try now u p m) loadSkills_catch st.
Proof.
  intros [E | ->]; unfold loadSkills_with.
  - now rewrite E.
  - now destruct (cachedSkills st).
Qed.

(** The [try] block when the three scans return. *)
Lemma loadSkills_try_ok now u p m st :
  loadSkills_try now (Ok u) (Ok p) (Ok m) st
  = (Ok {| id := next_id st; elems := (u ++ p ++ m)%list |},
     {| next_id := S (next_id st);
        cachedSkills := Some {| id := next_id st; elems := (u ++ p ++ m)%list |};
        lastLoadTime := now |}).
Proof.
  unfold loadSkills_try, bind, lift, new_array, push_spread, set_cachedSkills,
    set_lastLoadTime, ret; simpl.
  now rewrite <- app_assoc.
Qed.

(** The [try] block throws exactly when a scan does, before it has
    touched the cache. *)
Lemma loadSkills_try_throw now u p m st e st' :
  loadSkills_try now u p m st = (Throw e, st') ->
  st' = {| next_id := S (next_id st);
           cachedSkills := cachedSkills st;
           lastLoadTime := lastLoadTime st |}
  /\ (u = Throw e \/ p = Throw e \/ m = Throw e).
Proof.
  unfold loadSkills_try, bind, lift, new_array, push_spread, set_cachedSkills,
    set_lastLoadTime, ret; simpl.
  destruct u as [u | eu]; [| intros [= <- <-]; auto].
  destruct p as [p | ep]; [| intros [= <- <-]; auto].
  destruct m as [m | em]; [| intros [= <- <-]; auto].
  discriminate.
Qed.

Lemma loadSkills_catch_eq e st :
  loadSkills_catch e st
  = (Ok {| id := S (next_id st); elems := [] |},
     {| next_id := S (S (next_id st));
        cachedSkills := Some {| id := next_id st; elems := [] |};
        lastLoadTime := lastLoadTime st |}).
Proof. reflexivity. Qed.

(** The [try] block, and so the load, when one of the scans throws: the
    array of the [try] block is dropped, a new empty array is cached and
    another one returned, and the load time stays. *)
Lemma loadSkills_with_throw now u p m force st :
  cachedSkills st = None \/ force = true ->
  is_ok u && is_ok p && is_ok m = false ->
  loadSkills_with now u p m force st
  = (Ok {| id := S (S (next_id st)); elems := [] |},
     {| next_id := S (S (S (next_id st)));
        cachedSkills := Some {| id := S (next_id st); elems := [] |};
        lastLoadTime := lastLoadTime st |}).
Proof.
  intros Hre Hthrow. rewrite (loadSkills_with_reload _ _ _ _ _ _ Hre).
  unfold try_catch, loadSkills_try, bind, lift, new_array.
  destruct u as [u | eu]; [| reflexivity].
  destruct p as [p | ep]; [| reflexivity].
  destruct m as [m | em]; [discriminate | reflexivity].
Qed.

(** The three scans return when the home and the working directory are
    known. *)
Lemma scans_return (h : Host) home work :
  homedir h = Ok home -> cwd h = Ok work ->
  exists u p m,
    loadUserSkills h = Ok u /\ loadProjectSkills h = Ok p /\ loadManagedSkills h = Ok m
    /\ Forall (fun s => location s = user /\ hasDescriptor h s) u
    /\ Forall (fun s => location s = project /\ hasDescriptor h s) p
    /\ Forall (fun s => location s = managed /\ hasDescriptor h s) m.
Proof.
  intros Hhome Hwork.
  destruct (loadManagedSkills_ok h home Hhome) as (m & Hm & HmOk).
  unfold loadUserSkills, loadProjectSkills. rewrite Hhome, Hwork.
  pose proof (loadSkillsFromDirectory_eq h (Path.join home [".claude"; "skills"])
                                         user None) as Hu.
  pose proof (loadSkillsFromDirectory_eq h (Path.join work [".claude"; "skills"])
                                         project None) as Hp.
  eexists _, _, m. split; [exact Hu |]. split; [exact Hp |]. split; [exact Hm |].
  split; [| split; [| exact HmOk]]; apply Forall_forall; intros sk Hin.
  - destruct (scanned_skill_inv h _ _ _ _ _ Hu Hin)
      as (? & ? & _ & _ & _ & Hex & _ & Hpath & Hloc & _).
    split; [exact Hloc | unfold hasDescriptor; now rewrite Hpath].
  - destruct (scanned_skill_inv h _ _ _ _ _ Hp Hin)
      as (? & ? & _ & _ & _ & Hex & _ & Hpath & Hloc & _).
    split; [exact Hloc | unfold hasDescriptor; now rewrite Hpath].
Qed.

(** A reload on a host.  When the home and the working directory are
    known, the three scans return and their results are cached, in a new
    array, in the order user, project, managed.  When [os.homedir()] or
    [process.cwd()] throws, the [catch] block caches one new empty array and
    returns another. *)
Lemma loadSkills_reload (h : Host) force st :
  cachedSkills st = None \/ force = true ->
  (exists u p m,
      loadUserSkills h = Ok u /\ loadProjectSkills h = Ok p /\ loadManagedSkills h = Ok m
      /\ Forall (fun s => location s = user /\ hasDescriptor h s) u
      /\ Forall (fun s => location s = project /\ hasDescriptor h s) p
      /\ Forall (fun s => location s = managed /\ hasDescriptor h s) m
      /\ is_ok (homedir h) && is_ok (cwd h) = true
      /\ loadSkills h force st
         = (Ok {| id := next_id st; elems := (u ++ p ++ m)%list |},
            {| next_id := S (next_id st);
               cachedSkills := Some {| id := next_id st; elems := (u ++ p ++ m)%list |};
               lastLoadTime := Date_now h |}))
  \/ (is_ok (homedir h) && is_ok (cwd h) = false
      /\ loadSkills h force st
         = (Ok {| id := S (S (next_id st)); elems := [] |},
            {| next_id := S (S (S (next_id st)));
               cachedSkills := Some {| id := S (next_id st); elems := [] |};
               lastLoadTime := lastLoadTime st |})).
Proof.
  intros Hre.
  destruct (homedir h) as [home | e] eqn:Hhome; [destruct (cwd h) as [work | e] eqn:Hwork |].
  - left. destruct (scans_return h home work Hhome Hwork)
      as (u & p & m & Hu & Hp & Hm & Fu & Fp & Fm).
    exists u, p, m. repeat (split; [assumption |]). split; [reflexivity |].
    unfold loadSkills. rewrite (loadSkills_with_reload _ _ _ _ _ _ Hre), Hu, Hp, Hm.
    unfold try_catch. now rewrite loadSkills_try_ok.
  - right. split; [reflexivity |]. unfold loadSkills.
    apply loadSkills_with_throw; [exact Hre |].
    rewrite (proj2 (scans_throw h) e Hwork). simpl. now rewrite andb_false_r.
  - right. split; [reflexivity |]. unfold loadSkills.
    apply loadSkills_with_throw; [exact Hre |].
    now rewrite (proj1 (proj1 (scans_throw h) e Hhome)).
Qed.

(** Blocks of increasing rank are in precedence order. *)
Lemma inPrecedenceOrder_app (l1 l2 : list Skill) (k : nat) :
  inPrecedenceOrder l1 -> inPrecedenceOrder l2 ->
  Forall (fun s => (rank (location s) <= k)%nat) l1 ->
  Forall (fun s => (k <= rank (location s))%nat) l2 ->
  inPrecedenceOrder (l1 ++ l2).
Proof.
  intros O1 O2 F1 F2 i j x y Hi Hj Hlt.
  rewrite Forall_forall in F1, F2.
  destruct (Nat.lt_ge_cases i (length l1)) as [Li | Li];
    destruct (Nat.lt_ge_cases j (length l1)) as [Lj | Lj].
  - rewrite nth_error_app1 in Hi, Hj by assumption. eapply O1; eassumption.
  - lia.
  - rewrite nth_error_app2 in Hi by assumption.
    rewrite nth_error_app1 in Hj by assumption.
    apply nth_error_In in Hi, Hj. specialize (F1 _ Hj). specialize (F2 _ Hi). lia.
  - rewrite nth_error_app2 in Hi, Hj by assumption.
    specialize (O2 _ _ _ _ Hi Hj Hlt). lia.
Qed.

Lemma inPrecedenceOrder_same (l : list Skill) (loc : SkillLocation) :
  Forall (fun s => location s = loc) l -> inPrecedenceOrder l.
Proof.
  intros F i j x y Hi Hj Hlt. rewrite Forall_forall in F.
  apply nth_error_In in Hi, Hj.
  rewrite (F _ Hi), (F _ Hj) in Hlt. lia.
Qed.

Lemma inPrecedenceOrder_blocks (u p m : list Skill) :
  Forall (fun s => location s = user) u ->
  Forall (fun s => location s = project) p ->
  Forall (fun s => location s = managed) m ->
  inPrecedenceOrder (u ++ p ++ m).
Proof.
  intros Fu Fp Fm.
  apply inPrecedenceOrder_app with (k := 1%nat).
  - now apply inPrecedenceOrder_same with (loc := user).
  - apply inPrecedenceOrder_app with (k := 1%nat).
    + now apply inPrecedenceOrder_same with (loc := project).
    + now apply inPrecedenceOrder_same with (loc := managed).
    + eapply Forall_impl; [| exact Fp]. intros s ->. simpl. lia.
    + eapply Forall_impl; [| exact Fm]. intros s ->. simpl. lia.
  - eapply Forall_impl; [| exact Fu]. intros s ->. simpl. lia.
  - apply Forall_app. split.
    + eapply Forall_impl; [| exact Fp]. intros s ->. simpl. lia.
    + eapply Forall_impl; [| exact Fm]. intros s ->. simpl. lia.
Qed.

End Loading.

(** The scenario of the specification, on the sample host: the user skill
    [foo] with its description and no README, then the project skill [bar]
    without description and with a README; the managed skill [baz] of
    plugin [plug] comes last. *)
Lemma sample_load :
  exists loaded st',
    SkillsManager.loadSkills Sample.host true SkillsManager.init = (Ok loaded, st')
    /\ map (fun s => (SkillsManager.name s, SkillsManager.location s,
                      SkillsManager.description s, SkillsManager.pluginName s,
                      SkillsManager.hasReadme s, SkillsManager.hasPrompt s))
           (elems loaded)
       = [ ("foo", SkillsManager.user, JStr "does foo", None, false, false);
           ("bar", SkillsManager.project, JUndefined, None, true, false);
           ("baz", SkillsManager.managed, JStr "Managed Baz", Some "plug", false, false) ].
Proof. eexists _, _. split; vm_compute; reflexivity. Qed.

(** C1, amended.  A forced load of the skills returns to its caller, and
    in the sequence it returns an entry whose location comes earlier in the
    precedence user, project, managed stands at a smaller index, whatever
    order the file system lists each directory in.  When [os.homedir()] and
    [process.cwd()] return, the load runs the user scan, the project scan
    and the managed scan, none of which fails, and returns (and caches) the
    concatenation of their results in that order, every entry of the first
    block having location user, of the second project, of the third
    managed.  When one of the two throws, the [catch] block of the load
    returns an empty sequence and caches an empty sequence, whatever the
    scans that could run have found. *)
Theorem loadSkills_forced_order (h : Host) (st : SkillsManager.t) :
  exists loaded st',
    SkillsManager.loadSkills h true st = (Ok loaded, st')
    /\ SkillsManager.inPrecedenceOrder (elems loaded)
    /\ (forall home work,
           homedir h = Ok home -> cwd h = Ok work ->
           exists userSkills projectSkills managedSkills,
             SkillsManager.loadUserSkills h = Ok userSkills
             /\ SkillsManager.loadProjectSkills h = Ok projectSkills
             /\ SkillsManager.loadManagedSkills h = Ok managedSkills
             /\ elems loaded = (userSkills ++ projectSkills ++ managedSkills)%list
             /\ SkillsManager.cachedSkills st' = Some loaded
             /\ Forall (fun s => SkillsManager.location s = SkillsManager.user) userSkills
             /\ Forall (fun s => SkillsManager.location s = SkillsManager.project)
                       projectSkills
             /\ Forall (fun s => SkillsManager.location s = SkillsManager.managed)
                       managedSkills)
    /\ (forall e,
           homedir h = Throw e \/ cwd h = Throw e ->
           elems loaded = []
           /\ exists stored,
               SkillsManager.cachedSkills st' = Some stored
               /\ elems stored = []
               /\ id stored <> id loaded).
Proof.
  destruct (loadSkills_reload h true st (or_intror eq_refl))
    as [(u & p & m & Hu & Hp & Hm & Fu & Fp & Fm & Hok & Hload) | (Hthrow & Hload)].
  - assert (Fu' : Forall (fun s => SkillsManager.location s = SkillsManager.user) u)
      by (eapply Forall_impl; [| exact Fu]; now intros s [? _]).
    assert (Fp' : Forall (fun s => SkillsManager.location s = SkillsManager.project) p)
      by (eapply Forall_impl; [| exact Fp]; now intros s [? _]).
    assert (Fm' : Forall (fun s => SkillsManager.location s = SkillsManager.managed) m)
      by (eapply Forall_impl; [| exact Fm]; now intros s [? _]).
    eexists _, _. split; [exact Hload |]. cbn [elems SkillsManager.cachedSkills].
    split; [now apply inPrecedenceOrder_blocks |]. split.
    + intros home work _ _. exists u, p, m. auto 10.
    + intros e [He | He]; rewrite He in Hok; simpl in Hok;
        [| rewrite andb_false_r in Hok]; discriminate.
  - eexists _, _. split; [exact Hload |]. cbn [elems SkillsManager.cachedSkills id].
    split; [intros i j x y Hi; now destruct i |]. split.
    + intros home work Hhome Hwork. rewrite Hhome, Hwork in Hthrow. discriminate.
    + intros e _. split; [reflexivity |]. eexists. repeat split. cbn [id]. lia.
Qed.

(** On the sample host the forced load returns [foo], [bar], [baz]: the
    user, the project and the managed skill in that order. *)
Lemma loadSkills_forced_order_witness :
  exists loaded st',
    SkillsManager.loadSkills Sample.host true SkillsManager.init = (Ok loaded, st')
    /\ SkillsManager.inPrecedenceOrder (elems loaded)
    /\ map SkillsManager.name (elems loaded) = ["foo"; "bar"; "baz"]
    /\ SkillsManager.cachedSkills st' = Some loaded.
Proof.
  destruct (loadSkills_forced_order Sample.host SkillsManager.init)
    as (loaded & st' & Hload & Horder & Hknown & _).
  exists loaded, st'. split; [exact Hload |]. split; [exact Horder |].
  destruct (Hknown Sample.home Sample.work eq_refl eq_refl)
    as (u & p & m & _ & _ & _ & _ & Hc & _).
  split; [| exact Hc].
  apply (f_equal fst) in Hload. vm_compute in Hload. injection Hload as <-.
  reflexivity.
Defined.

(** The claim as it is written, for every file system state, fails on the
    sample host once the working directory is gone: the user scan finds
    [foo] and the managed scan finds [baz], but [process.cwd()] throws in the
    project scan and the load returns the empty sequence, not the
    concatenation of the scans. *)
Lemma loadSkills_forced_order_counterexample :
  (exists foo, SkillsManager.loadUserSkills Sample.goneHost = Ok [foo])
  /\ (exists e, SkillsManager.loadProjectSkills Sample.goneHost = Throw e)
  /\ (exists baz, SkillsManager.loadManagedSkills Sample.goneHost = Ok [baz])
  /\ (exists loaded st',
         SkillsManager.loadSkills Sample.goneHost true SkillsManager.init = (Ok loaded, st')
         /\ elems loaded = [])
  /\ ~ (exists userSkills projectSkills managedSkills loaded st',
           SkillsManager.loadUserSkills Sample.goneHost = Ok userSkills
           /\ SkillsManager.loadProjectSkills Sample.goneHost = Ok projectSkills
           /\ SkillsManager.loadManagedSkills Sample.goneHost = Ok managedSkills
           /\ SkillsManager.loadSkills Sample.goneHost true SkillsManager.init
              = (Ok loaded, st')
           /\ elems loaded = (userSkills ++ projectSkills ++ managedSkills)%list).
Proof.
  split; [eexists; vm_compute; reflexivity |].
  split; [eexists; vm_compute; reflexivity |].
  split; [eexists; vm_compute; reflexivity |].
  split; [eexists _, _; split; vm_compute; reflexivity |].
  intros (u & p & m & loaded & st' & _ & Hp & _). vm_compute in Hp. discriminate.
Qed.

(** C2.  A scan of a skills root returns, without raising, only skills
    read from a subdirectory of the root that directly holds [skill.json]:
    each returned skill is named after such a subdirectory and has its path.
    A subdirectory without [skill.json] contributes no entry, whatever else
    it holds (nothing is asked of [README.md] or [prompt.md]), and every
    entry of a freshly loaded sequence has its descriptor on the host. *)
Theorem skill_requires_descriptor (h : Host) (dirPath : string)
        (loc : SkillsManager.SkillLocation) (plugin : option string) :
  exists skills,
    SkillsManager.loadSkillsFromDirectory h dirPath loc plugin = Ok skills
    /\ (forall sk, In sk skills ->
          exists entries entry,
            readdirSync h dirPath = Ok entries
            /\ In entry entries
            /\ isDirectory entry = true
            /\ SkillsManager.name sk = d_name entry
            /\ SkillsManager.path sk = Path.join2 dirPath (d_name entry)
            /\ existsSync h (Path.join2 (SkillsManager.path sk) "skill.json") = true)
    /\ (forall entry,
          existsSync h (Path.join2 (Path.join2 dirPath (d_name entry)) "skill.json") = false ->
          SkillsManager.keptSkill h dirPath loc plugin entry = []
          /\ forall sk, In sk skills ->
                        SkillsManager.path sk <> Path.join2 dirPath (d_name entry))
    /\ (forall force st loaded st',
          SkillsManager.cachedSkills st = None \/ force = true ->
          SkillsManager.loadSkills h force st = (Ok loaded, st') ->
          Forall (SkillsManager.hasDescriptor h) (elems loaded)).
Proof.
  pose proof (loadSkillsFromDirectory_eq h dirPath loc plugin) as Hscan.
  eexists. split; [exact Hscan |].
  pose proof (fun sk => scanned_skill_inv h _ _ _ _ sk Hscan) as Hinv.
  split; [| split].
  - intros sk Hin.
    destruct (Hinv sk Hin) as (entries & entry & Hread & Hentry & Hdir & Hex & Hname & Hpath & _).
    exists entries, entry. rewrite Hpath. auto 10.
  - intros entry Hmissing. split.
    + unfold SkillsManager.keptSkill. rewrite Hmissing. now destruct (isDirectory entry).
    + intros sk Hin Heq.
      destruct (Hinv sk Hin) as (_ & entry' & _ & _ & _ & Hex & _ & Hpath & _).
      rewrite <- Hpath, Heq, Hmissing in Hex. discriminate.
  - intros force st loaded st' Hre Hload.
    destruct (loadSkills_reload h force st Hre)
      as [(u & p & m & _ & _ & _ & Fu & Fp & Fm & _ & Heq) | (_ & Heq)];
      rewrite Heq in Hload; injection Hload as <- _; simpl; [| constructor].
    repeat (apply Forall_app; split);
      (eapply Forall_impl; [| eassumption]); now intros s [_ ?].
Qed.

(** On the sample host, [bare] holds README.md and prompt.md but no
    descriptor and is not among the scanned skills. *)
Lemma skill_requires_descriptor_witness :
  existsSync Sample.host (Path.join Sample.userSkills ["bare"; "README.md"]) = true
  /\ existsSync Sample.host (Path.join Sample.userSkills ["bare"; "prompt.md"]) = true
  /\ exists skills,
       SkillsManager.loadSkillsFromDirectory Sample.host Sample.userSkills
                                             SkillsManager.user None = Ok skills
       /\ (forall sk, In sk skills ->
                      SkillsManager.path sk <> Path.join2 Sample.userSkills "bare")
       /\ (forall loaded st',
             SkillsManager.loadSkills Sample.host true SkillsManager.init = (Ok loaded, st') ->
             Forall (SkillsManager.hasDescriptor Sample.host) (elems loaded)).
Proof.
  split; [reflexivity | split; [reflexivity |]].
  destruct (skill_requires_descriptor Sample.host Sample.userSkills SkillsManager.user None)
    as (skills & Hscan & _ & Hskip & Hload).
  exists skills. split; [exact Hscan | split].
  - exact (proj2 (Hskip (Sample.dir "bare") eq_refl)).
  - intros loaded st'. apply Hload. right. reflexivity.
Defined.

(** C5.  None of the three directory scans can raise.  A root that does
    not exist gives the empty sequence.  A root that is listed gives the
    concatenation, in listing order, of what each listed entry contributes
    by itself: an entry whose read or parse fails contributes nothing, an
    entry that reads contributes its record, and neither affects the
    entries around it.  The scan of the managed location, which is given
    the plugins root under the home directory, cannot raise either, and
    gives the empty sequence when that root does not exist. *)
Theorem scans_isolate_failures (h : Host) (dirPath : string) :
  (forall loc plugin,
      let scan := SkillsManager.loadSkillsFromDirectory h dirPath loc plugin in
      let kept := SkillsManager.keptSkill h dirPath loc plugin in
      (exists skills, scan = Ok skills)
      /\ (existsSync h dirPath = false -> scan = Ok [])
      /\ (forall entries,
             existsSync h dirPath = true -> readdirSync h dirPath = Ok entries ->
             scan = Ok (flat_map kept entries))
      /\ (forall entry e,
             SkillsManager.readSkill h dirPath loc plugin entry = Throw e ->
             kept entry = [])
      /\ (forall entry skill,
             isDirectory entry = true ->
             existsSync h (Path.join2 (Path.join2 dirPath (d_name entry)) "skill.json") = true ->
             SkillsManager.readSkill h dirPath loc plugin entry = Ok skill ->
             kept entry = [skill]))
  /\ (let scan := AgentsManager.loadAgentsFromDirectory h dirPath in
      let kept := AgentsManager.keptAgent h dirPath in
      (exists agents, scan = Ok agents)
      /\ (existsSync h dirPath = false -> scan = Ok [])
      /\ (forall entries,
             existsSync h dirPath = true -> readdirSync h dirPath = Ok entries ->
             scan = Ok (flat_map kept (map d_name entries)))
      /\ (forall file e, AgentsManager.readAgent h dirPath file = Throw e -> kept file = [])
      /\ (forall file agent,
             Js.endsWith file ".md" = true ->
             AgentsManager.readAgent h dirPath file = Ok agent -> kept file = [agent]))
  /\ (let scan := CommandsManager.loadCommandsFromDirectory h dirPath in
      let kept := CommandsManager.keptCommand h dirPath in
      (exists commands, scan = Ok commands)
      /\ (existsSync h dirPath = false -> scan = Ok [])
      /\ (forall entries,
             existsSync h dirPath = true -> readdirSync h dirPath = Ok entries ->
             scan = Ok (flat_map kept (map d_name entries)))
      /\ (forall file e, CommandsManager.readCommand h dirPath file = Throw e -> kept file = [])
      /\ (forall file command,
             Js.endsWith file ".md" = true ->
             CommandsManager.readCommand h dirPath file = Ok command ->
             kept file = [command]))
  /\ (forall home,
         homedir h = Ok home ->
         let scan := SkillsManager.loadManagedSkills h in
         let pluginsPath := Path.join home [".claude"; "plugins"; "marketplaces"] in
         (exists skills, scan = Ok skills)
         /\ (existsSync h pluginsPath = false -> scan = Ok [])).
Proof.
  split; [| split; [| split]].
  - intros loc plugin scan kept. subst scan kept.
    rewrite loadSkillsFromDirectory_eq.
    split; [eexists; reflexivity |].
    split; [now intros -> |].
    split; [now intros entries -> -> |].
    unfold SkillsManager.keptSkill. split.
    + intros entry e ->. destruct (isDirectory entry); [| reflexivity].
      now destruct (existsSync h _).
    + now intros entry skill -> -> ->.
  - cbv zeta. rewrite loadAgentsFromDirectory_eq.
    split; [eexists; reflexivity |].
    split; [now intros -> |].
    split; [now intros entries -> -> |].
    unfold AgentsManager.keptAgent. split.
    + intros file e ->. now destruct (Js.endsWith file ".md").
    + now intros file agent -> ->.
  - cbv zeta. rewrite loadCommandsFromDirectory_eq.
    split; [eexists; reflexivity |].
    split; [now intros -> |].
    split; [now intros entries -> -> |].
        unfold CommandsManager.keptCommand. split.
    + intros file e ->. now destruct (Js.endsWith file ".md").
    + now intros file command -> ->.
  - intros home Hhome. cbv zeta. split.
    + destruct (loadManagedSkills_ok h home Hhome) as (skills & E & _). eauto.
    + intros Hmissing. unfold SkillsManager.loadManagedSkills.
      rewrite Hhome, returning_array_logged, Hmissing. reflexivity.
Qed.

(** On the sample host: the user skills root lists [bare], [foo], a plain
    file and [broken], whose descriptor does not parse; the scan returns
    [foo] alone.  The agents root lists [ghost.md], which cannot be read,
    before [helper.md]; the scan returns [helper] alone.  On the host
    without any root every scan returns the empty sequence. *)
Lemma scans_isolate_failures_witness :
  (exists foo,
      SkillsManager.loadSkillsFromDirectory Sample.host Sample.userSkills
                                            SkillsManager.user None = Ok [foo]
      /\ SkillsManager.name foo = "foo")
  /\ SkillsManager.keptSkill Sample.host Sample.userSkills SkillsManager.user None
                             (Sample.dir "broken") = []
  /\ (exists helper,
         AgentsManager.loadAgentsFromDirectory Sample.host Sample.agentsDir = Ok [helper]
         /\ AgentsManager.name helper = "helper")
  /\ AgentsManager.keptAgent Sample.host Sample.agentsDir "ghost.md" = []
  /\ SkillsManager.loadSkillsFromDirectory Sample.emptyHost Sample.userSkills
                                           SkillsManager.user None = Ok []
  /\ AgentsManager.loadAgentsFromDirectory Sample.emptyHost Sample.agentsDir = Ok []
    /\ CommandsManager.loadCommandsFromDirectory Sample.emptyHost Sample.commandsDir = Ok []
  /\ SkillsManager.loadManagedSkills Sample.emptyHost = Ok [].
Proof.
    destruct (scans_isolate_failures Sample.host Sample.userSkills) as (HS & _ & _ & _).
  destruct (HS SkillsManager.user None) as (_ & _ & Hlist & Hfail & _).
    destruct (scans_isolate_failures Sample.host Sample.agentsDir) as (_ & HA & _ & _).
  cbv zeta in HA. destruct HA as (_ & _ & HlistA & HfailA & _).
    destruct (scans_isolate_failures Sample.emptyHost Sample.userSkills) as (HS0 & _ & _ & HM0).
  destruct (HS0 SkillsManager.user None) as (_ & Hnone & _).
    destruct (scans_isolate_failures Sample.emptyHost Sample.agentsDir) as (_ & HA0 & _ & _).
    destruct (scans_isolate_failures Sample.emptyHost Sample.commandsDir) as (_ & _ & HC0 & _).
  cbv zeta in HA0, HC0, HM0.
  split; [| split; [| split; [| split; [| split; [| split; [| split]]]]]].
  - eexists. split; [apply (Hlist _ eq_refl eq_refl) | reflexivity].
  - eapply Hfail. vm_compute. reflexivity.
  - eexists. split; [apply (HlistA _ eq_refl eq_refl) | reflexivity].
  - eapply HfailA. vm_compute. reflexivity.
  - apply Hnone. reflexivity.
  - apply (proj1 (proj2 HA0)). reflexivity.
    - apply (proj1 (proj2 HC0)). reflexivity.
  - apply (proj2 (HM0 Sample.home eq_refl)). reflexivity.
Defined.

(** ** The caches *)

(** Unfolds a [load] of any of the three managers down to its state
    transformers. *)
Ltac unfold_load :=
  unfold SkillsManager.loadSkills_with, SkillsManager.loadSkills_try,
    SkillsManager.loadSkills_catch, SkillsManager.new_array,
    SkillsManager.set_cachedSkills, SkillsManager.set_lastLoadTime,
    SkillsManager.push_spread,
    AgentsManager.loadAgents_with, AgentsManager.loadAgents_try,
    AgentsManager.loadAgents_catch, AgentsManager.new_array,
    AgentsManager.set_cachedAgents, AgentsManager.set_lastLoadTime,
    CommandsManager.loadCommands_with, CommandsManager.loadCommands_try,
    CommandsManager.loadCommands_catch, CommandsManager.new_array,
    CommandsManager.set_cachedCommands, CommandsManager.set_lastLoadTime,
    try_catch, bind, lift, ret in *.

Lemma loadAgents_with_cached now scan st cached :
  AgentsManager.cachedAgents st = Some cached ->
  AgentsManager.loadAgents_with now scan false st = (Ok cached, st).
Proof. intros E. unfold AgentsManager.loadAgents_with. now rewrite E. Qed.

Lemma loadCommands_with_cached now scan st cached :
  CommandsManager.cachedCommands st = Some cached ->
  CommandsManager.loadCommands_with now scan false st = (Ok cached, st).
Proof. intros E. unfold CommandsManager.loadCommands_with. now rewrite E. Qed.

Lemma loadAgents_with_reload now scan force st :
  AgentsManager.cachedAgents st = None \/ force = true ->
  AgentsManager.loadAgents_with now scan force st
  = try_catch (AgentsManager.loadAgents_try now scan) AgentsManager.loadAgents_catch st.
Proof.
  intros [E | ->]; unfold AgentsManager.loadAgents_with.
  - now rewrite E.
  - now destruct (AgentsManager.cachedAgents st).
Qed.

Lemma loadCommands_with_reload now scan force st :
  CommandsManager.cachedCommands st = None \/ force = true ->
  CommandsManager.loadCommands_with now scan force st
  = try_catch (CommandsManager.loadCommands_try now scan)
              CommandsManager.loadCommands_catch st.
Proof.
  intros [E | ->]; unfold CommandsManager.loadCommands_with.
  - now rewrite E.
  - now destruct (CommandsManager.cachedCommands st).
Qed.

(** A reload of the agents on a host caches the array that the scan
    returned; when [os.homedir()] throws, the [catch] block caches one new
    empty array and returns another. *)
Lemma loadAgents_reload (h : Host) force st :
  AgentsManager.cachedAgents st = None \/ force = true ->
  (exists home agents,
      homedir h = Ok home
      /\ AgentsManager.loadAgentsFromDirectory h (Path.join home [".claude"; "agents"])
         = Ok agents
      /\ AgentsManager.loadAgents h force st
         = (Ok {| id := AgentsManager.next_id st; elems := agents |},
            {| AgentsManager.next_id := S (AgentsManager.next_id st);
               AgentsManager.cachedAgents :=
                 Some {| id := AgentsManager.next_id st; elems := agents |};
               AgentsManager.lastLoadTime := Date_now h |}))
  \/ (exists e,
         homedir h = Throw e
         /\ AgentsManager.loadAgents h force st
            = (Ok {| id := S (AgentsManager.next_id st); elems := [] |},
               {| AgentsManager.next_id := S (S (AgentsManager.next_id st));
                  AgentsManager.cachedAgents :=
                    Some {| id := AgentsManager.next_id st; elems := [] |};
                  AgentsManager.lastLoadTime := AgentsManager.lastLoadTime st |})).
Proof.
  intros Hre. unfold AgentsManager.loadAgents, AgentsManager.scanAgents.
  rewrite (loadAgents_with_reload _ _ _ _ Hre).
  destruct (homedir h) as [home | e].
  - left. eexists _, _. split; [reflexivity |].
    split; [apply loadAgentsFromDirectory_eq |].
    rewrite loadAgentsFromDirectory_eq. reflexivity.
  - right. exists e. split; reflexivity.
Qed.

Lemma loadCommands_reload (h : Host) force st :
  CommandsManager.cachedCommands st = None \/ force = true ->
  (exists home commands,
      homedir h = Ok home
      /\ CommandsManager.loadCommandsFromDirectory h (Path.join home [".claude"; "commands"])
         = Ok commands
      /\ CommandsManager.loadCommands h force st
         = (Ok {| id := CommandsManager.next_id st; elems := commands |},
            {| CommandsManager.next_id := S (CommandsManager.next_id st);
               CommandsManager.cachedCommands :=
                 Some {| id := CommandsManager.next_id st; elems := commands |};
               CommandsManager.lastLoadTime := Date_now h |}))
  \/ (exists e,
         homedir h = Throw e
         /\ CommandsManager.loadCommands h force st
            = (Ok {| id := S (CommandsManager.next_id st); elems := [] |},
               {| CommandsManager.next_id := S (S (CommandsManager.next_id st));
                  CommandsManager.cachedCommands :=
                    Some {| id := CommandsManager.next_id st; elems := [] |};
                  CommandsManager.lastLoadTime := CommandsManager.lastLoadTime st |})).
Proof.
  intros Hre. unfold CommandsManager.loadCommands, CommandsManager.scanCommands.
  rewrite (loadCommands_with_reload _ _ _ _ Hre).
  destruct (homedir h) as [home | e].
  - left. eexists _, _. split; [reflexivity |].
    split; [apply loadCommandsFromDirectory_eq |].
    rewrite loadCommandsFromDirectory_eq. reflexivity.
  - right. exists e. split; reflexivity.
Qed.

(** C6.  For each of the three managers: when the [try] block of a load
    throws, the load stores a new empty array as the cache, leaves the load
    time as it was, and returns an empty array; and whatever its scans do, a
    load returns to its caller without raising. *)
Theorem load_catch_resets_cache :
  (forall now u p m force st e st1,
      SkillsManager.cachedSkills st = None \/ force = true ->
      SkillsManager.loadSkills_try now u p m st = (Throw e, st1) ->
      exists returned stored st',
        SkillsManager.loadSkills_with now u p m force st = (Ok returned, st')
        /\ elems returned = []
        /\ SkillsManager.cachedSkills st' = Some stored
        /\ elems stored = []
        /\ SkillsManager.lastLoadTime st' = SkillsManager.lastLoadTime st)
  /\ (forall now scan force st e st1,
         AgentsManager.cachedAgents st = None \/ force = true ->
         AgentsManager.loadAgents_try now scan st = (Throw e, st1) ->
         exists returned stored st',
           AgentsManager.loadAgents_with now scan force st = (Ok returned, st')
           /\ elems returned = []
           /\ AgentsManager.cachedAgents st' = Some stored
           /\ elems stored = []
           /\ AgentsManager.lastLoadTime st' = AgentsManager.lastLoadTime st)
  /\ (forall now scan force st e st1,
         CommandsManager.cachedCommands st = None \/ force = true ->
         CommandsManager.loadCommands_try now scan st = (Throw e, st1) ->
         exists returned stored st',
           CommandsManager.loadCommands_with now scan force st = (Ok returned, st')
           /\ elems returned = []
           /\ CommandsManager.cachedCommands st' = Some stored
           /\ elems stored = []
           /\ CommandsManager.lastLoadTime st' = CommandsManager.lastLoadTime st)
  /\ (forall now u p m force st,
         exists returned st',
           SkillsManager.loadSkills_with now u p m force st = (Ok returned, st'))
  /\ (forall now scan force st,
         exists returned st',
           AgentsManager.loadAgents_with now scan force st = (Ok returned, st'))
  /\ (forall now scan force st,
         exists returned st',
           CommandsManager.loadCommands_with now scan force st = (Ok returned, st')).
Proof.
  repeat split.
  - intros now u p m force st e st1 Hre Hthrow.
    rewrite (loadSkills_with_reload _ _ _ _ _ _ Hre).
    destruct (loadSkills_try_throw _ _ _ _ _ _ _ Hthrow) as [-> _].
    unfold try_catch. rewrite Hthrow, loadSkills_catch_eq. simpl.
    eexists _, _, _. repeat split.
  - intros now scan force st e st1 Hre Hthrow.
    rewrite (loadAgents_with_reload _ _ _ _ Hre).
    unfold try_catch. rewrite Hthrow.
    destruct scan as [agents | e']; [discriminate |].
    injection Hthrow as <- <-. eexists _, _, _. repeat split.
  - intros now scan force st e st1 Hre Hthrow.
    rewrite (loadCommands_with_reload _ _ _ _ Hre).
    unfold try_catch. rewrite Hthrow.
    destruct scan as [commands | e']; [discriminate |].
    injection Hthrow as <- <-. eexists _, _, _. repeat split.
  - intros now u p m force st. unfold_load.
    destruct (SkillsManager.cachedSkills st), force, u, p, m; simpl; eauto.
  - intros now scan force st. unfold_load.
    destruct (AgentsManager.cachedAgents st), force, scan; simpl; eauto.
  - intros now scan force st. unfold_load.
    destruct (CommandsManager.cachedCommands st), force, scan; simpl; eauto.
Qed.

(** A forced load whose project scan throws, and loads of agents and
    commands whose scan throws, from the initial states. *)
Lemma load_catch_resets_cache_witness :
  (exists returned stored st',
      SkillsManager.loadSkills_with 7 (Ok []) (Throw Sample.boom) (Ok []) true SkillsManager.init
      = (Ok returned, st')
      /\ elems returned = []
      /\ SkillsManager.cachedSkills st' = Some stored
      /\ elems stored = []
      /\ SkillsManager.lastLoadTime st' = 0%Z)
  /\ (exists returned stored st',
         AgentsManager.loadAgents_with 7 (Throw Sample.boom) false AgentsManager.init
         = (Ok returned, st')
         /\ elems returned = []
         /\ AgentsManager.cachedAgents st' = Some stored
         /\ elems stored = []
         /\ AgentsManager.lastLoadTime st' = 0%Z)
  /\ (exists returned stored st',
         CommandsManager.loadCommands_with 7 (Throw Sample.boom) false CommandsManager.init
         = (Ok returned, st')
         /\ elems returned = []
         /\ CommandsManager.cachedCommands st' = Some stored
         /\ elems stored = []
         /\ CommandsManager.lastLoadTime st' = 0%Z).
Proof.
  destruct load_catch_resets_cache as (HS & HA & HC & _).
  split; [| split].
  - eapply (HS 7%Z (Ok []) (Throw Sample.boom) (Ok []) true SkillsManager.init Sample.boom);
      [right; reflexivity | reflexivity].
  - eapply (HA 7%Z (Throw Sample.boom) false AgentsManager.init Sample.boom);
      [left; reflexivity | reflexivity].
  - eapply (HC 7%Z (Throw Sample.boom) false CommandsManager.init Sample.boom);
      [left; reflexivity | reflexivity].
Defined.

(** C7.  For each of the three managers and every host: a forced load
    returns an array and stores an array with the same elements as the
    cache, that very array when [os.homedir()] (and for the skills
    [process.cwd()]) returned; a load without force that follows, on any
    host, returns the stored array itself and leaves the state as it is, so
    it has not scanned.  The last three parts say the same of a load whose
    scans have any outcome at all: the array that the following load
    returns is the stored one and has the elements of the array that the
    forced load returned. *)
Theorem forced_then_cached :
  (forall h st,
      exists returned stored st1,
        SkillsManager.loadSkills h true st = (Ok returned, st1)
        /\ SkillsManager.cachedSkills st1 = Some stored
        /\ elems stored = elems returned
        /\ (is_ok (homedir h) && is_ok (cwd h) = true -> stored = returned)
        /\ forall h', SkillsManager.loadSkills h' false st1 = (Ok stored, st1))
  /\ (forall h st,
         exists returned stored st1,
           AgentsManager.loadAgents h true st = (Ok returned, st1)
           /\ AgentsManager.cachedAgents st1 = Some stored
           /\ elems stored = elems returned
           /\ (is_ok (homedir h) = true -> stored = returned)
           /\ forall h', AgentsManager.loadAgents h' false st1 = (Ok stored, st1))
  /\ (forall h st,
         exists returned stored st1,
           CommandsManager.loadCommands h true st = (Ok returned, st1)
           /\ CommandsManager.cachedCommands st1 = Some stored
           /\ elems stored = elems returned
           /\ (is_ok (homedir h) = true -> stored = returned)
           /\ forall h', CommandsManager.loadCommands h' false st1 = (Ok stored, st1))
  /\ (forall now u p m st,
         exists returned stored st1,
           SkillsManager.loadSkills_with now u p m true st = (Ok returned, st1)
           /\ SkillsManager.cachedSkills st1 = Some stored
           /\ elems stored = elems returned
           /\ forall now' u' p' m',
               SkillsManager.loadSkills_with now' u' p' m' false st1 = (Ok stored, st1))
  /\ (forall now scan st,
         exists returned stored st1,
           AgentsManager.loadAgents_with now scan true st = (Ok returned, st1)
           /\ AgentsManager.cachedAgents st1 = Some stored
           /\ elems stored = elems returned
           /\ forall now' scan',
               AgentsManager.loadAgents_with now' scan' false st1 = (Ok stored, st1))
  /\ (forall now scan st,
         exists returned stored st1,
           CommandsManager.loadCommands_with now scan true st = (Ok returned, st1)
           /\ CommandsManager.cachedCommands st1 = Some stored
           /\ elems stored = elems returned
           /\ forall now' scan',
               CommandsManager.loadCommands_with now' scan' false st1 = (Ok stored, st1)).
Proof.
  split; [| split; [| split; [| split; [| split]]]].
  - intros h st.
    destruct (loadSkills_reload h true st (or_intror eq_refl))
      as [(u & p & m & _ & _ & _ & _ & _ & _ & _ & Hload) | (Hthrow & Hload)];
      eexists _, _, _; (split; [exact Hload |]); (split; [reflexivity |]);
      (split; [reflexivity |]); split.
    + reflexivity.
    + intros h'. now apply loadSkills_with_cached.
    + rewrite Hthrow. discriminate.
    + intros h'. now apply loadSkills_with_cached.
  - intros h st.
    destruct (loadAgents_reload h true st (or_intror eq_refl))
      as [(home & agents & _ & _ & Hload) | (e & Hthrow & Hload)];
      eexists _, _, _; (split; [exact Hload |]); (split; [reflexivity |]);
      (split; [reflexivity |]); split.
    + reflexivity.
    + intros h'. now apply loadAgents_with_cached.
    + rewrite Hthrow. discriminate.
    + intros h'. now apply loadAgents_with_cached.
  - intros h st.
    destruct (loadCommands_reload h true st (or_intror eq_refl))
      as [(home & commands & _ & _ & Hload) | (e & Hthrow & Hload)];
      eexists _, _, _; (split; [exact Hload |]); (split; [reflexivity |]);
      (split; [reflexivity |]); split.
    + reflexivity.
    + intros h'. now apply loadCommands_with_cached.
    + rewrite Hthrow. discriminate.
    + intros h'. now apply loadCommands_with_cached.
  - intros now u p m st.
    assert (exists returned stored st1,
               SkillsManager.loadSkills_with now u p m true st = (Ok returned, st1)
               /\ SkillsManager.cachedSkills st1 = Some stored
               /\ elems stored = elems returned) as (r & s & st1 & E & Hc & He).
    { unfold_load. destruct (SkillsManager.cachedSkills st), u, p, m; simpl;
        eexists _, _, _; repeat split. }
    exists r, s, st1. repeat (split; [assumption |]).
    intros now' u' p' m'. now apply loadSkills_with_cached.
  - intros now scan st.
    assert (exists returned stored st1,
               AgentsManager.loadAgents_with now scan true st = (Ok returned, st1)
               /\ AgentsManager.cachedAgents st1 = Some stored
               /\ elems stored = elems returned) as (r & s & st1 & E & Hc & He).
    { unfold_load. destruct (AgentsManager.cachedAgents st), scan; simpl;
        eexists _, _, _; repeat split. }
    exists r, s, st1. repeat (split; [assumption |]).
    intros now' scan'. now apply loadAgents_with_cached.
  - intros now scan st.
    assert (exists returned stored st1,
               CommandsManager.loadCommands_with now scan true st = (Ok returned, st1)
               /\ CommandsManager.cachedCommands st1 = Some stored
               /\ elems stored = elems returned) as (r & s & st1 & E & Hc & He).
    { unfold_load. destruct (CommandsManager.cachedCommands st), scan; simpl;
        eexists _, _, _; repeat split. }
    exists r, s, st1. repeat (split; [assumption |]).
    intros now' scan'. now apply loadCommands_with_cached.
Qed.

(** ** Lookups and searches *)

(** A load returns, and the cache then holds an array with the elements
    of the one returned. *)
Lemma loadSkills_returns (h : Host) force st :
  exists loaded st',
    SkillsManager.loadSkills h force st = (Ok loaded, st')
    /\ exists stored,
        SkillsManager.cachedSkills st' = Some stored /\ elems stored = elems loaded.
Proof.
  assert (Hre : SkillsManager.cachedSkills st = None \/ force = true ->
                exists loaded st',
                  SkillsManager.loadSkills h force st = (Ok loaded, st')
                  /\ exists stored,
                      SkillsManager.cachedSkills st' = Some stored
                      /\ elems stored = elems loaded).
  { intros Hre.
    destruct (loadSkills_reload h force st Hre)
      as [(u & p & m & _ & _ & _ & _ & _ & _ & _ & E) | (_ & E)];
      eexists _, _; (split; [exact E |]); eexists; split; reflexivity. }
  destruct (SkillsManager.cachedSkills st) as [cached |] eqn:Hc; [| now apply Hre; left].
  destruct force; [now apply Hre; right |].
  exists cached, st. split; [now apply loadSkills_with_cached | eauto].
Qed.

Lemma loadAgents_returns (h : Host) force st :
  exists loaded st',
    AgentsManager.loadAgents h force st = (Ok loaded, st')
    /\ exists stored,
        AgentsManager.cachedAgents st' = Some stored /\ elems stored = elems loaded.
Proof.
  assert (Hre : AgentsManager.cachedAgents st = None \/ force = true ->
                exists loaded st',
                  AgentsManager.loadAgents h force st = (Ok loaded, st')
                  /\ exists stored,
                      AgentsManager.cachedAgents st' = Some stored
                      /\ elems stored = elems loaded).
  { intros Hre.
    destruct (loadAgents_reload h force st Hre)
      as [(home & agents & _ & _ & E) | (e & _ & E)];
      eexists _, _; (split; [exact E |]); eexists; split; reflexivity. }
  destruct (AgentsManager.cachedAgents st) as [cached |] eqn:Hc; [| now apply Hre; left].
  destruct force; [now apply Hre; right |].
  exists cached, st. split; [now apply loadAgents_with_cached | eauto].
Qed.

Lemma loadCommands_returns (h : Host) force st :
  exists loaded st',
    CommandsManager.loadCommands h force st = (Ok loaded, st')
    /\ exists stored,
        CommandsManager.cachedCommands st' = Some stored /\ elems stored = elems loaded.
Proof.
  assert (Hre : CommandsManager.cachedCommands st = None \/ force = true ->
                exists loaded st',
                  CommandsManager.loadCommands h force st = (Ok loaded, st')
                  /\ exists stored,
                      CommandsManager.cachedCommands st' = Some stored
                      /\ elems stored = elems loaded).
  { intros Hre.
    destruct (loadCommands_reload h force st Hre)
      as [(home & commands & _ & _ & E) | (e & _ & E)];
      eexists _, _; (split; [exact E |]); eexists; split; reflexivity. }
  destruct (CommandsManager.cachedCommands st) as [cached |] eqn:Hc; [| now apply Hre; left].
  destruct force; [now apply Hre; right |].
  exists cached, st. split; [now apply loadCommands_with_cached | eauto].
Qed.

(** [find] returns the first element that satisfies the predicate. *)
Lemma find_first {A} (p : A -> bool) (l : list A) (x : A) :
  find p l = Some x ->
  exists before after,
    l = (before ++ x :: after)%list /\ p x = true
    /\ forall y, In y before -> p y = false.
Proof.
  induction l as [| a l IH]; simpl; [discriminate |].
  destruct (p a) eqn:Hpa.
  - intros [= ->]. exists [], l. repeat split; [assumption | intros y []].
  - intros Hfind. destruct (IH Hfind) as (before & after & -> & Hpx & Hbefore).
    exists (a :: before), after. repeat split; [assumption |].
    intros y [<- | Hy]; auto.
Qed.

(** After its load, [getSkillDetails] only reads the host: it ends in the
    state the load left, with [None] when nothing matches and otherwise
    with [None] or the details of the first match. *)
Lemma getSkillDetails_eq (h : Host) skillName location st loaded st' :
  SkillsManager.loadSkills h false st = (Ok loaded, st') ->
  exists outcome,
    SkillsManager.getSkillDetails h skillName location st = (Ok outcome, st')
    /\ match find (SkillsManager.matchesSkill skillName location) (elems loaded) with
       | None => outcome = None
       | Some sk => forall details, outcome = Some details -> SkillsManager.skill details = sk
       end.
Proof.
  intros Hload. unfold SkillsManager.getSkillDetails, try_catch.
  rewrite (bind_ok _ _ _ _ _ Hload).
  destruct (find _ (elems loaded)) as [sk |]; [| eexists; split; reflexivity].
  unfold bind, lift, ret.
  destruct (readIfExists h _ (JSON_parse h)); [| eexists; split; [reflexivity | discriminate]].
  destruct (readIfExists h _ Ok); [| eexists; split; [reflexivity | discriminate]].
  destruct (readIfExists h _ Ok); [| eexists; split; [reflexivity | discriminate]].
  eexists; split; [reflexivity |]. now intros details [= <-].
Qed.

Lemma getAgentDetails_eq (h : Host) agentName st loaded st' :
  AgentsManager.loadAgents h false st = (Ok loaded, st') ->
  exists outcome,
    AgentsManager.getAgentDetails h agentName st = (Ok outcome, st')
    /\ match find (AgentsManager.matchesAgent agentName) (elems loaded) with
       | None => outcome = None
       | Some a => forall details, outcome = Some details -> AgentsManager.agent details = a
       end.
Proof.
  intros Hload. unfold AgentsManager.getAgentDetails, try_catch.
  rewrite (bind_ok _ _ _ _ _ Hload).
  destruct (find _ (elems loaded)) as [a |]; [| eexists; split; reflexivity].
  unfold bind, lift, ret.
  destruct (readIfExists h _ Ok); [| eexists; split; [reflexivity | discriminate]].
  destruct (homedir h); [| eexists; split; [reflexivity | discriminate]].
  destruct (Path.joinChecked _ _ _ _); [| eexists; split; [reflexivity | discriminate]].
  destruct (readIfExists h _ Ok); [| eexists; split; [reflexivity | discriminate]].
  eexists; split; [reflexivity |]. now intros details [= <-].
Qed.

Lemma getCommandDetails_eq (h : Host) commandName st loaded st' :
  CommandsManager.loadCommands h false st = (Ok loaded, st') ->
  exists outcome,
    CommandsManager.getCommandDetails h commandName st = (Ok outcome, st')
    /\ match find (CommandsManager.matchesCommand commandName) (elems loaded) with
       | None => outcome = None
       | Some c =>
           forall details, outcome = Some details -> CommandsManager.command details = c
       end.
Proof.
  intros Hload. unfold CommandsManager.getCommandDetails, try_catch.
  rewrite (bind_ok _ _ _ _ _ Hload).
  destruct (find _ (elems loaded)) as [c |]; [| eexists; split; reflexivity].
  unfold bind, lift, ret.
  destruct (readIfExists h _ Ok); [| eexists; split; [reflexivity | discriminate]].
  destruct (homedir h); [| eexists; split; [reflexivity | discriminate]].
  destruct (Path.joinChecked _ _ _ _); [| eexists; split; [reflexivity | discriminate]].
  destruct (readIfExists h _ Ok); [| eexists; split; [reflexivity | discriminate]].
  eexists; split; [reflexivity |]. now intros details [= <-].
Qed.

Lemma matchesSkill_strings n l sk :
  SkillsManager.matchesSkill (JStr n) (JStr l) sk = true
  <-> SkillsManager.name sk = n
      /\ SkillsManager.location_str (SkillsManager.location sk) = l.
Proof.
  unfold SkillsManager.matchesSkill. simpl.
  rewrite andb_true_iff, !String.eqb_eq. reflexivity.
Qed.

(** C8.  [getSkillDetails] loads the index without force and ends in the
    state that load leaves; it returns to its caller without raising; when
    no cached entry has both the name and the location asked for, the
    outcome is the not-found value; an outcome with details carries the
    first cached entry that matches.  Name and location match by equality
    of strings, so by case. *)
Theorem getSkillDetails_lookup (h : Host) (skillName location : jsval)
        (st : SkillsManager.t) :
  exists loaded st' outcome,
    SkillsManager.loadSkills h false st = (Ok loaded, st')
    /\ SkillsManager.getSkillDetails h skillName location st = (Ok outcome, st')
    /\ ((forall sk, In sk (elems loaded) ->
                    SkillsManager.matchesSkill skillName location sk = false) ->
        outcome = None)
    /\ (forall details,
           outcome = Some details ->
           exists before after,
             elems loaded = (before ++ SkillsManager.skill details :: after)%list
             /\ SkillsManager.matchesSkill skillName location (SkillsManager.skill details)
                = true
             /\ forall sk, In sk before ->
                           SkillsManager.matchesSkill skillName location sk = false)
    /\ (forall n l sk,
           SkillsManager.matchesSkill (JStr n) (JStr l) sk = true
           <-> SkillsManager.name sk = n
               /\ SkillsManager.location_str (SkillsManager.location sk) = l).
Proof.
  destruct (loadSkills_returns h false st) as (loaded & st' & Hload & _).
  destruct (getSkillDetails_eq h skillName location st loaded st' Hload)
    as (outcome & Hget & Hfind).
  exists loaded, st', outcome. split; [exact Hload |]. split; [exact Hget |].
  split; [| split; [| exact matchesSkill_strings]].
  - intros Hnone.
    destruct (find _ (elems loaded)) as [sk |] eqn:E; [| exact Hfind].
    apply find_some in E as [Hin Htrue]. rewrite (Hnone sk Hin) in Htrue. discriminate.
  - intros details ->.
    destruct (find _ (elems loaded)) as [sk |] eqn:E; [| discriminate].
    rewrite (Hfind details eq_refl). now apply find_first.
Qed.

(** On the sample host, from the initial state: no skill is named [nope],
    and [foo] is a user skill, not a project skill. *)
Lemma getSkillDetails_lookup_witness :
  fst (SkillsManager.getSkillDetails Sample.host (JStr "nope") (JStr "user")
                                     SkillsManager.init) = Ok None
  /\ fst (SkillsManager.getSkillDetails Sample.host (JStr "foo") (JStr "project")
                                        SkillsManager.init) = Ok None
  /\ fst (SkillsManager.getSkillDetails Sample.host (JStr "FOO") (JStr "user")
                                        SkillsManager.init) = Ok None.
Proof.
  assert (H : forall n l,
             forallb (fun sk => negb (SkillsManager.matchesSkill n l sk))
                     (match fst (SkillsManager.loadSkills Sample.host false SkillsManager.init)
                      with Ok a => elems a | Throw _ => [] end) = true ->
             fst (SkillsManager.getSkillDetails Sample.host n l SkillsManager.init) = Ok None).
  { intros n l Hall.
    destruct (getSkillDetails_lookup Sample.host n l SkillsManager.init)
      as (loaded & st' & outcome & Hload & Hget & Hnone & _).
    rewrite Hget. simpl. f_equal. apply Hnone.
    rewrite Hload in Hall. simpl in Hall. rewrite forallb_forall in Hall.
    intros sk Hin. specialize (Hall sk Hin). now destruct (SkillsManager.matchesSkill n l sk). }
  repeat split; apply H; vm_compute; reflexivity.
Defined.

Lemma filter_r_total {A} (p : A -> result bool) (q : A -> bool) (l : list A) :
  (forall x, In x l -> p x = Ok (q x)) -> filter_r p l = Ok (filter q l).
Proof.
  induction l as [| a l IH]; intros Hp; simpl; [reflexivity |].
  rewrite (Hp a (or_introl eq_refl)), IH by (intros x Hx; apply Hp; now right).
  reflexivity.
Qed.

Lemma searchPredicate_typed lowerQuery locationFilter sk :
  SkillsManager.stringDescription sk ->
  SkillsManager.searchPredicate lowerQuery locationFilter sk
  = Ok (SkillsManager.matchesQuery lowerQuery locationFilter sk).
Proof.
  unfold SkillsManager.searchPredicate, SkillsManager.matchesQuery, SkillsManager.optIncludes.
  intros [-> | [d ->]];
    destruct locationFilter as [f |];
    try destruct (SkillsManager.location_eqb (SkillsManager.location sk) f);
    simpl; try reflexivity.
  all: now rewrite orb_false_r.
Qed.

Lemma includes_empty (s : string) : Js.includes s "" = true.
Proof. now destruct s. Qed.

(** What [searchSkills] returns on a query string when every loaded
    description is a string or absent: the loaded entries that satisfy the
    criterion, in their order. *)
Lemma searchSkills_on_string_descriptions (h : Host) (query : string)
      (locationFilter : option SkillsManager.SkillLocation) st loaded st' :
  SkillsManager.loadSkills h false st = (Ok loaded, st') ->
  Forall SkillsManager.stringDescription (elems loaded) ->
  SkillsManager.searchSkills h (JStr query) locationFilter st
  = (Ok (filter (SkillsManager.matchesQuery (Js.toLowerCase query) locationFilter)
                (elems loaded)), st').
Proof.
  intros Hload Htyped. unfold SkillsManager.searchSkills.
  rewrite (bind_ok _ _ _ _ _ Hload). unfold bind, lift; simpl.
  rewrite filter_r_total
    with (q := SkillsManager.matchesQuery (Js.toLowerCase query) locationFilter);
    [reflexivity |].
  intros sk Hin. apply searchPredicate_typed.
  rewrite Forall_forall in Htyped. auto.
Qed.

(** The empty query keeps every entry of such a sequence, and queries that
    differ by case only, such as [FOO] and [foo], give the same result. *)
Lemma searchSkills_empty_and_case (h : Host) st loaded st' :
  SkillsManager.loadSkills h false st = (Ok loaded, st') ->
  Forall SkillsManager.stringDescription (elems loaded) ->
  SkillsManager.searchSkills h (JStr "") None st = (Ok (elems loaded), st')
  /\ (forall q1 q2 locationFilter,
         Js.toLowerCase q1 = Js.toLowerCase q2 ->
         SkillsManager.searchSkills h (JStr q1) locationFilter st
         = SkillsManager.searchSkills h (JStr q2) locationFilter st)
  /\ forall locationFilter,
       SkillsManager.searchSkills h (JStr "FOO") locationFilter st
       = SkillsManager.searchSkills h (JStr "foo") locationFilter st.
Proof.
  intros Hload Htyped. split; [| split].
  - rewrite (searchSkills_on_string_descriptions h "" None st loaded st' Hload Htyped).
    f_equal. f_equal. simpl. apply forallb_filter_id.
    apply forallb_forall. intros sk _.
    unfold SkillsManager.matchesQuery. now rewrite includes_empty.
  - intros q1 q2 f Hcase.
    rewrite !(searchSkills_on_string_descriptions h _ f st loaded st' Hload Htyped).
    now rewrite Hcase.
  - intros f.
    now rewrite !(searchSkills_on_string_descriptions h _ f st loaded st' Hload Htyped).
Qed.

Lemma searchSkills_state (h : Host) query locationFilter st :
  snd (SkillsManager.searchSkills h query locationFilter st)
  = snd (SkillsManager.loadSkills h false st).
Proof.
  destruct (loadSkills_returns h false st) as (loaded & st' & Hload & _).
  unfold SkillsManager.searchSkills.
  rewrite (bind_ok _ _ _ _ _ Hload), Hload. unfold bind, lift. simpl.
  now destruct (Js.call_toLowerCase "query" query).
Qed.

Lemma searchAgents_state (h : Host) query st :
  snd (AgentsManager.searchAgents h query st)
  = snd (AgentsManager.loadAgents h false st).
Proof.
  destruct (loadAgents_returns h false st) as (loaded & st' & Hload & _).
  unfold AgentsManager.searchAgents.
  rewrite (bind_ok _ _ _ _ _ Hload), Hload. unfold bind, lift. simpl.
  now destruct (Js.call_toLowerCase "query" query).
Qed.

Lemma searchCommands_state (h : Host) query st :
  snd (CommandsManager.searchCommands h query st)
  = snd (CommandsManager.loadCommands h false st).
Proof.
  destruct (loadCommands_returns h false st) as (loaded & st' & Hload & _).
  unfold CommandsManager.searchCommands.
  rewrite (bind_ok _ _ _ _ _ Hload), Hload. unfold bind, lift. simpl.
  now destruct (Js.call_toLowerCase "query" query).
Qed.

(** C10.  On every host and from every state, a search and a details
    lookup, of skills, agents or commands, end in exactly the state in
    which the load without force that they start with ends: cached array,
    load time and all.  When the index
    is already loaded that load changes nothing either, so the state is the
    one before the call.  The entry inside returned details is an element of
    the cached array of the final state. *)
Theorem queries_keep_cache (h : Host) :
  (forall query locationFilter st,
      snd (SkillsManager.searchSkills h query locationFilter st)
      = snd (SkillsManager.loadSkills h false st))
  /\ (forall skillName location st,
         snd (SkillsManager.getSkillDetails h skillName location st)
         = snd (SkillsManager.loadSkills h false st))
  /\ (forall agentName st,
         snd (AgentsManager.getAgentDetails h agentName st)
         = snd (AgentsManager.loadAgents h false st))
  /\ (forall st cached,
         SkillsManager.cachedSkills st = Some cached ->
         snd (SkillsManager.loadSkills h false st) = st)
  /\ (forall st cached,
         AgentsManager.cachedAgents st = Some cached ->
         snd (AgentsManager.loadAgents h false st) = st)
  /\ (forall skillName location st details,
         fst (SkillsManager.getSkillDetails h skillName location st) = Ok (Some details) ->
         exists cached,
           SkillsManager.cachedSkills
             (snd (SkillsManager.getSkillDetails h skillName location st)) = Some cached
           /\ In (SkillsManager.skill details) (elems cached))
    /\ (forall agentName st details,
         fst (AgentsManager.getAgentDetails h agentName st) = Ok (Some details) ->
         exists cached,
           AgentsManager.cachedAgents
             (snd (AgentsManager.getAgentDetails h agentName st)) = Some cached
           /\ In (AgentsManager.agent details) (elems cached))
  /\ (forall query st,
         snd (AgentsManager.searchAgents h query st)
         = snd (AgentsManager.loadAgents h false st))
  /\ (forall query st,
         snd (CommandsManager.searchCommands h query st)
         = snd (CommandsManager.loadCommands h false st))
  /\ (forall commandName st,
         snd (CommandsManager.getCommandDetails h commandName st)
         = snd (CommandsManager.loadCommands h false st)).
Proof.
  split; [exact (searchSkills_state h) |].
  split; [| split; [| split; [| split; [| split; [| split; [| split; [| split]]]]]]];
    [| | | | | | exact (searchAgents_state h) | exact (searchCommands_state h) |].
  - intros n l st.
    destruct (loadSkills_returns h false st) as (loaded & st' & Hload & _).
    destruct (getSkillDetails_eq h n l st loaded st' Hload) as (outcome & Hget & _).
    now rewrite Hget, Hload.
  - intros n st.
    destruct (loadAgents_returns h false st) as (loaded & st' & Hload & _).
    destruct (getAgentDetails_eq h n st loaded st' Hload) as (outcome & Hget & _).
    now rewrite Hget, Hload.
  - intros st cached Hc. unfold SkillsManager.loadSkills.
    now rewrite (loadSkills_with_cached _ _ _ _ _ _ Hc).
  - intros st cached Hc. unfold AgentsManager.loadAgents.
    now rewrite (loadAgents_with_cached _ _ _ _ Hc).
  - intros n l st details Hd.
    destruct (loadSkills_returns h false st)
      as (loaded & st' & Hload & stored & Hcache & Hsame).
    destruct (getSkillDetails_eq h n l st loaded st' Hload) as (outcome & Hget & Hfind).
    rewrite Hget in Hd |- *. simpl in *. injection Hd as ->.
    exists stored. split; [exact Hcache |]. rewrite Hsame.
    destruct (find _ (elems loaded)) as [sk |] eqn:E; [| discriminate].
    rewrite (Hfind details eq_refl). now apply find_some in E.
  - intros n st details Hd.
    destruct (loadAgents_returns h false st)
      as (loaded & st' & Hload & stored & Hcache & Hsame).
    destruct (getAgentDetails_eq h n st loaded st' Hload) as (outcome & Hget & Hfind).
    rewrite Hget in Hd |- *. simpl in *. injection Hd as ->.
    exists stored. split; [exact Hcache |]. rewrite Hsame.
    destruct (find _ (elems loaded)) as [a |] eqn:E; [| discriminate].
        rewrite (Hfind details eq_refl). now apply find_some in E.
  - intros n st.
    destruct (loadCommands_returns h false st) as (loaded & st' & Hload & _).
    destruct (getCommandDetails_eq h n st loaded st' Hload) as (outcome & Hget & _).
    now rewrite Hget, Hload.
Qed.

(** On the sample host with the index loaded: a search and a lookup leave
    the state as it was, and the details of [foo] carry a cached entry. *)
Lemma queries_keep_cache_witness :
  let st := snd (SkillsManager.loadSkills Sample.host true SkillsManager.init) in
  snd (SkillsManager.searchSkills Sample.host (JStr "ba") None st) = st
  /\ snd (SkillsManager.getSkillDetails Sample.host (JStr "foo") (JStr "user") st) = st
  /\ exists details cached,
       fst (SkillsManager.getSkillDetails Sample.host (JStr "foo") (JStr "user") st)
       = Ok (Some details)
       /\ SkillsManager.cachedSkills st = Some cached
       /\ In (SkillsManager.skill details) (elems cached).
Proof.
  intros st.
  destruct (queries_keep_cache Sample.host) as (Hsearch & Hget & _ & Hloaded & _ & Hcopy & _).
  assert (Hst : exists cached, SkillsManager.cachedSkills st = Some cached)
    by (eexists; vm_compute; reflexivity).
  destruct Hst as (cached0 & Hst).
  split; [| split].
  - rewrite Hsearch. exact (Hloaded st cached0 Hst).
  - rewrite Hget. exact (Hloaded st cached0 Hst).
  - assert (Hd : exists details,
               fst (SkillsManager.getSkillDetails Sample.host (JStr "foo") (JStr "user") st)
               = Ok (Some details))
      by (eexists; vm_compute; reflexivity).
    destruct Hd as (details & Hd).
    destruct (Hcopy (JStr "foo") (JStr "user") st details Hd) as (cached & Hc & Hin).
    exists details, cached. split; [exact Hd |]. split; [| exact Hin].
    rewrite Hget, (Hloaded st cached0 Hst) in Hc. exact Hc.
Defined.

(** C3.  On the host whose user skill [odd] has the descriptor
    [{"description":42}], the loaded sequence holds [odd] with the number as
    its description, and a search of that sequence, here with the empty
    query, which should keep every entry, throws a TypeError out of the
    filter callback instead of returning. *)
Theorem searchSkills_numeric_description :
  exists loaded st',
    SkillsManager.loadSkills Sample.oddHost true SkillsManager.init = (Ok loaded, st')
    /\ map SkillsManager.name (elems loaded) = ["foo"; "odd"; "bar"; "baz"]
    /\ map SkillsManager.description (elems loaded)
       = [JStr "does foo"; JNum 42; JUndefined; JStr "Managed Baz"]
    /\ SkillsManager.searchSkills Sample.oddHost (JStr "") None st'
       = (Throw (JsError "skill.description?.toLowerCase is not a function"), st')
    /\ SkillsManager.searchSkills Sample.oddHost (JStr "FOO") None st'
       = (Throw (JsError "skill.description?.toLowerCase is not a function"), st').
Proof.
  eexists _, _. split; [vm_compute; reflexivity |].
  repeat split; vm_compute; reflexivity.
Qed.

(** ** Description extraction *)

Lemma match_here_lit c r s o acc :
  (forall s', s <> String c s') -> Regex.match_here (Regex.Lit c :: r) s o acc = None.
Proof.
  intros Hs. simpl. destruct s as [| c' s']; [reflexivity |].
  destruct (Ascii.eqb c c') eqn:E; [| reflexivity].
  apply Ascii.eqb_eq in E. subst. now destruct (Hs s').
Qed.

(** A pattern anchored at the start of the input matches nowhere else. *)
Lemma exec_from_inside re c s :
  Regex.start re = Regex.InputStart -> Regex.exec_from re (Some c) s = None.
Proof.
  intros Hstart. induction s as [| c' s IH] in c |- *; simpl; rewrite Hstart; simpl; auto.
Qed.



Lemma title_absent s prev :
  Markdown.hashFree s -> Regex.exec_from Markdown.title_re prev s = None.
Proof.
  induction s as [| c s IH] in prev |- *; intros Hfree; cbn [Regex.exec_from].
  - now destruct (Regex.start_allowed (Regex.start Markdown.title_re) prev).
  - destruct Hfree as [Hc Hfree].
    assert (E : Regex.match_at Markdown.title_re (String c s) = None).
    { apply match_here_lit. intros s' [= -> _]. now apply Hc. }
    rewrite E.
    destruct (Regex.start_allowed (Regex.start Markdown.title_re) prev); now apply IH.
Qed.

(** Content with neither pattern: a text without any [#] that does not
    begin with a dash has no description. *)
Lemma extractDescription_absent (content : string) :
  Markdown.hashFree content ->
  (forall rest, content <> String "-"%char rest) ->
  Markdown.extractDescription content = None.
Proof.
  intros Hfree Hdash. unfold Markdown.extractDescription, Markdown.titleOf, Regex.exec.
  rewrite (title_absent content None Hfree).
  assert (E : Regex.exec_from Markdown.frontmatter_re None content = None).
  { destruct content as [| c s]; [reflexivity |].
    cbn [Regex.exec_from]. cbn [Regex.start_allowed Regex.start Markdown.frontmatter_re].
    assert (E0 : Regex.match_at Markdown.frontmatter_re (String c s) = None)
      by (apply match_here_lit; exact Hdash).
    rewrite E0. now apply exec_from_inside. }
  now rewrite E.
Qed.

(** The three examples of the specification. *)
Lemma extractDescription_examples :
  Markdown.extractDescription
    ("---" ++ nl ++ "description: hello" ++ nl ++ "---" ++ nl ++ "# Title") = Some "hello"
  /\ Markdown.extractDescription "# Title Only" = Some "Title Only"
  /\ Markdown.extractDescription "no pattern here" = None
  /\ DescriptionSpec.describe
       ("---" ++ nl ++ "description: hello" ++ nl ++ "---" ++ nl ++ "# Title") = Some "hello"
  /\ DescriptionSpec.describe "# Title Only" = Some "Title Only"
  /\ DescriptionSpec.describe "no pattern here" = None.
Proof. repeat split; vm_compute; reflexivity. Qed.

(** C4.  Where the whitespace after [#] or after [description:] runs over
    a line break, [extractDescription] returns text of the following line.
    For a lone [#] followed by the line [Title] it returns [Title], while
    the only line that begins with [#] has an empty remainder; for a block whose
    [description:] line is empty and is followed by [foo: bar] it returns
    [foo: bar].  By the wording of the specification the two results are the
    empty remainders of the heading line and of the keyed line. *)
Theorem extractDescription_crosses_lines :
  let heading := "#" ++ nl ++ "Title" in
  let block := "---" ++ nl ++ "description:" ++ nl ++ "foo: bar" ++ nl ++ "---" in
  Markdown.extractDescription heading = Some "Title"
  /\ DescriptionSpec.lines heading = ["#"; "Title"]
  /\ map (fun line => if String.prefix "#" line
                       then Some (Js.trim (DescriptionSpec.drop 1 line)) else None)
         (DescriptionSpec.lines heading) = [Some ""; None]
  /\ DescriptionSpec.describe heading = Some ""
  /\ Markdown.extractDescription block = Some "foo: bar"
  /\ DescriptionSpec.lines block = ["---"; "description:"; "foo: bar"; "---"]
  /\ DescriptionSpec.describe block = Some "".
Proof.
  cbv zeta. repeat split; vm_compute; reflexivity.
Qed.

(** ** The router *)

Section RouterProperties.

Import ManagementViewProvider.

Variable Plugin : Type.
Variable rawName : Plugin -> jsval.
Variable PluginManager : Type.
Variable loadInstalledPlugins : bool -> M PluginManager (list Plugin).
Variable getPluginEnabledStatus : jsval -> M PluginManager bool.
Variable enablePlugin : jsval -> M PluginManager bool.
Variable disablePlugin : jsval -> M PluginManager bool.

Local Abbreviation St := (State Plugin PluginManager).
Local Abbreviation Run :=
  (dispatch Plugin rawName PluginManager loadInstalledPlugins getPluginEnabledStatus
            enablePlugin disablePlugin).
Local Abbreviation Handle :=
  (_handleMessage Plugin rawName PluginManager loadInstalledPlugins
                  getPluginEnabledStatus enablePlugin disablePlugin).

Lemma quiet_onPlugins {A} (m : M PluginManager A) :
  quiet Plugin PluginManager (onPlugins Plugin PluginManager m).
Proof. intros st. unfold onPlugins. now destruct (m (pluginManager _ _ st)). Qed.

Lemma quiet_onSkills {A} (m : M SkillsManager.t A) :
  quiet Plugin PluginManager (onSkills Plugin PluginManager m).
Proof. intros st. unfold onSkills. now destruct (m (skillsManager _ _ st)). Qed.

Lemma quiet_onCommands {A} (m : M CommandsManager.t A) :
  quiet Plugin PluginManager (onCommands Plugin PluginManager m).
Proof. intros st. unfold onCommands. now destruct (m (commandsManager _ _ st)). Qed.

Lemma quiet_onAgents {A} (m : M AgentsManager.t A) :
  quiet Plugin PluginManager (onAgents Plugin PluginManager m).
Proof. intros st. unfold onAgents. now destruct (m (agentsManager _ _ st)). Qed.

Lemma responds_after_quiet {A} requestId (m : M St A) (k : A -> M St unit) :
  quiet Plugin PluginManager m ->
  (forall a, responds Plugin PluginManager requestId (k a)) ->
  responds Plugin PluginManager requestId (bind m k).
Proof.
  intros Hm Hk st. specialize (Hm st). unfold bind.
  destruct (m st) as [[a | e] st1]; simpl in *.
  - destruct Hm as [Hp Hposted]. specialize (Hk a st1).
    rewrite Hp, Hposted in Hk. exact Hk.
  - exact Hm.
Qed.

Lemma responds_send type requestId data :
  responds Plugin PluginManager requestId
           (_sendMessage Plugin PluginManager (Response type requestId data)).
Proof.
  intros st. unfold _sendMessage. destruct (panel _ _ st) eqn:Hp; simpl.
  - rewrite ?Hp. split; [reflexivity | eauto].
  - rewrite ?Hp. split; [reflexivity |]. exists type, data. now rewrite app_nil_r.
Qed.

Lemma responds_send_notify type requestId data (success : bool) text :
  responds Plugin PluginManager requestId
           (_sendMessage Plugin PluginManager (Response type requestId data) ;;
            if success then showInformationMessage Plugin PluginManager text else ret tt).
Proof.
  intros st. unfold bind, _sendMessage, showInformationMessage, ret.
  destruct (panel _ _ st) eqn:Hp, success; simpl; rewrite ?Hp; simpl;
    (split; [reflexivity || exact Hp |]); exists type, data;
    rewrite ?app_nil_r; reflexivity.
Qed.

(** Every branch of the [switch] but [default] is a handler of the
    request. *)
Lemma dispatch_responds (h : Host) (message : Message) :
  recognized message = true ->
  responds Plugin PluginManager (requestId message) (Run h message).
Proof.
  unfold recognized, knownTags, dispatch. simpl existsb.
  repeat match goal with
         | |- context [Js.strict_eq_str ?tag (type message)] =>
             destruct (Js.strict_eq_str tag (type message)) eqn:?
         end; simpl; try discriminate; intros _.
  all: unfold _handleGetPlugins, _handleEnablePlugin, _handleDisablePlugin,
    _handleGetPluginStatus, _handleGetSkills, _handleGetSkillDetails,
    _handleSearchSkills, _handleGetCommands, _handleGetCommandDetails,
    _handleGetAgents, _handleGetAgentDetails.
  all: repeat (apply responds_after_quiet;
               [first [apply quiet_onPlugins | apply quiet_onSkills
                       | apply quiet_onCommands | apply quiet_onAgents] | intros ?]).
  all: first [apply responds_send | apply responds_send_notify].
Qed.

Lemma dispatch_default (h : Host) (message : Message) :
  recognized message = false -> Run h message = ret tt.
Proof.
  unfold recognized, knownTags, dispatch. simpl existsb.
  repeat match goal with
         | |- context [Js.strict_eq_str ?tag (type message)] =>
             destruct (Js.strict_eq_str tag (type message)) eqn:?
         end; simpl; try discriminate; reflexivity.
Qed.

(** C9.  [_handleMessage] returns to its caller without raising.  A
    request whose tag is none of the eleven known ones changes nothing:
    no message is posted.  When the handler of a known tag throws, it has
    posted nothing itself, and the router posts to the open panel exactly
    one message, the error response with the request's [requestId] and the
          message of the [Error] (the fixed text for a thrown value that is not
      an [Error]).  When the handler returns, the one message posted is its
      data response with the same [requestId].  Without a panel nothing is
      posted at all. *)
Theorem router_catches (h : Host) (message : Message) (st : St) :
  fst (Handle h message st) = Ok tt
  /\ (recognized message = false -> snd (Handle h message st) = st)
  /\ (forall e,
         fst (Run h message st) = Throw e ->
         panel _ _ st = true ->
         posted _ _ (snd (Run h message st)) = posted _ _ st
         /\ posted _ _ (snd (Handle h message st))
            = (posted _ _ st ++ [ErrorResponse (requestId message) (errorText e)])%list)
  /\ (recognized message = true ->
      fst (Run h message st) = Ok tt ->
      panel _ _ st = true ->
      exists type data,
        posted _ _ (snd (Handle h message st))
        = (posted _ _ st ++ [Response type (requestId message) data])%list)
    /\ (panel _ _ st = false ->
      posted _ _ (snd (Handle h message st)) = posted _ _ st)
  /\ (forall text, errorText (JsError text) = text).
Proof.
  unfold _handleMessage, try_catch.
  destruct (recognized message) eqn:Hrec.
  - pose proof (dispatch_responds h message Hrec st) as [Hpanel Hposted].
    destruct (Run h message st) as [[[] | e] st1] eqn:Hrun; simpl in *.
    + split; [reflexivity |]. split; [discriminate |].
      split; [discriminate |]. split; [| split; [| reflexivity]].
      * intros _ _ Hopen. rewrite Hopen in Hposted. exact Hposted.
      * intros Hclosed. rewrite Hclosed in Hposted.
        destruct Hposted as (type & data & ->). apply app_nil_r.
    + unfold _sendMessage. rewrite Hpanel.
      destruct (panel _ _ st) eqn:Hopen; simpl.
      * split; [reflexivity |]. split; [discriminate |].
        split; [| split; [discriminate | split; [discriminate | reflexivity]]].
        intros e' [= <-] _. now rewrite Hposted.
      * split; [reflexivity |]. split; [discriminate |].
        split; [discriminate | split; [discriminate | split; [| reflexivity]]].
        intros _. exact Hposted.
  - rewrite (dispatch_default h message Hrec). simpl.
    repeat split; discriminate.
Qed.

End RouterProperties.

(** With the sample registry and the panel open: listing the plugins
    fails with an [Error], a search without a query makes [toLowerCase]
    fail, disabling a plugin throws a string, reading the skills succeeds,
    and [getStuff] is no known tag. *)
Lemma router_catches_witness :
  ManagementViewProvider.posted _ _ (snd (SampleRouter.handle Sample.host
                     (SampleRouter.request "getPlugins" 7 JUndefined) SampleRouter.start))
  = [ManagementViewProvider.ErrorResponse (JNum 7) "registry unavailable"]
  /\ ManagementViewProvider.posted _ _ (snd (SampleRouter.handle Sample.host
                        (SampleRouter.request "searchSkills" 8 JUndefined)
                        SampleRouter.start))
     = [ManagementViewProvider.ErrorResponse
          (JNum 8) "Cannot read properties of undefined (reading 'toLowerCase')"]
  /\ ManagementViewProvider.posted _ _ (snd (SampleRouter.handle Sample.host
                        (SampleRouter.request "disablePlugin" 9 JUndefined)
                        SampleRouter.start))
     = [ManagementViewProvider.ErrorResponse (JNum 9) "Unknown error"]
  /\ (exists type data,
         ManagementViewProvider.posted _ _ (snd (SampleRouter.handle Sample.host
                            (SampleRouter.request "getSkills" 10 JUndefined)
                            SampleRouter.start))
         = [ManagementViewProvider.Response type (JNum 10) data])
  /\ snd (SampleRouter.handle Sample.host
            (SampleRouter.request "getStuff" 11 JUndefined) SampleRouter.start)
     = SampleRouter.start.
Proof.
  pose proof (fun m =>
                router_catches SampleRouter.Plugin SampleRouter.rawName SampleRouter.Registry
                               SampleRouter.loadInstalledPlugins
                               SampleRouter.getPluginEnabledStatus
                               SampleRouter.enablePlugin SampleRouter.disablePlugin
                               Sample.host m SampleRouter.start) as H.
  split; [| split; [| split; [| split]]].
  - destruct (H (SampleRouter.request "getPlugins" 7 JUndefined)) as (_ & _ & Herr & _).
    exact (proj2 (Herr (JsError "registry unavailable") eq_refl eq_refl)).
  - destruct (H (SampleRouter.request "searchSkills" 8 JUndefined)) as (_ & _ & Herr & _).
    refine (proj2 (Herr (JsError "Cannot read properties of undefined (reading 'toLowerCase')")
                        _ eq_refl)).
    vm_compute. reflexivity.
  - destruct (H (SampleRouter.request "disablePlugin" 9 JUndefined)) as (_ & _ & Herr & _).
    exact (proj2 (Herr (JsThrown (JStr "busy")) eq_refl eq_refl)).
    - destruct (H (SampleRouter.request "getSkills" 10 JUndefined)) as (_ & _ & _ & Hok & _ & _).
    refine (Hok eq_refl _ eq_refl). vm_compute. reflexivity.
  - destruct (H (SampleRouter.request "getStuff" 11 JUndefined)) as (_ & Hdrop & _).
    exact (Hdrop eq_refl).
Defined.

(** * Further properties *)

(** ** Clearing and reading the caches *)

(** X1.  [clearCache] puts a manager back to "not loaded": no cached
    array, load time zero, [getCached...] empty.  A load without force
    that follows rescans exactly as a forced load would, and clearing twice
    is clearing once. *)
Theorem clearCache_forces_rescan (h : Host) :
  (forall st,
      let cleared := snd (SkillsManager.clearCache st) in
      fst (SkillsManager.clearCache st) = Ok tt
      /\ SkillsManager.cachedSkills cleared = None
      /\ SkillsManager.lastLoadTime cleared = 0%Z
      /\ SkillsManager.getCachedSkills cleared = []
      /\ snd (SkillsManager.clearCache cleared) = cleared
      /\ SkillsManager.loadSkills h false cleared = SkillsManager.loadSkills h true cleared)
  /\ (forall st,
         let cleared := snd (AgentsManager.clearCache st) in
         fst (AgentsManager.clearCache st) = Ok tt
         /\ AgentsManager.cachedAgents cleared = None
         /\ AgentsManager.lastLoadTime cleared = 0%Z
         /\ AgentsManager.getCachedAgents cleared = []
         /\ snd (AgentsManager.clearCache cleared) = cleared
         /\ AgentsManager.loadAgents h false cleared = AgentsManager.loadAgents h true cleared)
  /\ (forall st,
         let cleared := snd (CommandsManager.clearCache st) in
         fst (CommandsManager.clearCache st) = Ok tt
         /\ CommandsManager.cachedCommands cleared = None
         /\ CommandsManager.lastLoadTime cleared = 0%Z
         /\ CommandsManager.getCachedCommands cleared = []
         /\ snd (CommandsManager.clearCache cleared) = cleared
         /\ CommandsManager.loadCommands h false cleared
            = CommandsManager.loadCommands h true cleared).
Proof.
  split; [| split]; intros st; cbv zeta.
  - repeat (split; [reflexivity |]). unfold SkillsManager.loadSkills.
    now rewrite !loadSkills_with_reload by (now left).
  - repeat (split; [reflexivity |]). unfold AgentsManager.loadAgents.
    now rewrite !loadAgents_with_reload by (now left).
  - repeat (split; [reflexivity |]). unfold CommandsManager.loadCommands.
    now rewrite !loadCommands_with_reload by (now left).
Qed.

(** X2.  After a load, forced or not, [getCachedSkills] (and its twins)
    returns the elements of the array that the load returned; on a manager
    that has not loaded it returns the empty list. *)
Theorem getCached_returns_last_load (h : Host) (force : bool) :
  (forall st,
      exists loaded st',
        SkillsManager.loadSkills h force st = (Ok loaded, st')
        /\ SkillsManager.getCachedSkills st' = elems loaded)
  /\ (forall st,
         exists loaded st',
           AgentsManager.loadAgents h force st = (Ok loaded, st')
           /\ AgentsManager.getCachedAgents st' = elems loaded)
  /\ (forall st,
         exists loaded st',
           CommandsManager.loadCommands h force st = (Ok loaded, st')
           /\ CommandsManager.getCachedCommands st' = elems loaded)
  /\ SkillsManager.getCachedSkills SkillsManager.init = []
  /\ AgentsManager.getCachedAgents AgentsManager.init = []
  /\ CommandsManager.getCachedCommands CommandsManager.init = [].
Proof.
  split; [| split; [| split; [| repeat split]]]; intros st.
  - destruct (loadSkills_returns h force st) as (loaded & st' & E & stored & Hc & Hsame).
    exists loaded, st'. split; [exact E |].
    unfold SkillsManager.getCachedSkills. now rewrite Hc.
  - destruct (loadAgents_returns h force st) as (loaded & st' & E & stored & Hc & Hsame).
    exists loaded, st'. split; [exact E |].
    unfold AgentsManager.getCachedAgents. now rewrite Hc.
  - destruct (loadCommands_returns h force st) as (loaded & st' & E & stored & Hc & Hsame).
    exists loaded, st'. split; [exact E |].
    unfold CommandsManager.getCachedCommands. now rewrite Hc.
Qed.

(** X3.  Every forced load builds new arrays.  Of two forced loads in a
    row, on any two hosts, the second returns an object that is neither the
    one the first returned nor the one the first cached, and caches an
    object that is neither of them.  The cached array always has the
    elements of the returned one.  When the second load finds the home
    directory (and, for the skills, the working directory), the cache holds
    the very array it returns and the load time is the time of that load;
    when [os.homedir()] or [process.cwd()] throws, it returns one empty
    array and caches another, and the load time stays the one the first
    load left. *)
Theorem reload_returns_fresh_array (h1 h2 : Host) :
  (forall st,
      exists a1 st1 a2 st2 c1 c2,
        SkillsManager.loadSkills h1 true st = (Ok a1, st1)
        /\ SkillsManager.loadSkills h2 true st1 = (Ok a2, st2)
        /\ SkillsManager.cachedSkills st1 = Some c1
        /\ SkillsManager.cachedSkills st2 = Some c2
        /\ id a2 <> id a1 /\ id a2 <> id c1 /\ id c2 <> id a1 /\ id c2 <> id c1
        /\ elems c2 = elems a2
        /\ (is_ok (homedir h2) && is_ok (cwd h2) = true ->
            c2 = a2 /\ SkillsManager.lastLoadTime st2 = Date_now h2)
        /\ (is_ok (homedir h2) && is_ok (cwd h2) = false ->
            id c2 <> id a2 /\ elems a2 = []
            /\ SkillsManager.lastLoadTime st2 = SkillsManager.lastLoadTime st1))
  /\ (forall st,
         exists a1 st1 a2 st2 c1 c2,
           AgentsManager.loadAgents h1 true st = (Ok a1, st1)
           /\ AgentsManager.loadAgents h2 true st1 = (Ok a2, st2)
           /\ AgentsManager.cachedAgents st1 = Some c1
           /\ AgentsManager.cachedAgents st2 = Some c2
           /\ id a2 <> id a1 /\ id a2 <> id c1 /\ id c2 <> id a1 /\ id c2 <> id c1
           /\ elems c2 = elems a2
           /\ (is_ok (homedir h2) = true ->
               c2 = a2 /\ AgentsManager.lastLoadTime st2 = Date_now h2)
           /\ (is_ok (homedir h2) = false ->
               id c2 <> id a2 /\ elems a2 = []
               /\ AgentsManager.lastLoadTime st2 = AgentsManager.lastLoadTime st1))
  /\ (forall st,
         exists a1 st1 a2 st2 c1 c2,
           CommandsManager.loadCommands h1 true st = (Ok a1, st1)
           /\ CommandsManager.loadCommands h2 true st1 = (Ok a2, st2)
           /\ CommandsManager.cachedCommands st1 = Some c1
           /\ CommandsManager.cachedCommands st2 = Some c2
           /\ id a2 <> id a1 /\ id a2 <> id c1 /\ id c2 <> id a1 /\ id c2 <> id c1
           /\ elems c2 = elems a2
           /\ (is_ok (homedir h2) = true ->
               c2 = a2 /\ CommandsManager.lastLoadTime st2 = Date_now h2)
           /\ (is_ok (homedir h2) = false ->
               id c2 <> id a2 /\ elems a2 = []
               /\ CommandsManager.lastLoadTime st2 = CommandsManager.lastLoadTime st1)).
Proof.
  split; [| split]; intros st.
  - destruct (loadSkills_reload h1 true st (or_intror eq_refl))
      as [(u & p & m & _ & _ & _ & _ & _ & _ & _ & E1) | (_ & E1)];
      match type of E1 with
      | _ = (_, ?st1) =>
          destruct (loadSkills_reload h2 true st1 (or_intror eq_refl))
          as [(u' & p' & m' & _ & _ & _ & _ & _ & _ & Hk & E2) | (Hk & E2)]
      end;
      eexists _, _, _, _, _, _; (split; [exact E1 |]); (split; [exact E2 |]);
      cbn [SkillsManager.cachedSkills SkillsManager.lastLoadTime SkillsManager.next_id
           id elems];
      rewrite Hk;
      repeat (split; try reflexivity; try discriminate); cbn [id]; lia.
  - destruct (loadAgents_reload h1 true st (or_intror eq_refl))
      as [(home & a & _ & _ & E1) | (e & _ & E1)];
      match type of E1 with
      | _ = (_, ?st1) =>
          destruct (loadAgents_reload h2 true st1 (or_intror eq_refl))
          as [(home' & a' & Hk & _ & E2) | (e' & Hk & E2)]
      end;
      eexists _, _, _, _, _, _; (split; [exact E1 |]); (split; [exact E2 |]);
      cbn [AgentsManager.cachedAgents AgentsManager.lastLoadTime AgentsManager.next_id
           id elems];
      rewrite Hk;
      repeat (split; try reflexivity; try discriminate); cbn [id]; lia.
  - destruct (loadCommands_reload h1 true st (or_intror eq_refl))
      as [(home & a & _ & _ & E1) | (e & _ & E1)];
      match type of E1 with
      | _ = (_, ?st1) =>
          destruct (loadCommands_reload h2 true st1 (or_intror eq_refl))
          as [(home' & a' & Hk & _ & E2) | (e' & Hk & E2)]
      end;
      eexists _, _, _, _, _, _; (split; [exact E1 |]); (split; [exact E2 |]);
      cbn [CommandsManager.cachedCommands CommandsManager.lastLoadTime
           CommandsManager.next_id id elems];
      rewrite Hk;
      repeat (split; try reflexivity; try discriminate); cbn [id]; lia.
Qed.

(** The skills are loaded on the sample host and then again after the
    working directory has gone: the second load returns one empty array and
    caches another, and keeps the load time of the first. *)
Lemma reload_returns_fresh_array_witness :
  exists a1 st1 a2 st2 c2,
    SkillsManager.loadSkills Sample.host true SkillsManager.init = (Ok a1, st1)
    /\ SkillsManager.loadSkills Sample.goneHost true st1 = (Ok a2, st2)
    /\ SkillsManager.cachedSkills st2 = Some c2
    /\ id a2 <> id a1
    /\ id c2 <> id a2 /\ elems a2 = [] /\ elems c2 = []
    /\ SkillsManager.lastLoadTime st2 = SkillsManager.lastLoadTime st1.
Proof.
  destruct (proj1 (reload_returns_fresh_array Sample.host Sample.goneHost) SkillsManager.init)
    as (a1 & st1 & a2 & st2 & c1 & c2 & E1 & E2 & _ & Hc2 & Hfresh & _ & _ & _ & Hsame
        & _ & Hgone).
  destruct (Hgone eq_refl) as (Hdiff & Hempty & Htime).
  exists a1, st1, a2, st2, c2. rewrite Hsame. auto 10.
Defined.

(** ** What the scans record *)

Lemma keptSkill_record (h : Host) dirPath loc plugin entry sk :
  In sk (SkillsManager.keptSkill h dirPath loc plugin entry) ->
  exists content json,
    readFileSync h (Path.join2 (SkillsManager.path sk) "skill.json") = Ok content
    /\ JSON_parse h content = Ok json
    /\ json <> JNull /\ json <> JUndefined
    /\ Js.get_prop json "description" = Ok (match json with
                                            | JObj fields => Js.assoc "description" fields
                                            | _ => JUndefined
                                            end)
    /\ SkillsManager.description sk
       = Js.or (match json with
                | JObj fields => Js.assoc "description" fields
                | _ => JUndefined
                end) JUndefined
    /\ SkillsManager.hasReadme sk
       = existsSync h (Path.join2 (SkillsManager.path sk) "README.md")
    /\ SkillsManager.hasPrompt sk
       = existsSync h (Path.join2 (SkillsManager.path sk) "prompt.md").
Proof.
  unfold SkillsManager.keptSkill.
  destruct (isDirectory entry); [| intros []].
  destruct (existsSync h _); [| intros []].
  destruct (SkillsManager.readSkill h dirPath loc plugin entry) as [s | e] eqn:Hread;
    [| intros []].
  intros [<- | []].
  unfold SkillsManager.readSkill in Hread.
  destruct (readFileSync h _) as [content |] eqn:Hfile; [| discriminate].
  destruct (JSON_parse h content) as [json |] eqn:Hparse; [| discriminate].
  exists content, json.
  destruct json; simpl in Hread; try discriminate;
    injection Hread as <-; simpl; repeat split; try assumption; discriminate.
Qed.

Lemma or_undefined (v : jsval) :
  Js.or v JUndefined = JUndefined \/ Js.truthy (Js.or v JUndefined) = true.
Proof. unfold Js.or. destruct (Js.truthy v) eqn:E; auto. Qed.

(** X4.  What a scanned skill records.  It stands for a listed
    subdirectory of the root: its name is the name of the directory, its
    path is the directory inside the root, and its location and plugin name
    are the ones the scan was called with.  Its descriptor was read and
    parsed, and to a value other than [null] (a descriptor holding [null]
    gives no entry).  Its description is what the descriptor holds under
    [description] if that is truthy, and is absent otherwise: never the empty
    string, [null], [false] or zero.  [hasReadme] and [hasPrompt] say whether
    README.md and prompt.md exist beside the descriptor at the time of the
    scan. *)
Theorem scanned_skill_record (h : Host) (dirPath : string)
        (loc : SkillsManager.SkillLocation) (plugin : option string)
        (skills : list SkillsManager.Skill) (sk : SkillsManager.Skill) :
  SkillsManager.loadSkillsFromDirectory h dirPath loc plugin = Ok skills ->
  In sk skills ->
  (exists entries entry,
      readdirSync h dirPath = Ok entries
      /\ In entry entries
      /\ isDirectory entry = true
      /\ SkillsManager.name sk = d_name entry
      /\ SkillsManager.path sk = Path.join2 dirPath (d_name entry))
  /\ SkillsManager.location sk = loc
  /\ SkillsManager.pluginName sk = plugin
  /\ (exists content json,
         readFileSync h (Path.join2 (SkillsManager.path sk) "skill.json") = Ok content
         /\ JSON_parse h content = Ok json
         /\ json <> JNull
         /\ SkillsManager.description sk
            = Js.or (match json with
                     | JObj fields => Js.assoc "description" fields
                     | _ => JUndefined
                     end) JUndefined)
  /\ (SkillsManager.description sk = JUndefined
      \/ Js.truthy (SkillsManager.description sk) = true)
  /\ SkillsManager.description sk <> JStr ""
  /\ SkillsManager.description sk <> JNull
  /\ SkillsManager.description sk <> JBool false
  /\ SkillsManager.description sk <> JNum 0
  /\ SkillsManager.hasReadme sk
     = existsSync h (Path.join2 (SkillsManager.path sk) "README.md")
  /\ SkillsManager.hasPrompt sk
     = existsSync h (Path.join2 (SkillsManager.path sk) "prompt.md").
Proof.
  intros Hscan Hin.
  destruct (scanned_skill_inv h _ _ _ _ _ Hscan Hin)
    as (entries & entry & Hlist & Hentry & Hdir & _ & Hname & Hpath & Hloc & Hplugin).
  split; [exists entries, entry; auto 10 |].
  split; [exact Hloc |]. split; [exact Hplugin |].
  rewrite loadSkillsFromDirectory_eq in Hscan. injection Hscan as <-.
  destruct (existsSync h dirPath); [| destruct Hin].
  destruct (readdirSync h dirPath) as [entries' | e]; [| destruct Hin].
  apply in_flat_map in Hin as (entry' & _ & Hkept).
  destruct (keptSkill_record h _ _ _ _ _ Hkept)
    as (content & json & Hfile & Hparse & Hnull & _ & _ & Hdesc & Hreadme & Hprompt).
  split; [exists content, json; auto |].
  assert (Hor := or_undefined (match json with
                               | JObj fields => Js.assoc "description" fields
                               | _ => JUndefined
                               end)).
  rewrite <- Hdesc in Hor.
  split; [exact Hor |].
  split; [| split; [| split; [| split; [| split; assumption]]]];
    intros Heq; rewrite Heq in Hor; destruct Hor; discriminate.
Qed.

(** On the sample host: [bar], whose descriptor is [{}], is the project
    skill of the directory [bar]; it has no description and has a README. *)
Lemma scanned_skill_record_witness :
  exists bar,
    SkillsManager.loadSkillsFromDirectory Sample.host Sample.projectSkills
                                          SkillsManager.project None = Ok [bar]
    /\ SkillsManager.name bar = "bar"
    /\ SkillsManager.path bar = Path.join2 Sample.projectSkills "bar"
    /\ SkillsManager.location bar = SkillsManager.project
    /\ SkillsManager.pluginName bar = None
    /\ SkillsManager.description bar = JUndefined
    /\ SkillsManager.hasReadme bar = true
    /\ SkillsManager.hasPrompt bar
       = existsSync Sample.host (Path.join2 (SkillsManager.path bar) "prompt.md").
Proof.
  pose (scanned := match SkillsManager.loadSkillsFromDirectory
                           Sample.host Sample.projectSkills SkillsManager.project None with
                   | Ok skills => skills
                   | Throw _ => []
                   end).
  pose (bar := hd (SkillsManager.Build_Skill "" SkillsManager.user "" JUndefined None
                                             false false) scanned).
  assert (E : SkillsManager.loadSkillsFromDirectory
                Sample.host Sample.projectSkills SkillsManager.project None = Ok [bar])
    by (vm_compute; reflexivity).
  destruct (scanned_skill_record Sample.host Sample.projectSkills SkillsManager.project None
                                 [bar] bar E (or_introl eq_refl))
    as (_ & Hloc & Hplugin & _ & _ & _ & _ & _ & _ & _ & Hprompt).
  exists bar. split; [exact E |].
  split; [vm_compute; reflexivity |]. split; [vm_compute; reflexivity |].
  split; [exact Hloc |]. split; [exact Hplugin |].
  split; [vm_compute; reflexivity |]. split; [vm_compute; reflexivity | exact Hprompt].
Defined.

(** The array that the loops of [loadManagedSkills] leave. *)
Lemma managed_loop (h : Host) (pluginsPath : string) (marketplaces : list string) arr :
  snd (for_of marketplaces
         (fun marketplace =>
            let marketplacePath := Path.join2 pluginsPath marketplace in
            let pluginsDir := Path.join2 marketplacePath "plugins" in
            if negb (existsSync h pluginsDir) then ret tt
            else
              plugins <- lift (readdirNames h pluginsDir) ;;
              for_of plugins (fun pluginName =>
                let pluginPath := Path.join2 pluginsDir pluginName in
                let skillsDir := Path.join2 pluginPath "skills" in
                if existsSync h skillsDir
                then
                  pluginSkills <- lift (SkillsManager.loadSkillsFromDirectory
                                          h skillsDir SkillsManager.managed
                                          (Some pluginName)) ;;
                  push_all pluginSkills
                else ret tt)) arr)
  = (arr ++ ManagedScan.ofMarketplaces h pluginsPath marketplaces)%list.
Proof.
  induction marketplaces as [| marketplace rest IH] in arr |- *; simpl.
  - now rewrite app_nil_r.
  - unfold bind at 1.
    destruct (existsSync h (Path.join2 (Path.join2 pluginsPath marketplace) "plugins"));
      simpl; [| apply IH].
    unfold bind at 1, lift at 1.
    destruct (readdirNames h _) as [plugins | e]; simpl; [| now rewrite app_nil_r].
    rewrite for_of_appends
      with (kept := ManagedScan.ofPlugin
                      h (Path.join2 (Path.join2 pluginsPath marketplace) "plugins")).
    + rewrite IH. now rewrite app_assoc.
    + intros pluginName arr'. unfold ManagedScan.ofPlugin.
      destruct (existsSync h _); simpl; [| now rewrite app_nil_r].
      rewrite loadSkillsFromDirectory_eq. reflexivity.
Qed.

Lemma loadManagedSkills_eq (h : Host) home :
  homedir h = Ok home ->
  SkillsManager.loadManagedSkills h
  = Ok (let pluginsPath := Path.join home [".claude"; "plugins"; "marketplaces"] in
        if existsSync h pluginsPath
        then match readdirNames h pluginsPath with
             | Ok marketplaces => ManagedScan.ofMarketplaces h pluginsPath marketplaces
             | Throw _ => []
             end
        else []).
Proof.
  intros Hhome.
  unfold SkillsManager.loadManagedSkills. rewrite Hhome, returning_array_logged. f_equal.
  cbv zeta. destruct (existsSync h _); simpl; [| reflexivity].
  unfold bind at 1, lift at 1.
  destruct (readdirNames h _) as [marketplaces | e]; simpl; [| reflexivity].
  now rewrite managed_loop.
Qed.

Lemma ofMarketplaces_listable (h : Host) pluginsPath before rest :
  Forall (ManagedScan.listable h pluginsPath) before ->
  ManagedScan.ofMarketplaces h pluginsPath (before ++ rest)
  = (ManagedScan.ofMarketplaces h pluginsPath before
     ++ ManagedScan.ofMarketplaces h pluginsPath rest)%list.
Proof.
  induction 1 as [| m before Hm _ IH]; simpl; [reflexivity |].
  destruct Hm as [Hmissing | [plugins Hlist]]; cbv zeta in *.
  - now rewrite Hmissing.
  - rewrite Hlist. destruct (existsSync h _); [| exact IH].
    now rewrite IH, app_assoc.
Qed.

(** X5.  The scan of the managed location, under a home directory that
    is known, returns, in listing order, the skills of the plugins of each
    marketplace, up to the first marketplace whose [plugins] directory
    exists and cannot be listed: what was found before it is kept, and
    neither it nor any marketplace listed after it contributes. *)
Theorem managed_scan_stops_at_failure (h : Host) (home : string)
        (before after : list string) (failing : string) (e : exn) :
  let pluginsPath := Path.join home [".claude"; "plugins"; "marketplaces"] in
  let pluginsDir := Path.join2 (Path.join2 pluginsPath failing) "plugins" in
  homedir h = Ok home ->
  existsSync h pluginsPath = true ->
  readdirNames h pluginsPath = Ok (before ++ failing :: after)%list ->
  Forall (ManagedScan.listable h pluginsPath) before ->
  existsSync h pluginsDir = true ->
  readdirNames h pluginsDir = Throw e ->
  SkillsManager.loadManagedSkills h
  = Ok (ManagedScan.ofMarketplaces h pluginsPath before).
Proof.
  cbv zeta. intros Hhome Hroot Hlist Hbefore Hdir Hthrow.
  rewrite (loadManagedSkills_eq h home Hhome). cbv zeta. rewrite Hroot, Hlist.
  rewrite (ofMarketplaces_listable h _ _ _ Hbefore).
  cbn [ManagedScan.ofMarketplaces]. cbv zeta.
  rewrite Hdir, Hthrow. now rewrite app_nil_r.
Qed.

(** On the host whose second marketplace has a regular file for
    [plugins]: the scan returns [baz] of the first marketplace and not
    [qux] of the third. *)
Lemma managed_scan_stops_at_failure_witness :
  exists baz,
    SkillsManager.loadManagedSkills Sample.brokenMarketHost = Ok [baz]
    /\ SkillsManager.name baz = "baz"
    /\ ManagedScan.ofMarketplaces Sample.brokenMarketHost Sample.marketplaces ["late"]
       <> [].
Proof.
  assert (Hscan : SkillsManager.loadManagedSkills Sample.brokenMarketHost
                  = Ok (ManagedScan.ofMarketplaces Sample.brokenMarketHost
                                                   Sample.marketplaces ["mk"])).
  { apply (managed_scan_stops_at_failure
             Sample.brokenMarketHost Sample.home ["mk"] ["late"] "bad"
             (JsError ("ENOTDIR: not a directory, scandir '"
                         ++ Path.join Sample.marketplaces ["bad"; "plugins"] ++ "'"))).
    - reflexivity.
    - reflexivity.
    - reflexivity.
    - constructor; [| constructor]. right. eexists. vm_compute. reflexivity.
    - reflexivity.
    - vm_compute. reflexivity. }
  eexists. split; [rewrite Hscan; vm_compute; reflexivity |].
  split; [reflexivity |]. vm_compute. discriminate.
Defined.

Lemma ofMarketplaces_in (h : Host) pluginsPath marketplaces sk :
  In sk (ManagedScan.ofMarketplaces h pluginsPath marketplaces) ->
  exists marketplace plugins plugin,
    In marketplace marketplaces
    /\ readdirNames h (Path.join2 (Path.join2 pluginsPath marketplace) "plugins") = Ok plugins
    /\ In plugin plugins
    /\ In sk (ManagedScan.ofPlugin
                h (Path.join2 (Path.join2 pluginsPath marketplace) "plugins") plugin).
Proof.
  induction marketplaces as [| m rest IH]; [intros [] |].
  cbn [ManagedScan.ofMarketplaces]. cbv zeta.
  assert (Hrest : In sk (ManagedScan.ofMarketplaces h pluginsPath rest) ->
                  exists marketplace plugins plugin,
                    In marketplace (m :: rest)
                    /\ readdirNames h (Path.join2 (Path.join2 pluginsPath marketplace)
                                                  "plugins") = Ok plugins
                    /\ In plugin plugins
                    /\ In sk (ManagedScan.ofPlugin
                                h (Path.join2 (Path.join2 pluginsPath marketplace) "plugins")
                                plugin)).
  { intros Hin. destruct (IH Hin) as (m' & ps & pl & Hm & Hrest).
    exists m', ps, pl. split; [now right | exact Hrest]. }
  destruct (existsSync h _); [| exact Hrest].
  destruct (readdirNames h _) as [plugins | e] eqn:Hlist; [| intros []].
  intros Hin. apply in_app_or in Hin as [Hin | Hin]; [| now apply Hrest].
  apply in_flat_map in Hin as (plugin & Hplugin & Hin).
  exists m, plugins, plugin. split; [now left | auto].
Qed.

(** X6.  Where a skill comes from.  A user or project skill has no plugin
    name and lies directly under the skills directory of the home or of the
    working directory, which was known when the scan ran: its path is what
    [path.join] makes of that directory and its name.  A managed skill
    names the plugin directory it lies in: its path is what [path.join]
    makes, step by step, of the marketplaces directory under the home, a
    listed marketplace, [plugins], a listed plugin of it, [skills] and the
    name, and [pluginName] is that plugin. *)
Theorem skill_provenance (h : Host) (sk : SkillsManager.Skill) :
  (forall skills,
      SkillsManager.loadUserSkills h = Ok skills -> In sk skills ->
      exists home,
        homedir h = Ok home
        /\ SkillsManager.location sk = SkillsManager.user
        /\ SkillsManager.pluginName sk = None
        /\ SkillsManager.path sk
           = Path.join2 (Path.join home [".claude"; "skills"]) (SkillsManager.name sk))
  /\ (forall skills,
         SkillsManager.loadProjectSkills h = Ok skills -> In sk skills ->
         exists work,
           cwd h = Ok work
           /\ SkillsManager.location sk = SkillsManager.project
           /\ SkillsManager.pluginName sk = None
           /\ SkillsManager.path sk
              = Path.join2 (Path.join work [".claude"; "skills"]) (SkillsManager.name sk))
  /\ (forall skills,
         SkillsManager.loadManagedSkills h = Ok skills -> In sk skills ->
         exists home marketplaces marketplace plugins plugin,
           let pluginsPath := Path.join home [".claude"; "plugins"; "marketplaces"] in
           homedir h = Ok home
           /\ readdirNames h pluginsPath = Ok marketplaces
           /\ In marketplace marketplaces
           /\ readdirNames h (Path.join2 (Path.join2 pluginsPath marketplace) "plugins")
              = Ok plugins
           /\ In plugin plugins
           /\ SkillsManager.location sk = SkillsManager.managed
           /\ SkillsManager.pluginName sk = Some plugin
           /\ SkillsManager.path sk
              = Path.join2
                  (Path.join2
                     (Path.join2 (Path.join2 (Path.join2 pluginsPath marketplace) "plugins")
                                 plugin)
                     "skills")
                  (SkillsManager.name sk)).
Proof.
  split; [| split].
  - intros skills Hscan Hin. unfold SkillsManager.loadUserSkills in Hscan.
    destruct (homedir h) as [home | e]; [| discriminate]. exists home.
    destruct (scanned_skill_inv h _ _ _ _ _ Hscan Hin)
      as (_ & entry & _ & _ & _ & _ & Hname & Hpath & Hloc & Hplugin).
    rewrite Hname. auto.
  - intros skills Hscan Hin. unfold SkillsManager.loadProjectSkills in Hscan.
    destruct (cwd h) as [work | e]; [| discriminate]. exists work.
    destruct (scanned_skill_inv h _ _ _ _ _ Hscan Hin)
      as (_ & entry & _ & _ & _ & _ & Hname & Hpath & Hloc & Hplugin).
    rewrite Hname. auto.
  - intros skills.
    destruct (homedir h) as [home | e] eqn:Hhome;
      [| unfold SkillsManager.loadManagedSkills; rewrite Hhome; discriminate].
    rewrite (loadManagedSkills_eq h home Hhome). cbv zeta. intros [= <-] Hin.
    destruct (existsSync h _); [| destruct Hin].
    destruct (readdirNames h _) as [marketplaces | e] eqn:Hms; [| destruct Hin].
    apply ofMarketplaces_in in Hin as (m & plugins & plugin & Hm & Hlist & Hplugin & Hin).
    unfold ManagedScan.ofPlugin in Hin. cbv zeta in Hin.
    destruct (existsSync h _); [| destruct Hin].
    destruct (SkillsManager.loadSkillsFromDirectory h _ _ _) as [found | e] eqn:Hscan;
      [| destruct Hin].
    destruct (scanned_skill_inv h _ _ _ _ _ Hscan Hin)
      as (_ & entry & _ & _ & _ & _ & Hname & Hpath & Hloc & Hpl).
    exists home, marketplaces, m, plugins, plugin. cbv zeta. rewrite Hname.
    repeat split; (reflexivity || assumption).
Qed.

(** On the sample host: the one managed skill names its plugin. *)
Lemma skill_provenance_witness :
  exists baz marketplace plugin,
    SkillsManager.loadManagedSkills Sample.host = Ok [baz]
    /\ SkillsManager.pluginName baz = Some plugin
    /\ SkillsManager.path baz
       = Path.join2
           (Path.join2
              (Path.join2 (Path.join2 (Path.join2 Sample.marketplaces marketplace) "plugins")
                          plugin)
              "skills")
           (SkillsManager.name baz).
Proof.
  pose (loaded := match SkillsManager.loadManagedSkills Sample.host with
                  | Ok skills => skills
                  | Throw _ => []
                  end).
  pose (baz := hd (SkillsManager.Build_Skill "" SkillsManager.user "" JUndefined None
                                             false false) loaded).
  assert (E : SkillsManager.loadManagedSkills Sample.host = Ok [baz])
    by (vm_compute; reflexivity).
  destruct (skill_provenance Sample.host baz) as (_ & _ & Hmanaged).
  destruct (Hmanaged [baz] E (or_introl eq_refl))
    as (home & ms & m & ps & pl & Hhome & _ & _ & _ & _ & _ & Hplugin & Hpath).
  injection Hhome as <-.
  exists baz, m, pl. split; [exact E |]. split; [exact Hplugin | exact Hpath].
Defined.

(** ** Strings *)

Lemma append_nil_r (s : string) : s ++ "" = s.
Proof. induction s as [| c s IH]; simpl; [reflexivity | now rewrite IH]. Qed.

Lemma append_assoc (a b c : string) : (a ++ b) ++ c = a ++ b ++ c.
Proof. induction a as [| x a IH]; simpl; [reflexivity | now rewrite IH]. Qed.

Lemma length_append (a b : string) :
  String.length (a ++ b) = (String.length a + String.length b)%nat.
Proof. induction a as [| x a IH]; simpl; [reflexivity | now rewrite IH]. Qed.

Lemma take_append (a b : string) : Path.take (String.length a) (a ++ b) = a.
Proof. induction a as [| x a IH]; simpl; [now destruct b | now rewrite IH]. Qed.

Lemma endsWith_split (s suffix : string) :
  Js.endsWith s suffix = true -> exists stem, s = stem ++ suffix.
Proof.
    induction s as [| c s IH]; intros Hs.
  - destruct suffix; [now exists "" | discriminate].
  - cbn [Js.endsWith] in Hs.
    destruct (String.eqb (String c s) suffix) eqn:E.
    + apply String.eqb_eq in E. subst suffix. now exists "".
    + destruct (IH Hs) as (stem & ->). now exists (String c stem).
Qed.

(** [path.basename(file, ext)] takes off, and only takes off, the
    extension. *)
Lemma basename_ext (file ext : string) :
  Js.endsWith file ext = true -> Path.basename file ext ++ ext = file.
Proof.
  intros Hends. unfold Path.basename. rewrite Hends.
  destruct (endsWith_split _ _ Hends) as (stem & ->).
  rewrite length_append, Nat.add_sub. now rewrite take_append.
Qed.

(** ** The scans of agents and commands *)

(** X7.  Every scanned agent, and every scanned command, stands for a
    listed file of the root whose name ends in [.md]: its name followed by
    [.md] is the file name, its path is the file inside the root, the file
    could be read, its description is what [extractDescription] finds in
    the content, and [hasReadme] says whether [<root>/<name>/README.md]
    exists.  A command never has a [usage]. *)
Theorem scanned_markdown_entries (h : Host) (dirPath : string) :
  (forall agents a,
      AgentsManager.loadAgentsFromDirectory h dirPath = Ok agents -> In a agents ->
      exists entries file content,
        readdirSync h dirPath = Ok entries
        /\ In file (map d_name entries)
        /\ Js.endsWith file ".md" = true
        /\ AgentsManager.name a ++ ".md" = file
        /\ AgentsManager.path a = Path.join2 dirPath file
        /\ readFileSync h (AgentsManager.path a) = Ok content
        /\ AgentsManager.description a = Markdown.extractDescription content
        /\ AgentsManager.hasReadme a
           = existsSync h (Path.join dirPath [AgentsManager.name a; "README.md"]))
  /\ (forall commands c,
         CommandsManager.loadCommandsFromDirectory h dirPath = Ok commands ->
         In c commands ->
         exists entries file content,
           readdirSync h dirPath = Ok entries
           /\ In file (map d_name entries)
           /\ Js.endsWith file ".md" = true
           /\ CommandsManager.name c ++ ".md" = file
           /\ CommandsManager.path c = Path.join2 dirPath file
           /\ readFileSync h (CommandsManager.path c) = Ok content
           /\ CommandsManager.description c = Markdown.extractDescription content
           /\ CommandsManager.usage c = None
           /\ CommandsManager.hasReadme c
              = existsSync h (Path.join dirPath [CommandsManager.name c; "README.md"])).
Proof.
  split.
  - intros agents a. rewrite loadAgentsFromDirectory_eq. intros [= <-] Hin.
    destruct (existsSync h dirPath); [| destruct Hin].
    destruct (readdirSync h dirPath) as [entries | e]; [| destruct Hin].
    apply in_flat_map in Hin as (file & Hfile & Hkept).
    unfold AgentsManager.keptAgent in Hkept.
    destruct (Js.endsWith file ".md") eqn:Hmd; [| destruct Hkept].
    destruct (AgentsManager.readAgent h dirPath file) as [a' | e] eqn:Hread;
      [| destruct Hkept].
    destruct Hkept as [<- | []].
    unfold AgentsManager.readAgent in Hread.
    destruct (readFileSync h _) as [content |] eqn:Hcontent; [| discriminate].
    injection Hread as <-. cbn [AgentsManager.name AgentsManager.path
                                  AgentsManager.description AgentsManager.hasReadme].
    exists entries, file, content. rewrite (basename_ext _ _ Hmd). auto 10.
  - intros commands c. rewrite loadCommandsFromDirectory_eq. intros [= <-] Hin.
    destruct (existsSync h dirPath); [| destruct Hin].
    destruct (readdirSync h dirPath) as [entries | e]; [| destruct Hin].
    apply in_flat_map in Hin as (file & Hfile & Hkept).
    unfold CommandsManager.keptCommand in Hkept.
    destruct (Js.endsWith file ".md") eqn:Hmd; [| destruct Hkept].
    destruct (CommandsManager.readCommand h dirPath file) as [c' | e] eqn:Hread;
      [| destruct Hkept].
    destruct Hkept as [<- | []].
    unfold CommandsManager.readCommand in Hread.
    destruct (readFileSync h _) as [content |] eqn:Hcontent; [| discriminate].
    injection Hread as <-. cbn [CommandsManager.name CommandsManager.path
                                  CommandsManager.description CommandsManager.hasReadme
                                  CommandsManager.usage].
    exists entries, file, content. rewrite (basename_ext _ _ Hmd). auto 12.
Qed.

(** On the sample host: the one agent is [helper], from [helper.md]. *)
Lemma scanned_markdown_entries_witness :
  exists helper file content,
    AgentsManager.loadAgentsFromDirectory Sample.host Sample.agentsDir = Ok [helper]
    /\ AgentsManager.name helper ++ ".md" = file
    /\ AgentsManager.path helper = Path.join2 Sample.agentsDir file
    /\ readFileSync Sample.host (AgentsManager.path helper) = Ok content
    /\ AgentsManager.description helper = Markdown.extractDescription content.
Proof.
  pose (scanned := match AgentsManager.loadAgentsFromDirectory Sample.host Sample.agentsDir
                   with Ok agents => agents | Throw _ => [] end).
  pose (helper := hd (AgentsManager.Build_Agent "" "" None false) scanned).
  assert (E : AgentsManager.loadAgentsFromDirectory Sample.host Sample.agentsDir
              = Ok [helper]) by (vm_compute; reflexivity).
  destruct (scanned_markdown_entries Sample.host Sample.agentsDir) as [Hagents _].
  destruct (Hagents [helper] helper E (or_introl eq_refl))
    as (entries & file & content & _ & _ & _ & Hname & Hpath & Hread & Hdesc & _).
  exists helper, file, content. auto.
Defined.

(** ** Searches *)

Lemma prefix_spec (sub s : string) :
  String.prefix sub s = true <-> exists after, s = sub ++ after.
Proof.
  revert s. induction sub as [| c sub IH]; intros s.
  - split; [intros _; now exists s | intros _; now destruct s].
  - destruct s as [| c' s]; simpl.
    + split; [discriminate | intros (after & Hs); discriminate].
    + destruct (ascii_dec c c') as [<- | Hneq].
      * rewrite IH. split; intros (after & Hs); exists after.
        -- now rewrite Hs.
        -- now injection Hs.
      * split; [discriminate | intros (after & [= Hc _]); congruence].
Qed.

(** [s.includes(sub)] says that [sub] occurs in [s]. *)
Lemma includes_spec (s sub : string) :
  Js.includes s sub = true <-> Text.occursIn sub s.
Proof.
  unfold Text.occursIn. induction s as [| c s IH]; cbn [Js.includes].
  - destruct (String.prefix sub "") eqn:Hp.
    + apply prefix_spec in Hp as (after & Hs).
      split; [intros _; now exists "", after | reflexivity].
    + split; [discriminate |]. intros (before & after & Hs).
      destruct before; [| discriminate].
      assert (String.prefix sub "" = true) by (apply prefix_spec; now exists after).
      congruence.
  - destruct (String.prefix sub (String c s)) eqn:Hp.
    + apply prefix_spec in Hp as (after & Hs).
      split; [intros _; now exists "", after | reflexivity].
    + rewrite IH. split.
      * intros (before & after & ->). now exists (String c before), after.
      * intros (before & after & Hs). destruct before as [| c' before].
        -- assert (String.prefix sub (String c s) = true)
             by (apply prefix_spec; now exists after).
           congruence.
        -- injection Hs as _ ->. now exists before, after.
Qed.

(** X8.  A search of the agents, and of the commands, for a query string
    loads the index without force, cannot throw, and returns, in cached
    order, exactly the entries in whose lower-cased name or lower-cased
    description the lower-cased query occurs; the empty query returns the
    whole index. *)
Theorem search_markdown_entries (h : Host) (query : string) :
  (forall st,
      exists loaded st' keep,
        AgentsManager.loadAgents h false st = (Ok loaded, st')
        /\ AgentsManager.searchAgents h (JStr query) st
           = (Ok (filter keep (elems loaded)), st')
        /\ (forall a,
               keep a = true
               <-> Text.occursIn (Js.toLowerCase query)
                                 (Js.toLowerCase (AgentsManager.name a))
                   \/ exists d, AgentsManager.description a = Some d
                                /\ Text.occursIn (Js.toLowerCase query) (Js.toLowerCase d))
        /\ (query = "" -> filter keep (elems loaded) = elems loaded))
  /\ (forall st,
         exists loaded st' keep,
           CommandsManager.loadCommands h false st = (Ok loaded, st')
           /\ CommandsManager.searchCommands h (JStr query) st
              = (Ok (filter keep (elems loaded)), st')
           /\ (forall c,
                  keep c = true
                  <-> Text.occursIn (Js.toLowerCase query)
                                    (Js.toLowerCase (CommandsManager.name c))
                      \/ exists d, CommandsManager.description c = Some d
                                   /\ Text.occursIn (Js.toLowerCase query)
                                                    (Js.toLowerCase d))
           /\ (query = "" -> filter keep (elems loaded) = elems loaded)).
Proof.
  split; intros st.
  - destruct (loadAgents_returns h false st) as (loaded & st' & Hload & _).
    exists loaded, st',
      (fun a => Js.includes (Js.toLowerCase (AgentsManager.name a)) (Js.toLowerCase query)
                || match AgentsManager.description a with
                   | Some d => Js.includes (Js.toLowerCase d) (Js.toLowerCase query)
                   | None => false
                   end).
    split; [exact Hload |]. split; [| split].
    + unfold AgentsManager.searchAgents. rewrite (bind_ok _ _ _ _ _ Hload).
      unfold bind, lift. simpl.
      rewrite filter_r_total
        with (q := (fun a => Js.includes (Js.toLowerCase (AgentsManager.name a))
                                     (Js.toLowerCase query)
                        || match AgentsManager.description a with
                           | Some d => Js.includes (Js.toLowerCase d) (Js.toLowerCase query)
                           | None => false
                           end));
        [reflexivity | intros a _; reflexivity].
    + intros a. rewrite orb_true_iff, includes_spec.
      destruct (AgentsManager.description a) as [d |].
      * rewrite includes_spec. split; intros [H | H]; auto.
        -- right. now exists d.
        -- destruct H as (d' & [= <-] & H). now right.
      * split; intros [H | H]; auto; [discriminate | destruct H as (? & ? & _); discriminate].
    + intros ->. apply forallb_filter_id. apply forallb_forall. intros a _.
      simpl. now rewrite includes_empty.
  - destruct (loadCommands_returns h false st) as (loaded & st' & Hload & _).
    exists loaded, st',
      (fun c => Js.includes (Js.toLowerCase (CommandsManager.name c)) (Js.toLowerCase query)
                || match CommandsManager.description c with
                   | Some d => Js.includes (Js.toLowerCase d) (Js.toLowerCase query)
                   | None => false
                   end).
    split; [exact Hload |]. split; [| split].
    + unfold CommandsManager.searchCommands. rewrite (bind_ok _ _ _ _ _ Hload).
      unfold bind, lift. simpl.
      rewrite filter_r_total
        with (q := (fun c => Js.includes (Js.toLowerCase (CommandsManager.name c))
                                     (Js.toLowerCase query)
                        || match CommandsManager.description c with
                           | Some d => Js.includes (Js.toLowerCase d) (Js.toLowerCase query)
                           | None => false
                           end));
        [reflexivity | intros c _; reflexivity].
    + intros c. rewrite orb_true_iff, includes_spec.
      destruct (CommandsManager.description c) as [d |].
      * rewrite includes_spec. split; intros [H | H]; auto.
        -- right. now exists d.
        -- destruct H as (d' & [= <-] & H). now right.
      * split; intros [H | H]; auto; [discriminate | destruct H as (? & ? & _); discriminate].
    + intros ->. apply forallb_filter_id. apply forallb_forall. intros c _.
      simpl. now rewrite includes_empty.
Qed.

(** On the sample host: the query [HELL] finds the agent [helper] by its
    name and by its description [hello]; the empty query returns the one
    agent of the index. *)
Lemma search_markdown_entries_witness :
  (exists helper,
      fst (AgentsManager.searchAgents Sample.host (JStr "HELL") AgentsManager.init)
      = Ok [helper]
      /\ AgentsManager.name helper = "helper")
  /\ exists loaded st',
       AgentsManager.loadAgents Sample.host false AgentsManager.init = (Ok loaded, st')
       /\ AgentsManager.searchAgents Sample.host (JStr "") AgentsManager.init
          = (Ok (elems loaded), st').
Proof.
  split; [eexists; split; vm_compute; reflexivity |].
  destruct (search_markdown_entries Sample.host "") as [Hagents _].
  destruct (Hagents AgentsManager.init) as (loaded & st' & keep & Hload & Hsearch & _ & Hall).
  exists loaded, st'. split; [exact Hload |].
  now rewrite Hsearch, (Hall eq_refl).
Defined.

Lemma searchPredicate_outcome lowerQuery locationFilter sk :
  SkillsManager.searchPredicate lowerQuery locationFilter sk
  = if negb (SkillSearch.passesFilter locationFilter sk) || SkillSearch.searchable sk
    then Ok (SkillsManager.matchesQuery lowerQuery locationFilter sk)
    else Throw (JsError "skill.description?.toLowerCase is not a function").
Proof.
  unfold SkillsManager.searchPredicate, SkillsManager.matchesQuery,
    SkillSearch.passesFilter, SkillSearch.searchable, SkillsManager.optIncludes.
  destruct locationFilter as [f |];
    try destruct (SkillsManager.location_eqb (SkillsManager.location sk) f);
    destruct (SkillsManager.description sk); simpl; try reflexivity;
    now rewrite orb_false_r.
Qed.

Lemma filter_r_outcome {A} (p : A -> result bool) (q ok : A -> bool) (e : exn) (l : list A) :
  (forall x, p x = if ok x then Ok (q x) else Throw e) ->
  filter_r p l = if forallb ok l then Ok (filter q l) else Throw e.
Proof.
  intros Hp. induction l as [| a l IH]; simpl; [reflexivity |].
  rewrite Hp, IH. destruct (ok a); simpl; [| reflexivity].
  now destruct (forallb ok l).
Qed.

(** X9.  When a search of the skills for a query string returns and when
    it throws.  It throws, always the same TypeError, exactly when some
    cached entry that passes the location filter has a description that is
    neither a string nor absent; entries of other locations are not looked
    at.  When it returns, it returns in cached order the entries that pass
    the filter and match the query, so every returned entry has the
    location asked for. *)
Theorem searchSkills_outcome (h : Host) (query : string)
        (locationFilter : option SkillsManager.SkillLocation) (st : SkillsManager.t) :
  exists loaded st',
    SkillsManager.loadSkills h false st = (Ok loaded, st')
    /\ SkillsManager.searchSkills h (JStr query) locationFilter st
       = (if forallb (fun sk => negb (SkillSearch.passesFilter locationFilter sk)
                                || SkillSearch.searchable sk) (elems loaded)
          then Ok (filter (SkillsManager.matchesQuery (Js.toLowerCase query) locationFilter)
                          (elems loaded))
          else Throw (JsError "skill.description?.toLowerCase is not a function"),
          st')
    /\ (forall found,
           fst (SkillsManager.searchSkills h (JStr query) locationFilter st) = Ok found ->
           forall sk, In sk found ->
                      In sk (elems loaded)
                      /\ SkillSearch.passesFilter locationFilter sk = true
                      /\ SkillSearch.searchable sk = true).
Proof.
  destruct (loadSkills_returns h false st) as (loaded & st' & Hload & _).
  exists loaded, st'. split; [exact Hload |].
  assert (Hsearch : SkillsManager.searchSkills h (JStr query) locationFilter st
                    = (filter_r (SkillsManager.searchPredicate (Js.toLowerCase query)
                                                               locationFilter)
                                (elems loaded), st')).
  { unfold SkillsManager.searchSkills. rewrite (bind_ok _ _ _ _ _ Hload). reflexivity. }
  rewrite Hsearch.
  rewrite filter_r_outcome
    with (q := SkillsManager.matchesQuery (Js.toLowerCase query) locationFilter)
         (ok := fun sk => negb (SkillSearch.passesFilter locationFilter sk)
                          || SkillSearch.searchable sk)
         (e := JsError "skill.description?.toLowerCase is not a function")
    by (intros sk; apply searchPredicate_outcome).
  split; [reflexivity |].
  intros found. simpl.
  destruct (forallb _ (elems loaded)) eqn:Hall; [| discriminate].
  intros [= <-] sk Hin. apply filter_In in Hin as [Hin Hmatch].
  rewrite forallb_forall in Hall. specialize (Hall sk Hin).
  unfold SkillsManager.matchesQuery in Hmatch.
  apply andb_true_iff in Hmatch as [Hpass _].
  assert (Hp : SkillSearch.passesFilter locationFilter sk = true) by exact Hpass.
  rewrite Hp in Hall. simpl in Hall. auto.
Qed.

(** On the host where the user skill [odd] has a number for description:
    a search restricted to the project location returns [bar], and the same
    search without restriction throws. *)
Lemma searchSkills_outcome_witness :
  (exists bar,
      fst (SkillsManager.searchSkills Sample.oddHost (JStr "BA")
                                      (Some SkillsManager.project) SkillsManager.init)
      = Ok [bar]
      /\ SkillsManager.location bar = SkillsManager.project)
  /\ fst (SkillsManager.searchSkills Sample.oddHost (JStr "BA") None SkillsManager.init)
     = Throw (JsError "skill.description?.toLowerCase is not a function").
Proof.
  destruct (searchSkills_outcome Sample.oddHost "BA" (Some SkillsManager.project)
                                 SkillsManager.init)
    as (loaded & st' & _ & Hsearch & Hfound).
  split; [| vm_compute; reflexivity].
  assert (E : exists bar,
             fst (SkillsManager.searchSkills Sample.oddHost (JStr "BA")
                                             (Some SkillsManager.project) SkillsManager.init)
             = Ok [bar]) by (eexists; vm_compute; reflexivity).
  destruct E as (bar & E). exists bar. split; [exact E |].
  destruct (Hfound [bar] E bar (or_introl eq_refl)) as (_ & Hpass & _).
  unfold SkillSearch.passesFilter in Hpass.
  now destruct (SkillsManager.location bar).
Defined.

(** ** Details *)

Lemma readIfExists_none {A} (h : Host) p (f : string -> result A) :
  readIfExists h p f = Ok None <-> existsSync h p = false.
Proof.
  unfold readIfExists. destruct (existsSync h p); split; try reflexivity; try discriminate.
  destruct (readFileSync h p) as [c |]; [| discriminate].
  destruct (f c); discriminate.
Qed.

Lemma readIfExists_some {A} (h : Host) p (f : string -> result A) a :
  readIfExists h p f = Ok (Some a) ->
  existsSync h p = true /\ exists c, readFileSync h p = Ok c /\ f c = Ok a.
Proof.
  unfold readIfExists. destruct (existsSync h p); [| discriminate].
  destruct (readFileSync h p) as [c |]; [| discriminate].
  destruct (f c) as [a' |] eqn:E; [| discriminate].
  intros [= <-]. eauto.
Qed.

Lemma readIfExists_throw {A} (h : Host) p (f : string -> result A) e :
  readIfExists h p f = Throw e ->
  existsSync h p = true
  /\ (readFileSync h p = Throw e \/ exists c, readFileSync h p = Ok c /\ f c = Throw e).
Proof.
  unfold readIfExists. destruct (existsSync h p); [| discriminate].
  destruct (readFileSync h p) as [c |]; [| intros [= <-]; auto].
  destruct (f c) as [a' |] eqn:E; [discriminate |].
  intros [= <-]. eauto.
Qed.

(** What [getSkillDetails] does once the entry is found. *)
Lemma getSkillDetails_found (h : Host) skillName location st loaded st' sk :
  SkillsManager.loadSkills h false st = (Ok loaded, st') ->
  find (SkillsManager.matchesSkill skillName location) (elems loaded) = Some sk ->
  SkillsManager.getSkillDetails h skillName location st
  = (Ok match readIfExists h (Path.join2 (SkillsManager.path sk) "skill.json")
                           (JSON_parse h),
              readIfExists h (Path.join2 (SkillsManager.path sk) "README.md") Ok,
              readIfExists h (Path.join2 (SkillsManager.path sk) "prompt.md") Ok
        with
        | Ok json, Ok readme, Ok prompt =>
            Some {| SkillsManager.skill := sk;
                    SkillsManager.skillJson := json;
                    SkillsManager.readmeContent := readme;
                    SkillsManager.promptContent := prompt |}
        | _, _, _ => None
        end, st').
Proof.
  intros Hload Hfind. unfold SkillsManager.getSkillDetails, try_catch.
  rewrite (bind_ok _ _ _ _ _ Hload), Hfind. unfold bind, lift, ret.
  destruct (readIfExists h _ (JSON_parse h)); [| reflexivity].
  destruct (readIfExists h _ Ok); [| reflexivity].
  destruct (readIfExists h _ Ok); reflexivity.
Qed.

(** X10.  Details of a cached skill are read from the file system as it
    is at the time of the call.  Returned details carry the cached entry
    unchanged; each of the three contents is there exactly when its file
    exists now, and is what reading (and for the descriptor, parsing) the
    file gives.  If one of the files exists and cannot be read, or the
    descriptor does not parse, the call returns the not-found value: there
    are no partial details. *)
Theorem skill_details_content (h : Host) (skillName location : jsval)
        (st st' : SkillsManager.t) (loaded : JsArray SkillsManager.Skill)
        (sk : SkillsManager.Skill) :
  SkillsManager.loadSkills h false st = (Ok loaded, st') ->
  find (SkillsManager.matchesSkill skillName location) (elems loaded) = Some sk ->
  let descriptor := Path.join2 (SkillsManager.path sk) "skill.json" in
  let readme := Path.join2 (SkillsManager.path sk) "README.md" in
  let prompt := Path.join2 (SkillsManager.path sk) "prompt.md" in
  exists outcome,
    SkillsManager.getSkillDetails h skillName location st = (Ok outcome, st')
    /\ (forall details,
           outcome = Some details ->
           SkillsManager.skill details = sk
           /\ (SkillsManager.skillJson details = None <-> existsSync h descriptor = false)
           /\ (forall json,
                  SkillsManager.skillJson details = Some json ->
                  exists text, readFileSync h descriptor = Ok text
                               /\ JSON_parse h text = Ok json)
           /\ (SkillsManager.readmeContent details = None <-> existsSync h readme = false)
           /\ (forall text,
                  SkillsManager.readmeContent details = Some text ->
                  readFileSync h readme = Ok text)
           /\ (SkillsManager.promptContent details = None <-> existsSync h prompt = false)
           /\ (forall text,
                  SkillsManager.promptContent details = Some text ->
                  readFileSync h prompt = Ok text))
    /\ (outcome = None ->
        exists file,
          In file [descriptor; readme; prompt]
          /\ existsSync h file = true
          /\ (is_ok (readFileSync h file) = false
              \/ file = descriptor
                 /\ exists text, readFileSync h descriptor = Ok text
                                 /\ is_ok (JSON_parse h text) = false))
    /\ (existsSync h descriptor = true ->
        (forall text, readFileSync h descriptor = Ok text ->
                      is_ok (JSON_parse h text) = false) ->
        outcome = None).
Proof.
  intros Hload Hfind. cbv zeta.
  rewrite (getSkillDetails_found h _ _ _ _ _ _ Hload Hfind).
  eexists. split; [reflexivity |].
  destruct (readIfExists h (Path.join2 (SkillsManager.path sk) "skill.json") (JSON_parse h))
    as [json | e1] eqn:Hjson.
  2:{ split; [discriminate |]. split; [| reflexivity].
      intros _. apply readIfExists_throw in Hjson as [Hex [Hread | (text & Hread & Hparse)]].
      - eexists. split; [left; reflexivity |]. split; [exact Hex |].
        left. now rewrite Hread.
      - eexists. split; [left; reflexivity |]. split; [exact Hex |].
        right. split; [reflexivity |]. exists text. split; [exact Hread |].
        now rewrite Hparse. }
  destruct (readIfExists h (Path.join2 (SkillsManager.path sk) "README.md") Ok)
    as [readme | e2] eqn:Hreadme.
  2:{ split; [discriminate |]. split.
      - intros _. apply readIfExists_throw in Hreadme as [Hex [Hread | (t & _ & Habs)]];
          [| discriminate].
        eexists. split; [right; left; reflexivity |]. split; [exact Hex |].
        left. now rewrite Hread.
      - intros Hex Hbad. exfalso. destruct json as [json |].
        + apply readIfExists_some in Hjson as (_ & text & Hread & Hparse).
          specialize (Hbad text Hread). rewrite Hparse in Hbad. discriminate.
        + apply readIfExists_none in Hjson. congruence. }
  destruct (readIfExists h (Path.join2 (SkillsManager.path sk) "prompt.md") Ok)
    as [prompt | e3] eqn:Hprompt.
  2:{ split; [discriminate |]. split.
      - intros _. apply readIfExists_throw in Hprompt as [Hex [Hread | (t & _ & Habs)]];
          [| discriminate].
        eexists. split; [right; right; left; reflexivity |]. split; [exact Hex |].
        left. now rewrite Hread.
      - intros Hex Hbad. exfalso. destruct json as [json |].
        + apply readIfExists_some in Hjson as (_ & text & Hread & Hparse).
          specialize (Hbad text Hread). rewrite Hparse in Hbad. discriminate.
        + apply readIfExists_none in Hjson. congruence. }
  split; [| split; [discriminate |]].
  - intros details [= <-]. simpl. split; [reflexivity |].
    split; [| split; [| split; [| split; [| split]]]].
    + rewrite <- (readIfExists_none h _ (JSON_parse h)), Hjson.
      split; congruence.
    + intros j ->. apply readIfExists_some in Hjson as (_ & Hj). exact Hj.
    + rewrite <- (readIfExists_none h _ (@Ok string)), Hreadme. split; congruence.
    + intros t ->. apply readIfExists_some in Hreadme as (_ & c & Hc & [= ->]). exact Hc.
    + rewrite <- (readIfExists_none h _ (@Ok string)), Hprompt. split; congruence.
    + intros t ->. apply readIfExists_some in Hprompt as (_ & c & Hc & [= ->]). exact Hc.
  - intros Hex Hbad. exfalso. destruct json as [json |].
    + apply readIfExists_some in Hjson as (_ & text & Hread & Hparse).
      specialize (Hbad text Hread). rewrite Hparse in Hbad. discriminate.
    + apply readIfExists_none in Hjson. congruence.
Qed.

(** The index is loaded on the sample host; then [foo] loses its
    descriptor and gains a README.  Its details carry the cached entry,
    whose [hasReadme] still says no, without descriptor and with the
    README. *)
Lemma skill_details_content_witness :
  let st := snd (SkillsManager.loadSkills Sample.host true SkillsManager.init) in
  exists details,
    fst (SkillsManager.getSkillDetails Sample.laterHost (JStr "foo") (JStr "user") st)
    = Ok (Some details)
    /\ SkillsManager.hasReadme (SkillsManager.skill details) = false
    /\ SkillsManager.skillJson details = None
    /\ SkillsManager.readmeContent details = Some "# Foo".
Proof.
  intros st.
  pose (loaded := match fst (SkillsManager.loadSkills Sample.laterHost false st) with
                  | Ok a => a
                  | Throw _ => {| id := 0; elems := [] |}
                  end).
  pose (foo := hd (SkillsManager.Build_Skill "" SkillsManager.user "" JUndefined None
                                             false false) (elems loaded)).
  destruct (skill_details_content Sample.laterHost (JStr "foo") (JStr "user") st st loaded foo)
    as (outcome & Hget & Hsome & _).
  - vm_compute. reflexivity.
  - vm_compute. reflexivity.
  - assert (E : exists details, outcome = Some details).
    { assert (Hc : fst (SkillsManager.getSkillDetails Sample.laterHost (JStr "foo")
                                                      (JStr "user") st)
                   = Ok (Some {| SkillsManager.skill := foo;
                                 SkillsManager.skillJson := None;
                                 SkillsManager.readmeContent := Some "# Foo";
                                 SkillsManager.promptContent := None |}))
        by (vm_compute; reflexivity).
      rewrite Hget in Hc. simpl in Hc. injection Hc as ->. eauto. }
    destruct E as (details & ->). exists details. rewrite Hget. split; [reflexivity |].
    destruct (Hsome details eq_refl) as (Hskill & Hjson & _ & _ & Hreadme & _).
    rewrite Hskill. split; [reflexivity |].
    split; [apply Hjson; reflexivity |].
    destruct (SkillsManager.readmeContent details) as [text |] eqn:Htext.
    + f_equal. specialize (Hreadme text eq_refl). vm_compute in Hreadme. congruence.
    + exfalso. destruct (Hsome details eq_refl) as (_ & _ & _ & (Hn & _) & _).
            specialize (Hn Htext). vm_compute in Hn. discriminate.
Defined.

Lemma readIfExists_plain (h : Host) p :
  readIfExists h p Ok
  = if existsSync h p
    then match readFileSync h p with
         | Ok text => Ok (Some text)
         | Throw e => Throw e
         end
    else Ok None.
Proof.
  unfold readIfExists. destruct (existsSync h p); [| reflexivity].
  now destruct (readFileSync h p).
Qed.

Lemma getAgentDetails_found (h : Host) agentName st loaded st' a :
  AgentsManager.loadAgents h false st = (Ok loaded, st') ->
  find (AgentsManager.matchesAgent agentName) (elems loaded) = Some a ->
  agentName = JStr (AgentsManager.name a)
  /\ AgentsManager.getAgentDetails h agentName st
     = (Ok match readIfExists h (AgentsManager.path a) Ok with
           | Throw _ => None
           | Ok content =>
               match homedir h with
               | Throw _ => None
               | Ok home =>
                   match readIfExists
                           h (Path.join home [".claude"; "agents";
                                              AgentsManager.name a; "README.md"]) Ok
                   with
                   | Throw _ => None
                   | Ok readme =>
                       Some {| AgentsManager.agent := a;
                               AgentsManager.content := content;
                               AgentsManager.readmeContent := readme |}
                   end
               end
           end, st').
Proof.
  intros Hload Hfind.
  assert (Hname : agentName = JStr (AgentsManager.name a)).
  { apply find_some in Hfind as [_ Hm]. unfold AgentsManager.matchesAgent in Hm.
    destruct agentName; try discriminate. simpl in Hm.
    apply String.eqb_eq in Hm. now rewrite Hm. }
  split; [exact Hname |].
  unfold AgentsManager.getAgentDetails, try_catch.
  rewrite (bind_ok _ _ _ _ _ Hload), Hfind. rewrite Hname.
  unfold bind, lift, ret, Path.joinChecked.
  destruct (readIfExists h (AgentsManager.path a) Ok); [| reflexivity].
  destruct (homedir h); [| reflexivity]. cbn [app].
  destruct (readIfExists h _ Ok); reflexivity.
Qed.

(** X11.  Details of a cached agent are read from the file system as it
    is at the time of the call: the content from the cached path, the README
    from [<home>/.claude/agents/<name>/README.md] under the home directory
    that [os.homedir()] gives at that time.  Returned details carry the
    cached entry unchanged, and each content is there exactly when its file
    exists now, with the text that reading gives; an entry whose file has
    gone still gets details, without content.  The call returns the
    not-found value for a cached entry exactly when the file of the entry
    exists and cannot be read, or the home directory cannot be found, or the
    README exists and cannot be read.  The name asked for is the cached
    name, as a string. *)
Theorem agent_details_content (h : Host) (agentName : jsval)
        (st st' : AgentsManager.t) (loaded : JsArray AgentsManager.Agent)
        (a : AgentsManager.Agent) :
  AgentsManager.loadAgents h false st = (Ok loaded, st') ->
  find (AgentsManager.matchesAgent agentName) (elems loaded) = Some a ->
  let file := AgentsManager.path a in
  let readmeUnder home :=
    Path.join home [".claude"; "agents"; AgentsManager.name a; "README.md"] in
  agentName = JStr (AgentsManager.name a)
  /\ exists outcome,
      AgentsManager.getAgentDetails h agentName st = (Ok outcome, st')
      /\ (forall details,
             outcome = Some details ->
             exists home,
               homedir h = Ok home
               /\ AgentsManager.agent details = a
               /\ (AgentsManager.content details = None <-> existsSync h file = false)
               /\ (forall text, AgentsManager.content details = Some text ->
                                readFileSync h file = Ok text)
               /\ (AgentsManager.readmeContent details = None
                   <-> existsSync h (readmeUnder home) = false)
               /\ (forall text, AgentsManager.readmeContent details = Some text ->
                                readFileSync h (readmeUnder home) = Ok text))
      /\ (forall home,
             homedir h = Ok home ->
             existsSync h file = false -> existsSync h (readmeUnder home) = false ->
             outcome = Some {| AgentsManager.agent := a;
                               AgentsManager.content := None;
                               AgentsManager.readmeContent := None |})
      /\ (outcome = None
          <-> existsSync h file = true /\ is_ok (readFileSync h file) = false
              \/ is_ok (homedir h) = false
              \/ exists home,
                  homedir h = Ok home
                  /\ existsSync h (readmeUnder home) = true
                  /\ is_ok (readFileSync h (readmeUnder home)) = false).
Proof.
  intros Hload Hfind. cbv zeta.
  destruct (getAgentDetails_found h _ _ _ _ _ Hload Hfind) as [Hname Hget].
  split; [exact Hname |]. rewrite Hget. eexists. split; [reflexivity |].
  rewrite readIfExists_plain.
  destruct (existsSync h (AgentsManager.path a)) eqn:Hfile;
    [destruct (readFileSync h (AgentsManager.path a)) as [text |] eqn:Hread |];
    (destruct (homedir h) as [home | eh] eqn:Hhome;
     [rewrite ?readIfExists_plain;
      destruct (existsSync h (Path.join home [".claude"; "agents"; AgentsManager.name a;
                                              "README.md"])) eqn:Hreadme;
      [destruct (readFileSync h (Path.join home [".claude"; "agents"; AgentsManager.name a;
                                                 "README.md"]))
         as [text' |] eqn:Hread' |] |]);
    cbn [is_ok].
  all: split;
    [intros details Hd; try discriminate; injection Hd as <-;
     exists home; cbn [AgentsManager.agent AgentsManager.content
                       AgentsManager.readmeContent];
     repeat split; congruence || (intros; congruence) |].
  all: split; [intros home0 Hh; try discriminate; injection Hh as <-; intros; congruence |].
  all: split;
    [intros Hnone; try discriminate;
     first [left; split; [reflexivity | reflexivity]
           | right; left; reflexivity
           | right; right; exists home; rewrite Hreadme, Hread'; auto]
    | intros [[H1 H2] | [H1 | (home0 & Hh & H1 & H2)]];
      try discriminate; try reflexivity;
      injection Hh as <-; rewrite ?Hreadme, ?Hread' in *; discriminate].
Qed.

(** The agents are loaded on the sample host; then [helper.md] is
    removed.  The details of [helper] are still returned, without
    content. *)
Lemma agent_details_content_witness :
  let st := snd (AgentsManager.loadAgents Sample.host true AgentsManager.init) in
  exists helper,
    fst (AgentsManager.getAgentDetails Sample.laterHost (JStr "helper") st)
    = Ok (Some {| AgentsManager.agent := helper;
                  AgentsManager.content := None;
                  AgentsManager.readmeContent := None |})
    /\ AgentsManager.name helper = "helper".
Proof.
  intros st.
  pose (loaded := match fst (AgentsManager.loadAgents Sample.laterHost false st) with
                  | Ok arr => arr
                  | Throw _ => {| id := 0; elems := [] |}
                  end).
  pose (helper := hd (AgentsManager.Build_Agent "" "" None false) (elems loaded)).
  destruct (agent_details_content Sample.laterHost (JStr "helper") st st loaded helper)
    as (_ & outcome & Hget & _ & Hgone & _).
  - vm_compute. reflexivity.
  - vm_compute. reflexivity.
  - exists helper. rewrite Hget. simpl. split; [| reflexivity].
    f_equal. apply (Hgone Sample.home eq_refl); vm_compute; reflexivity.
Defined.

Lemma getCommandDetails_found (h : Host) commandName st loaded st' a :
  CommandsManager.loadCommands h false st = (Ok loaded, st') ->
  find (CommandsManager.matchesCommand commandName) (elems loaded) = Some a ->
  commandName = JStr (CommandsManager.name a)
  /\ CommandsManager.getCommandDetails h commandName st
     = (Ok match readIfExists h (CommandsManager.path a) Ok with
           | Throw _ => None
           | Ok content =>
               match homedir h with
               | Throw _ => None
               | Ok home =>
                   match readIfExists
                           h (Path.join home [".claude"; "commands";
                                              CommandsManager.name a; "README.md"]) Ok
                   with
                   | Throw _ => None
                   | Ok readme =>
                       Some {| CommandsManager.command := a;
                               CommandsManager.content := content;
                               CommandsManager.readmeContent := readme |}
                   end
               end
           end, st').
Proof.
  intros Hload Hfind.
  assert (Hname : commandName = JStr (CommandsManager.name a)).
  { apply find_some in Hfind as [_ Hm]. unfold CommandsManager.matchesCommand in Hm.
    destruct commandName; try discriminate. simpl in Hm.
    apply String.eqb_eq in Hm. now rewrite Hm. }
  split; [exact Hname |].
  unfold CommandsManager.getCommandDetails, try_catch.
  rewrite (bind_ok _ _ _ _ _ Hload), Hfind. rewrite Hname.
  unfold bind, lift, ret, Path.joinChecked.
  destruct (readIfExists h (CommandsManager.path a) Ok); [| reflexivity].
  destruct (homedir h); [| reflexivity]. cbn [app].
  destruct (readIfExists h _ Ok); reflexivity.
Qed.

(** X12.  Details of a cached command are read from the file system as it
    is at the time of the call: the content from the cached path, the README
    from [<home>/.claude/commands/<name>/README.md] under the home directory
    that [os.homedir()] gives at that time.  Returned details carry the
    cached entry unchanged, and each content is there exactly when its file
    exists now, with the text that reading gives; an entry whose file has
    gone still gets details, without content.  The call returns the
    not-found value for a cached entry exactly when the file of the entry
    exists and cannot be read, or the home directory cannot be found, or the
    README exists and cannot be read.  The name asked for is the cached
    name, as a string. *)
Theorem command_details_content (h : Host) (commandName : jsval)
        (st st' : CommandsManager.t) (loaded : JsArray CommandsManager.Command)
        (a : CommandsManager.Command) :
  CommandsManager.loadCommands h false st = (Ok loaded, st') ->
  find (CommandsManager.matchesCommand commandName) (elems loaded) = Some a ->
  let file := CommandsManager.path a in
  let readmeUnder home :=
    Path.join home [".claude"; "commands"; CommandsManager.name a; "README.md"] in
  commandName = JStr (CommandsManager.name a)
  /\ exists outcome,
      CommandsManager.getCommandDetails h commandName st = (Ok outcome, st')
      /\ (forall details,
             outcome = Some details ->
             exists home,
               homedir h = Ok home
               /\ CommandsManager.command details = a
               /\ (CommandsManager.content details = None <-> existsSync h file = false)
               /\ (forall text, CommandsManager.content details = Some text ->
                                readFileSync h file = Ok text)
               /\ (CommandsManager.readmeContent details = None
                   <-> existsSync h (readmeUnder home) = false)
               /\ (forall text, CommandsManager.readmeContent details = Some text ->
                                readFileSync h (readmeUnder home) = Ok text))
      /\ (forall home,
             homedir h = Ok home ->
             existsSync h file = false -> existsSync h (readmeUnder home) = false ->
             outcome = Some {| CommandsManager.command := a;
                               CommandsManager.content := None;
                               CommandsManager.readmeContent := None |})
      /\ (outcome = None
          <-> existsSync h file = true /\ is_ok (readFileSync h file) = false
              \/ is_ok (homedir h) = false
              \/ exists home,
                  homedir h = Ok home
                  /\ existsSync h (readmeUnder home) = true
                  /\ is_ok (readFileSync h (readmeUnder home)) = false).
Proof.
  intros Hload Hfind. cbv zeta.
  destruct (getCommandDetails_found h _ _ _ _ _ Hload Hfind) as [Hname Hget].
  split; [exact Hname |]. rewrite Hget. eexists. split; [reflexivity |].
  rewrite readIfExists_plain.
  destruct (existsSync h (CommandsManager.path a)) eqn:Hfile;
    [destruct (readFileSync h (CommandsManager.path a)) as [text |] eqn:Hread |];
    (destruct (homedir h) as [home | eh] eqn:Hhome;
     [rewrite ?readIfExists_plain;
      destruct (existsSync h (Path.join home [".claude"; "commands"; CommandsManager.name a;
                                              "README.md"])) eqn:Hreadme;
      [destruct (readFileSync h (Path.join home [".claude"; "commands"; CommandsManager.name a;
                                                 "README.md"]))
         as [text' |] eqn:Hread' |] |]);
    cbn [is_ok].
  all: split;
    [intros details Hd; try discriminate; injection Hd as <-;
     exists home; cbn [CommandsManager.command CommandsManager.content
                       CommandsManager.readmeContent];
     repeat split; congruence || (intros; congruence) |].
  all: split; [intros home0 Hh; try discriminate; injection Hh as <-; intros; congruence |].
  all: split;
    [intros Hnone; try discriminate;
     first [left; split; [reflexivity | reflexivity]
           | right; left; reflexivity
           | right; right; exists home; rewrite Hreadme, Hread'; auto]
    | intros [[H1 H2] | [H1 | (home0 & Hh & H1 & H2)]];
      try discriminate; try reflexivity;
      injection Hh as <-; rewrite ?Hreadme, ?Hread' in *; discriminate].
Qed.

(** The commands are loaded on the sample host; on the later host
    [build.md] is still there, and the details of [build] carry its
    text. *)
Lemma command_details_content_witness :
  let st := snd (CommandsManager.loadCommands Sample.host true CommandsManager.init) in
  exists details,
    fst (CommandsManager.getCommandDetails Sample.laterHost (JStr "build") st)
    = Ok (Some details)
    /\ CommandsManager.name (CommandsManager.command details) = "build"
    /\ readFileSync Sample.laterHost (Path.join Sample.commandsDir ["build.md"])
       = Ok "# Title Only"
    /\ CommandsManager.content details <> None.
Proof.
  intros st.
  pose (loaded := match fst (CommandsManager.loadCommands Sample.laterHost false st) with
                  | Ok arr => arr
                  | Throw _ => {| id := 0; elems := [] |}
                  end).
  pose (build := hd (CommandsManager.Build_Command "" "" None None false) (elems loaded)).
  destruct (command_details_content Sample.laterHost (JStr "build") st st loaded build)
    as (_ & outcome & Hget & Hsome & _ & _).
  - vm_compute. reflexivity.
  - vm_compute. reflexivity.
  - assert (E : exists details, outcome = Some details).
    { assert (Hc : is_ok (fst (CommandsManager.getCommandDetails
                                 Sample.laterHost (JStr "build") st)) = true
                   /\ fst (CommandsManager.getCommandDetails
                             Sample.laterHost (JStr "build") st) <> Ok None)
        by (split; [vm_compute; reflexivity | vm_compute; discriminate]).
      rewrite Hget in Hc. simpl in Hc. destruct outcome as [d |]; [eauto |].
      now destruct Hc as [_ Hc]. }
    destruct E as (details & ->). exists details. rewrite Hget.
    destruct (Hsome details eq_refl) as (home & _ & Hcmd & Hcontent & _).
    split; [reflexivity |]. rewrite Hcmd. split; [reflexivity |].
    split; [reflexivity |]. intros Hnone. apply Hcontent in Hnone.
    vm_compute in Hnone. discriminate.
Defined.

(** ** Paths *)

Lemma segments_cons (p : string) : exists seg rest, Path.segments p = seg :: rest.
Proof.
  induction p as [| c p (seg & rest & IH)]; simpl; [eauto |].
  destruct (Ascii.eqb c Path.sep); [eauto |]. rewrite IH. eauto.
Qed.

Lemma segments_app (x y : string) :
  Path.segments (x ++ String Path.sep y) = (Path.segments x ++ Path.segments y)%list.
Proof.
  induction x as [| c x IH]; simpl; [reflexivity |].
  destruct (Ascii.eqb c Path.sep); [now rewrite IH |].
  rewrite IH. now destruct (segments_cons x) as (seg & rest & ->).
Qed.

Lemma segments_sepFree (p : string) : forallb Segments.sepFree (Path.segments p) = true.
Proof.
  induction p as [| c p IH]; simpl; [reflexivity |].
  destruct (Ascii.eqb c Path.sep) eqn:Hc; simpl; [exact IH |].
  destruct (Path.segments p) as [| seg rest]; simpl in *; [now rewrite Hc |].
  now rewrite Hc.
Qed.

Lemma segments_of_sepFree (s : string) : Segments.sepFree s = true -> Path.segments s = [s].
Proof.
  induction s as [| c s IH]; simpl; [reflexivity |].
  intros H. apply andb_true_iff in H as [Hc Hs].
  apply negb_true_iff in Hc. rewrite Hc, (IH Hs). reflexivity.
Qed.

Lemma segments_concat (l : list string) :
  l <> [] -> forallb Segments.sepFree l = true -> Path.segments (String.concat "/" l) = l.
Proof.
  induction l as [| x l IH]; [congruence |]. intros _ H.
  simpl in H. apply andb_true_iff in H as [Hx Hl].
  destruct l as [| y l]; [now apply segments_of_sepFree |].
  change (String.concat "/" (x :: y :: l))
    with (x ++ String Path.sep (String.concat "/" (y :: l))).
  rewrite segments_app, (segments_of_sepFree _ Hx), IH; [reflexivity | congruence | exact Hl].
Qed.

Lemma normal_dots r (res : list string) :
  forallb (String.eqb "..") res = true -> r = true -> Segments.normal r res = true.
Proof.
  intros H ->. destruct res as [| seg below]; [reflexivity |].
  cbn [forallb] in H. apply andb_true_iff in H as [Hseg Hbelow].
  cbn [Segments.normal]. rewrite String.eqb_sym, Hseg. exact Hbelow.
Qed.

Lemma normal_below r seg below :
  Segments.normal r (seg :: below) = true -> Segments.normal r below = true.
Proof.
  cbn [Segments.normal]. destruct (String.eqb seg "..").
  - intros H. apply andb_true_iff in H as [Hr Hd]. now apply normal_dots.
  - intros H. now apply andb_true_iff in H as [_ H].
Qed.

Lemma step_normal r res seg :
  Segments.normal r res = true -> Segments.normal r (Path.step r res seg) = true.
Proof.
  intros H. unfold Path.step.
  destruct (String.eqb seg "") eqn:E0; [exact H |].
  destruct (String.eqb seg ".") eqn:E1; [exact H |]. cbn [orb].
  destruct (String.eqb seg "..") eqn:E2.
  - destruct res as [| last before].
    + destruct r; [| reflexivity]. cbn [Segments.normal]. now rewrite E2.
    + destruct (String.eqb last "..") eqn:El.
      * destruct r; [| exact H]. cbn [Segments.normal] in *. rewrite El in H.
        rewrite E2.
        cbn [forallb andb]. now rewrite String.eqb_sym, El.
      * now apply normal_below in H.
  - cbn [Segments.normal]. rewrite E2. unfold Segments.plain. now rewrite E0, E1, E2.
Qed.

Lemma fold_normal r segs res :
  Segments.normal r res = true ->
  Segments.normal r (fold_left (Path.step r) segs res) = true.
Proof.
  revert res. induction segs as [| seg segs IH]; intros res H; [exact H |].
  cbn [fold_left]. now apply IH, step_normal.
Qed.

Lemma fold_sepFree r segs res :
  forallb Segments.sepFree segs = true -> forallb Segments.sepFree res = true ->
  forallb Segments.sepFree (fold_left (Path.step r) segs res) = true.
Proof.
  revert res. induction segs as [| seg segs IH]; intros res Hs Hres; [exact Hres |].
  cbn [fold_left]. cbn [forallb] in Hs. apply andb_true_iff in Hs as [Hseg Hsegs].
  apply IH; [exact Hsegs |]. unfold Path.step.
  destruct (String.eqb seg "" || String.eqb seg "."); [exact Hres |].
  destruct (String.eqb seg "..").
  - destruct res as [| last before]; [destruct r; cbn [forallb]; now rewrite ?Hseg |].
    cbn [forallb] in Hres. apply andb_true_iff in Hres as [Hl Hb].
    destruct (String.eqb last ".."); [| exact Hb].
    destruct r; cbn [forallb]; now rewrite ?Hseg, ?Hl, ?Hb.
  - cbn [forallb]. now rewrite Hseg, Hres.
Qed.

(** Going again through a stack that is normal rebuilds it. *)
Lemma fold_rev_normal r res :
  Segments.normal r res = true -> fold_left (Path.step r) (rev res) [] = res.
Proof.
  induction res as [| seg below IH]; [reflexivity |]. intros H.
  cbn [rev]. rewrite fold_left_app, (IH (normal_below _ _ _ H)). cbn [fold_left].
  cbn [Segments.normal] in H. unfold Path.step. destruct (String.eqb seg "..") eqn:E2.
  - apply andb_true_iff in H as [-> Hd].
    assert (E0 : String.eqb seg "" = false)
      by (apply String.eqb_eq in E2; now subst seg).
    assert (E1 : String.eqb seg "." = false)
      by (apply String.eqb_eq in E2; now subst seg).
    rewrite E0, E1. cbn [orb].
    destruct below as [| last before]; [reflexivity |].
    cbn [forallb] in Hd. apply andb_true_iff in Hd as [Hl _].
    now rewrite String.eqb_sym, Hl.
  - apply andb_true_iff in H as [Hp _]. unfold Segments.plain in Hp.
    apply negb_true_iff in Hp. apply orb_false_iff in Hp as [Hp _].
    now rewrite Hp.
Qed.

Lemma fold_skip_empty r res segs :
  fold_left (Path.step r) (EmptyString :: segs) res = fold_left (Path.step r) segs res.
Proof. reflexivity. Qed.

Lemma normal_present r res :
  Segments.normal r res = true -> forallb Segments.present res = true.
Proof.
  induction res as [| seg below IH]; [reflexivity |]. intros H.
  cbn [forallb]. rewrite (IH (normal_below _ _ _ H)), andb_true_r.
  cbn [Segments.normal] in H. unfold Segments.present.
  destruct (String.eqb seg "..") eqn:E2.
  - apply String.eqb_eq in E2. now subst seg.
  - apply andb_true_iff in H as [Hp _]. unfold Segments.plain in Hp.
    apply negb_true_iff in Hp. apply orb_false_iff in Hp as [Hp _].
    apply orb_false_iff in Hp as [Hp _]. now rewrite Hp.
Qed.

Lemma forallb_rev {A} (p : A -> bool) (l : list A) : forallb p (rev l) = forallb p l.
Proof.
  induction l as [| x l IH]; [reflexivity |]. cbn [rev forallb].
  rewrite forallb_app, IH. cbn [forallb]. rewrite andb_true_r. apply andb_comm.
Qed.

Lemma concat_cons (x y : string) (l : list string) :
  String.concat "/" (x :: y :: l) = x ++ String Path.sep (String.concat "/" (y :: l)).
Proof. reflexivity. Qed.

Lemma concat_head (x : string) (l : list string) :
  exists tail, String.concat "/" (x :: l) = x ++ tail.
Proof.
  destruct l as [| y l]; [exists ""; cbn; now rewrite append_nil_r |].
  rewrite concat_cons. eauto.
Qed.

Lemma concat_app (l1 l2 : list string) x y :
  String.concat "/" ((x :: l1) ++ y :: l2)
  = String.concat "/" (x :: l1) ++ String Path.sep (String.concat "/" (y :: l2)).
Proof.
  revert x. induction l1 as [| z l1 IH]; intros x; [reflexivity |].
  change ((x :: z :: l1) ++ y :: l2)%list with (x :: (z :: l1) ++ y :: l2)%list.
  cbn [app]. rewrite !concat_cons. cbn [app] in IH. rewrite IH, append_assoc. reflexivity.
Qed.

Lemma nonempty_app (x y : string) : x <> "" -> String.eqb (x ++ y) "" = false.
Proof. destruct x; [congruence | reflexivity]. Qed.

Lemma present_nonempty (x : string) : Segments.present x = true -> x <> "".
Proof. unfold Segments.present. destruct x; [discriminate | congruence]. Qed.

Lemma isAbsolute_app (x y : string) :
  x <> "" -> Path.isAbsolute (x ++ y) = Path.isAbsolute x.
Proof. destruct x; [congruence | reflexivity]. Qed.

Lemma isAbsolute_sepFree (x : string) :
  Segments.sepFree x = true -> Path.isAbsolute x = false.
Proof.
  destruct x as [| c x]; [reflexivity |]. cbn [Segments.sepFree Path.isAbsolute].
  intros H. apply andb_true_iff in H as [H _]. now apply negb_true_iff in H.
Qed.

Lemma trailing_app (x y : string) :
  y <> "" -> Path.trailingSeparator (x ++ y) = Path.trailingSeparator y.
Proof.
  intros Hy. induction x as [| c x IH]; [reflexivity |].
  cbn [append]. cbn [Path.trailingSeparator]. rewrite IH.
  destruct (x ++ y) eqn:E; [| reflexivity].
  destruct x; [cbn in E; congruence | discriminate].
Qed.

(** What [normalize] returns has the root, and the stack of segments, of
    the path it was given. *)
Lemma normalize_keeps (p : string) :
  p <> "" ->
  let r := negb (Path.isAbsolute p) in
  Path.normalize p <> ""
  /\ Path.isAbsolute (Path.normalize p) = Path.isAbsolute p
  /\ fold_left (Path.step r) (Path.segments (Path.normalize p)) []
     = fold_left (Path.step r) (Path.segments p) [].
Proof.
  intros Hp r. unfold Path.normalize, Path.normalizeString.
  assert (E : String.eqb p "" = false) by (now apply String.eqb_neq).
  rewrite E. fold r.
  set (st := fold_left (Path.step r) (Path.segments p) []).
  assert (Hn : Segments.normal r st = true) by (now apply fold_normal).
  assert (Hs : forallb Segments.sepFree st = true)
    by (apply fold_sepFree; [apply segments_sepFree | reflexivity]).
  pose proof (fold_rev_normal r st Hn) as Hrev.
  pose proof (normal_present r st Hn) as Hpr.
  rewrite <- forallb_rev in Hs, Hpr.
  destruct (rev st) as [| x B] eqn:Erev.
  - cbn [String.concat String.eqb]. cbn [fold_left] in Hrev. rewrite <- Hrev.
    destruct (Path.isAbsolute p), (Path.trailingSeparator p);
      repeat split; (discriminate || reflexivity).
  - cbn [forallb] in Hs, Hpr.
    apply andb_true_iff in Hs as [Hx HB]. apply andb_true_iff in Hpr as [Hx' _].
    apply present_nonempty in Hx'.
    destruct (concat_head x B) as (tail & Hbody).
    assert (Hne : String.concat "/" (x :: B) <> "").
    { rewrite Hbody. destruct x; [congruence | discriminate]. }
    assert (Hseg : Path.segments (String.concat "/" (x :: B)) = x :: B).
    { apply segments_concat; [congruence |]. cbn [forallb]. now rewrite Hx, HB. }
    assert (Habs : Path.isAbsolute (String.concat "/" (x :: B)) = false).
    { rewrite Hbody, isAbsolute_app by exact Hx'. now apply isAbsolute_sepFree. }
    apply String.eqb_neq in Hne as Hne'. rewrite Hne'.
    set (body := String.concat "/" (x :: B)) in *.
    assert (Htrail : forall t : bool,
               (if t then body ++ "/" else body) <> ""
               /\ Path.isAbsolute (if t then body ++ "/" else body) = false
               /\ fold_left (Path.step r)
                            (Path.segments (if t then body ++ "/" else body)) [] = st).
    { intros [|].
      - split; [destruct body; [congruence | discriminate] |].
        split; [now rewrite isAbsolute_app |].
        change (body ++ "/") with (body ++ String Path.sep "").
        rewrite segments_app, Hseg, fold_left_app, Hrev. reflexivity.
      - split; [exact Hne |]. split; [exact Habs |]. now rewrite Hseg. }
    destruct (Htrail (Path.trailingSeparator p)) as (H1 & H2 & H3).
    destruct (Path.isAbsolute p).
    + split; [discriminate |]. split; [reflexivity |].
      change ("/" ++ ?b) with (String Path.sep b). cbn [Path.segments].
      change (Ascii.eqb Path.sep Path.sep) with true. cbn iota.
      exact H3.
    + split; [exact H1 |]. split; [exact H2 | exact H3].
Qed.

Lemma normalize_app (x1 x2 y : string) :
  x1 <> "" -> x2 <> "" ->
  Path.isAbsolute x1 = Path.isAbsolute x2 ->
  fold_left (Path.step (negb (Path.isAbsolute x2))) (Path.segments x1) []
  = fold_left (Path.step (negb (Path.isAbsolute x2))) (Path.segments x2) [] ->
  Path.normalize (x1 ++ String Path.sep y) = Path.normalize (x2 ++ String Path.sep y).
Proof.
  intros H1 H2 Habs Hst. unfold Path.normalize, Path.normalizeString.
  rewrite !nonempty_app by assumption.
  rewrite !isAbsolute_app by assumption.
  rewrite !trailing_app by discriminate.
  rewrite !segments_app, !fold_left_app, Habs, Hst. reflexivity.
Qed.

Lemma filter_present (l : list string) :
  existsb Segments.present l = true ->
  exists x rest, filter Segments.present l = x :: rest /\ x <> "".
Proof.
  induction l as [| a l IH]; [discriminate |]. cbn [existsb filter].
  destruct (Segments.present a) eqn:Ha; [| exact IH].
  intros _. exists a, (filter Segments.present l). split; [reflexivity |].
  now apply present_nonempty.
Qed.

(** Joining in two steps is joining at once. *)
Lemma join_join (a : string) (l1 l2 : list string) :
  existsb Segments.present (a :: l1) = true -> existsb Segments.present l2 = true ->
  Path.join (Path.join a l1) l2 = Path.join a (l1 ++ l2).
Proof.
  intros H1 H2. unfold Path.join. fold Segments.present.
  change (a :: l1 ++ l2)%list with ((a :: l1) ++ l2)%list. rewrite filter_app.
  destruct (filter_present _ H1) as (x & X & -> & Hx).
  destruct (filter_present _ H2) as (y & Y & EY & Hy).
  assert (Hp : String.concat "/" (x :: X) <> "").
  { destruct (concat_head x X) as (tail & ->). destruct x; [congruence | discriminate]. }
  destruct (normalize_keeps _ Hp) as (Hn & Habs & Hst).
  cbn [filter].
  assert (Hpn : Segments.present (Path.normalize (String.concat "/" (x :: X))) = true).
  { unfold Segments.present. apply negb_true_iff. now apply String.eqb_neq. }
  rewrite Hpn, EY.
  change (Path.normalize (String.concat "/" (Path.normalize (String.concat "/" (x :: X))
                                              :: y :: Y))
          = Path.normalize (String.concat "/" ((x :: X) ++ y :: Y))).
  rewrite concat_app.
  change (?n :: y :: Y) with ([n] ++ y :: Y)%list. rewrite concat_app.
  cbn [String.concat].
  apply normalize_app; assumption.
Qed.

(** ** A first load and the details that follow *)

Lemma scanned_flags (h : Host) dirPath loc plugin skills sk :
  SkillsManager.loadSkillsFromDirectory h dirPath loc plugin = Ok skills ->
  In sk skills ->
  SkillsManager.hasReadme sk = existsSync h (Path.join2 (SkillsManager.path sk) "README.md")
  /\ SkillsManager.hasPrompt sk
     = existsSync h (Path.join2 (SkillsManager.path sk) "prompt.md").
Proof.
  rewrite loadSkillsFromDirectory_eq. intros [= <-] Hin.
  destruct (existsSync h dirPath); [| destruct Hin].
  destruct (readdirSync h dirPath) as [entries | e]; [| destruct Hin].
  apply in_flat_map in Hin as (entry & _ & Hkept).
  destruct (keptSkill_record h _ _ _ _ _ Hkept) as (_ & _ & _ & _ & _ & _ & _ & _ & H).
  exact H.
Qed.

Lemma managed_flags (h : Host) skills sk :
  SkillsManager.loadManagedSkills h = Ok skills ->
  In sk skills ->
  SkillsManager.hasReadme sk = existsSync h (Path.join2 (SkillsManager.path sk) "README.md")
  /\ SkillsManager.hasPrompt sk
     = existsSync h (Path.join2 (SkillsManager.path sk) "prompt.md").
Proof.
  destruct (homedir h) as [home | e] eqn:Hhome.
  2:{ unfold SkillsManager.loadManagedSkills. rewrite Hhome. discriminate. }
  rewrite (loadManagedSkills_eq h home Hhome). cbv zeta. intros [= <-] Hin.
  destruct (existsSync h _); [| destruct Hin].
  destruct (readdirNames h _) as [marketplaces | e]; [| destruct Hin].
  apply ofMarketplaces_in in Hin as (m & plugins & plugin & _ & _ & _ & Hin).
  unfold ManagedScan.ofPlugin in Hin. cbv zeta in Hin.
  destruct (existsSync h _); [| destruct Hin].
  destruct (SkillsManager.loadSkillsFromDirectory h _ _ _) as [found | e] eqn:Hscan;
    [| destruct Hin].
  eapply scanned_flags; eassumption.
Qed.

Lemma located_flags (h : Host) skills sk :
  SkillsManager.loadUserSkills h = Ok skills \/ SkillsManager.loadProjectSkills h = Ok skills ->
  In sk skills ->
  SkillsManager.hasReadme sk = existsSync h (Path.join2 (SkillsManager.path sk) "README.md")
  /\ SkillsManager.hasPrompt sk
     = existsSync h (Path.join2 (SkillsManager.path sk) "prompt.md").
Proof.
  unfold SkillsManager.loadUserSkills, SkillsManager.loadProjectSkills.
  intros [Hscan | Hscan] Hin;
    [destruct (homedir h) | destruct (cwd h)]; try discriminate;
    eapply scanned_flags; eassumption.
Qed.

Lemma reloaded_skill (h : Host) force st loaded st' sk :
  SkillsManager.cachedSkills st = None \/ force = true ->
  SkillsManager.loadSkills h force st = (Ok loaded, st') ->
  In sk (elems loaded) ->
  SkillsManager.hasDescriptor h sk
  /\ SkillsManager.hasReadme sk
     = existsSync h (Path.join2 (SkillsManager.path sk) "README.md")
  /\ SkillsManager.hasPrompt sk
     = existsSync h (Path.join2 (SkillsManager.path sk) "prompt.md").
Proof.
  intros Hre Hload Hin.
  destruct (loadSkills_reload h force st Hre)
    as [(u & p & m & Hu & Hp & Hm & Fu & Fp & Fm & _ & E) | (_ & E)];
    rewrite E in Hload; injection Hload as <- _; simpl in Hin; [| destruct Hin].
  rewrite Forall_forall in Fu, Fp, Fm.
  apply in_app_or in Hin as [Hin | Hin]; [| apply in_app_or in Hin as [Hin | Hin]].
  - split; [apply (Fu _ Hin) | exact (located_flags h _ _ (or_introl Hu) Hin)].
  - split; [apply (Fp _ Hin) | exact (located_flags h _ _ (or_intror Hp) Hin)].
  - split; [apply (Fm _ Hin) | exact (managed_flags h _ _ Hm Hin)].
Qed.

(** X13.  On a manager that has not loaded yet, a details call scans and
    reads in one go, so what it returns is consistent: details of a skill
    always carry its parsed descriptor, they carry the README exactly when
    the entry says [hasReadme], and the prompt exactly when it says
    [hasPrompt]; details of an agent or of a command carry the README
    exactly when the entry says [hasReadme]. *)
Theorem first_details_agree_with_flags (h : Host) :
  (forall skillName location st details,
      SkillsManager.cachedSkills st = None ->
      fst (SkillsManager.getSkillDetails h skillName location st) = Ok (Some details) ->
      SkillsManager.skillJson details <> None
      /\ (SkillsManager.hasReadme (SkillsManager.skill details) = true
          <-> SkillsManager.readmeContent details <> None)
      /\ (SkillsManager.hasPrompt (SkillsManager.skill details) = true
          <-> SkillsManager.promptContent details <> None))
  /\ (forall agentName st details,
         AgentsManager.cachedAgents st = None ->
         fst (AgentsManager.getAgentDetails h agentName st) = Ok (Some details) ->
         (AgentsManager.hasReadme (AgentsManager.agent details) = true
          <-> AgentsManager.readmeContent details <> None))
  /\ (forall commandName st details,
         CommandsManager.cachedCommands st = None ->
         fst (CommandsManager.getCommandDetails h commandName st) = Ok (Some details) ->
         (CommandsManager.hasReadme (CommandsManager.command details) = true
          <-> CommandsManager.readmeContent details <> None)).
Proof.
  split; [| split].
  - intros n l st details Hnone Hget.
    destruct (loadSkills_returns h false st) as (loaded & st' & Hload & _).
    destruct (find (SkillsManager.matchesSkill n l) (elems loaded)) as [sk |] eqn:Hfind.
    2:{ destruct (getSkillDetails_eq h n l st loaded st' Hload) as (o & E & Ho).
        rewrite Hfind in Ho. rewrite E, Ho in Hget. discriminate. }
    rewrite (getSkillDetails_found h _ _ _ _ _ _ Hload Hfind) in Hget. simpl in Hget.
    destruct (reloaded_skill h false st loaded st' sk (or_introl Hnone) Hload)
      as (Hdesc & Hreadme & Hprompt); [now apply find_some in Hfind |].
    unfold SkillsManager.hasDescriptor in Hdesc.
    destruct (readIfExists h _ (JSON_parse h)) as [json |] eqn:Hjson; [| discriminate].
    rewrite !readIfExists_plain in Hget. rewrite <- Hreadme, <- Hprompt in Hget.
    assert (Hj : json <> None).
    { intros ->. apply readIfExists_none in Hjson. congruence. }
    destruct (SkillsManager.hasReadme sk) eqn:Hr;
      [destruct (readFileSync h (Path.join2 _ "README.md")); [| discriminate] |];
      (destruct (SkillsManager.hasPrompt sk) eqn:Hp;
       [destruct (readFileSync h (Path.join2 _ "prompt.md")); [| discriminate] |]);
      injection Hget as <-; simpl; (split; [exact Hj |]);
      split; split; congruence.
  - intros n st details Hnone Hget.
    destruct (loadAgents_returns h false st) as (loaded & st' & Hload & _).
    destruct (find (AgentsManager.matchesAgent n) (elems loaded)) as [a |] eqn:Hfind.
    2:{ destruct (getAgentDetails_eq h n st loaded st' Hload) as (o & E & Ho).
        rewrite Hfind in Ho. rewrite E, Ho in Hget. discriminate. }
    destruct (getAgentDetails_found h _ _ _ _ _ Hload Hfind) as [_ E].
    rewrite E in Hget. cbn [fst] in Hget.
    destruct (loadAgents_reload h false st (or_introl Hnone))
      as [(home & agents & Hhome & Hscan & E') | (e & _ & E')];
      rewrite E' in Hload; injection Hload as <- _; cbn [elems] in Hfind;
      [| discriminate].
    rewrite Hhome in Hget.
    apply find_some in Hfind as [Hin _].
    assert (Hflag : AgentsManager.hasReadme a
                    = existsSync h (Path.join home [".claude"; "agents";
                                                    AgentsManager.name a; "README.md"])).
    { change [".claude"; "agents"; AgentsManager.name a; "README.md"]
        with ([".claude"; "agents"] ++ [AgentsManager.name a; "README.md"])%list.
      rewrite <- join_join;
        [| cbn [existsb]; destruct (Segments.present home); reflexivity
         | cbn [existsb]; destruct (Segments.present (AgentsManager.name a)); reflexivity].
      rewrite loadAgentsFromDirectory_eq in Hscan. injection Hscan as <-.
      match type of Hin with
      | In _ (if ?c then _ else _) => destruct c; [| destruct Hin]
      end.
      match type of Hin with
      | In _ (match ?c with Ok _ => _ | Throw _ => _ end) =>
          destruct c as [entries | e]; [| destruct Hin]
      end.
      apply in_flat_map in Hin as (file & _ & Hkept).
      unfold AgentsManager.keptAgent in Hkept.
      destruct (Js.endsWith file ".md"); [| destruct Hkept].
      destruct (AgentsManager.readAgent h _ file) as [a' |] eqn:Hread; [| destruct Hkept].
      destruct Hkept as [<- | []]. unfold AgentsManager.readAgent in Hread.
      destruct (readFileSync h _); [| discriminate]. now injection Hread as <-. }
    rewrite !readIfExists_plain in Hget. rewrite <- Hflag in Hget.
    destruct (existsSync h (AgentsManager.path a));
      [destruct (readFileSync h (AgentsManager.path a)); [| discriminate] |];
      rewrite ?readIfExists_plain, <- ?Hflag in Hget;
      (destruct (AgentsManager.hasReadme a) eqn:Hr;
       [destruct (readFileSync h (Path.join _ _)); [| discriminate] |]);
      injection Hget as <-; simpl; split; congruence.
  - intros n st details Hnone Hget.
    destruct (loadCommands_returns h false st) as (loaded & st' & Hload & _).
    destruct (find (CommandsManager.matchesCommand n) (elems loaded)) as [a |] eqn:Hfind.
    2:{ destruct (getCommandDetails_eq h n st loaded st' Hload) as (o & E & Ho).
        rewrite Hfind in Ho. rewrite E, Ho in Hget. discriminate. }
    destruct (getCommandDetails_found h _ _ _ _ _ Hload Hfind) as [_ E].
    rewrite E in Hget. cbn [fst] in Hget.
    destruct (loadCommands_reload h false st (or_introl Hnone))
      as [(home & commands & Hhome & Hscan & E') | (e & _ & E')];
      rewrite E' in Hload; injection Hload as <- _; cbn [elems] in Hfind;
      [| discriminate].
    rewrite Hhome in Hget.
    apply find_some in Hfind as [Hin _].
    assert (Hflag : CommandsManager.hasReadme a
                    = existsSync h (Path.join home [".claude"; "commands";
                                                    CommandsManager.name a; "README.md"])).
    { change [".claude"; "commands"; CommandsManager.name a; "README.md"]
        with ([".claude"; "commands"] ++ [CommandsManager.name a; "README.md"])%list.
      rewrite <- join_join;
        [| cbn [existsb]; destruct (Segments.present home); reflexivity
         | cbn [existsb]; destruct (Segments.present (CommandsManager.name a)); reflexivity].
      rewrite loadCommandsFromDirectory_eq in Hscan. injection Hscan as <-.
      match type of Hin with
      | In _ (if ?c then _ else _) => destruct c; [| destruct Hin]
      end.
      match type of Hin with
      | In _ (match ?c with Ok _ => _ | Throw _ => _ end) =>
          destruct c as [entries | e]; [| destruct Hin]
      end.
      apply in_flat_map in Hin as (file & _ & Hkept).
      unfold CommandsManager.keptCommand in Hkept.
      destruct (Js.endsWith file ".md"); [| destruct Hkept].
      destruct (CommandsManager.readCommand h _ file) as [a' |] eqn:Hread;
        [| destruct Hkept].
      destruct Hkept as [<- | []]. unfold CommandsManager.readCommand in Hread.
      destruct (readFileSync h _); [| discriminate]. now injection Hread as <-. }
    rewrite !readIfExists_plain in Hget. rewrite <- Hflag in Hget.
    destruct (existsSync h (CommandsManager.path a));
      [destruct (readFileSync h (CommandsManager.path a)); [| discriminate] |];
      rewrite ?readIfExists_plain, <- ?Hflag in Hget;
      (destruct (CommandsManager.hasReadme a) eqn:Hr;
       [destruct (readFileSync h (Path.join _ _)); [| discriminate] |]);
      injection Hget as <-; simpl; split; congruence.
Qed.

(** On the sample host, from the initial state: the details of the
    project skill [bar] carry its descriptor and its README, and no
    prompt. *)
Lemma first_details_agree_with_flags_witness :
  exists details,
    fst (SkillsManager.getSkillDetails Sample.host (JStr "bar") (JStr "project")
                                       SkillsManager.init) = Ok (Some details)
    /\ SkillsManager.skillJson details <> None
    /\ (SkillsManager.hasReadme (SkillsManager.skill details) = true
        <-> SkillsManager.readmeContent details <> None)
    /\ (SkillsManager.hasPrompt (SkillsManager.skill details) = true
        <-> SkillsManager.promptContent details <> None).
Proof.
  assert (E : exists details,
             fst (SkillsManager.getSkillDetails Sample.host (JStr "bar") (JStr "project")
                                                SkillsManager.init) = Ok (Some details))
    by (eexists; vm_compute; reflexivity).
  destruct E as (details & E). exists details. split; [exact E |].
  exact (proj1 (first_details_agree_with_flags Sample.host)
               (JStr "bar") (JStr "project") SkillsManager.init details eq_refl E).
Defined.

(** ** What a description looks like *)

Lemma every_append p a b : Text.every p (a ++ b) = Text.every p a && Text.every p b.
Proof. induction a as [| c a IH]; simpl; [reflexivity | now rewrite IH, andb_assoc]. Qed.

Lemma occursIn_refl s : Text.occursIn s s.
Proof. exists "", "". simpl. now rewrite append_nil_r. Qed.

Lemma occursIn_trans a b c : Text.occursIn a b -> Text.occursIn b c -> Text.occursIn a c.
Proof.
  intros (p & q & ->) (p' & q' & ->). exists (p' ++ p), (q ++ q').
  now rewrite !append_assoc.
Qed.

Lemma occursIn_tail a c s : Text.occursIn a s -> Text.occursIn a (String c s).
Proof. intros (p & q & ->). now exists (String c p), q. Qed.

Lemma trimStart_split s : exists spaces, s = spaces ++ Js.trimStart s.
Proof.
  induction s as [| c s (spaces & IH)]; [now exists "" |]. simpl.
  destruct (Js.is_space c); [| now exists ""].
  exists (String c spaces). simpl. now rewrite <- IH.
Qed.

Lemma trimEnd_split s : exists spaces, s = Js.trimEnd s ++ spaces.
Proof.
  induction s as [| c s (spaces & IH)]; [now exists "" |]. simpl.
  destruct (Js.trimEnd s) as [| d t] eqn:E.
  - destruct (Js.is_space c).
    + now exists (String c s).
    + now exists s.
  - exists spaces. simpl. f_equal. exact IH.
Qed.

Lemma trim_occursIn s : Text.occursIn (Js.trim s) s.
Proof.
  unfold Js.trim. destruct (trimStart_split s) as (a & Ha).
  destruct (trimEnd_split (Js.trimStart s)) as (b & Hb).
  exists a, b. rewrite <- Hb. exact Ha.
Qed.

Lemma every_occursIn p a s : Text.occursIn a s -> Text.every p s = true -> Text.every p a = true.
Proof.
  intros (x & y & ->). rewrite !every_append, !andb_true_iff. tauto.
Qed.

Lemma trimEnd_idempotent s : Js.trimEnd (Js.trimEnd s) = Js.trimEnd s.
Proof.
  induction s as [| c s IH]; [reflexivity |]. simpl.
  destruct (Js.trimEnd s) as [| d t] eqn:E.
  - destruct (Js.is_space c) eqn:Hc; simpl; [reflexivity | now rewrite Hc].
  - cbn [Js.trimEnd]. cbn [Js.trimEnd] in IH. now rewrite IH.
Qed.

Lemma trimStart_head s :
  match Js.trimStart s with
  | EmptyString => True
  | String c _ => Js.is_space c = false
  end.
Proof.
  induction s as [| c s IH]; simpl; [exact I |].
  destruct (Js.is_space c) eqn:Hc; [exact IH | exact Hc].
Qed.

Lemma trimEnd_head s :
  match s with EmptyString => True | String c _ => Js.is_space c = false end ->
  match Js.trimEnd s with EmptyString => True | String c _ => Js.is_space c = false end.
Proof.
  destruct s as [| c s]; [trivial |]. intros Hc. simpl.
  destruct (Js.trimEnd s); [now rewrite Hc | exact Hc].
Qed.

Lemma trim_idempotent s : Js.trim (Js.trim s) = Js.trim s.
Proof.
  unfold Js.trim.
  assert (H := trimEnd_head _ (trimStart_head s)).
  assert (E : Js.trimStart (Js.trimEnd (Js.trimStart s)) = Js.trimEnd (Js.trimStart s)).
  { destruct (Js.trimEnd (Js.trimStart s)) as [| c t]; [reflexivity |].
    simpl. now rewrite H. }
  rewrite E. apply trimEnd_idempotent.
Qed.

(** One step of a quantified class. *)
Lemma match_here_rep cls min greedy r s o acc :
  Regex.match_here (Regex.Rep cls min greedy :: r) s o acc
  = let stop := match min with
                | O => Regex.match_here r s o acc
                | S _ => None
                end in
    let more := match s with
                | String c s' =>
                    if cls c
                    then Regex.match_here (Regex.Rep cls (Nat.pred min) greedy :: r) s' o
                                          (if o then Regex.snoc acc c else acc)
                    else None
                | EmptyString => None
                end in
    if greedy
    then match more with Some x => Some x | None => stop end
    else match stop with Some x => Some x | None => more end.
Proof. destruct s; reflexivity. Qed.

(** Whatever a quantified class returns comes from one of its two
    alternatives. *)
Lemma first_alternative {A} (greedy : bool) (more stop : option A) (P : A -> Prop) :
  (forall x, more = Some x -> P x) ->
  (forall x, stop = Some x -> P x) ->
  forall x,
    (if greedy
     then match more with Some y => Some y | None => stop end
     else match stop with Some y => Some y | None => more end) = Some x ->
    P x.
Proof.
  intros Hmore Hstop x. destruct greedy, more as [m |], stop as [t |];
    intros E; try discriminate; first [now apply Hmore | now apply Hstop].
Qed.

(** After the group is closed the capture stays as it is. *)
Lemma match_here_closed r s acc cap :
  Text.noOpen r = true ->
  Regex.match_here r s false acc = Some cap -> cap = acc.
Proof.
  revert s cap. induction r as [| a r IH]; intros s cap Hshape.
  - now intros [= <-].
  - apply andb_true_iff in Hshape as [Ha Hr]. destruct a as [c | cls min greedy | |].
    + simpl. destruct s as [| c' s]; [discriminate |].
      destruct (Ascii.eqb c c'); [apply IH; exact Hr | discriminate].
    + revert min cap. induction s as [| c s IHs]; intros min;
        rewrite match_here_rep; cbv zeta;
        apply (first_alternative _ _ _ (fun x => x = acc)); intros x.
      * discriminate.
      * destruct min; [apply IH; exact Hr | discriminate].
      * destruct (cls c); [apply IHs | discriminate].
      * destruct min; [apply IH; exact Hr | discriminate].
    + discriminate.
    + simpl. apply IH. exact Hr.
Qed.

(** Inside the group: a quantified class followed by the closing
    parenthesis captures a run of characters of the class, taken from the
    head of the input. *)
Lemma match_here_capture cls g post s min acc cap :
  Text.noOpen post = true ->
  Regex.match_here (Regex.Rep cls min g :: Regex.Close :: post) s true acc = Some cap ->
  exists t after, cap = acc ++ t /\ Text.every cls t = true /\ s = t ++ after.
Proof.
  intros Hpost. revert min acc cap. induction s as [| c s IHs]; intros min acc;
    rewrite match_here_rep; cbv zeta;
    [apply (first_alternative _ _ _ (fun x => exists t after,
                                         x = acc ++ t /\ Text.every cls t = true
                                         /\ "" = t ++ after))
    |apply (first_alternative _ _ _ (fun x => exists t after,
                                         x = acc ++ t /\ Text.every cls t = true
                                         /\ String c s = t ++ after))]; intros x.
  - discriminate.
  - destruct min; [| discriminate]. intros E. apply match_here_closed in E; [| exact Hpost].
    exists "", "". now rewrite append_nil_r.
  - destruct (cls c) eqn:Hc; [| discriminate]. intros E.
    apply IHs in E as (t & after & -> & Ht & ->).
    exists (String c t), after. unfold Regex.snoc. rewrite append_assoc. simpl.
    now rewrite Hc, Ht.
  - destruct min; [| discriminate]. intros E. apply match_here_closed in E; [| exact Hpost].
    exists "", (String c s). now rewrite append_nil_r.
Qed.

(** A pattern with one group around one quantified class: the capture is
    a run of characters of the class that occurs in the input. *)
Lemma match_here_group pre cls min g post s o acc cap :
  Text.noOpen pre = true -> Text.noOpen post = true ->
  Regex.match_here (pre ++ Regex.Open :: Regex.Rep cls min g :: Regex.Close :: post)%list
                   s o acc = Some cap ->
  Text.every cls cap = true /\ Text.occursIn cap s.
Proof.
  intros Hpre Hpost. revert s o acc cap. induction pre as [| a pre IH]; intros s o acc cap.
  - cbn [app Regex.match_here]. intros E.
    apply (match_here_capture cls g post s min "" cap Hpost) in E as (t & after & -> & Ht & ->).
    split; [exact Ht |]. now exists "", after.
  - apply andb_true_iff in Hpre as [Ha Hpre]. specialize (IH Hpre).
    destruct a as [c | cls' min' g' | |].
    + cbn [app Regex.match_here]. destruct s as [| c' s]; [discriminate |].
      destruct (Ascii.eqb c c'); [| discriminate]. intros E. apply IH in E as [E1 E2].
      split; [exact E1 | now apply occursIn_tail].
    + change ((Regex.Rep cls' min' g' :: pre) ++ ?l)%list
        with (Regex.Rep cls' min' g' :: (pre ++ l))%list.
      revert min' acc cap. induction s as [| c s IHs]; intros min' acc;
        rewrite match_here_rep; cbv zeta;
        [apply (first_alternative _ _ _ (fun x => Text.every cls x = true
                                                  /\ Text.occursIn x ""))
        |apply (first_alternative _ _ _ (fun x => Text.every cls x = true
                                                  /\ Text.occursIn x (String c s)))];
        intros x.
      * discriminate.
      * destruct min'; [apply IH | discriminate].
      * destruct (cls' c); [| discriminate]. intros E. apply IHs in E as [E1 E2].
        split; [exact E1 | now apply occursIn_tail].
      * destruct min'; [apply IH | discriminate].
    + discriminate.
    + cbn [app Regex.match_here]. apply IH.
Qed.

(** The same for the leftmost match of the whole pattern. *)
Lemma exec_group re pre cls min g post s cap :
  Regex.body re = (pre ++ Regex.Open :: Regex.Rep cls min g :: Regex.Close :: post)%list ->
  Text.noOpen pre = true -> Text.noOpen post = true ->
  Regex.exec re s = Some cap ->
  Text.every cls cap = true /\ Text.occursIn cap s.
Proof.
  intros Hbody Hpre Hpost. unfold Regex.exec. generalize (@None ascii) as prev.
  induction s as [| c s IH]; intros prev; cbn [Regex.exec_from];
    (destruct (Regex.start_allowed (Regex.start re) prev);
     [unfold Regex.match_at; rewrite Hbody;
      destruct (Regex.match_here _ _ false "") as [x |] eqn:E;
      [intros [= <-]; now apply (match_here_group pre cls min g post _ false "") |] |]).
  all: try discriminate.
  all: intros E'; apply IH in E' as [E1 E2]; split; [exact E1 | now apply occursIn_tail].
Qed.

Lemma title_shape content t :
  Regex.exec Markdown.title_re content = Some t ->
  Text.every Regex.dot t = true /\ Text.occursIn t content.
Proof.
  apply (exec_group Markdown.title_re
                    (Regex.lits "#" ++ [Regex.Rep Regex.space 1 true])%list
                    Regex.dot 1 true []); reflexivity.
Qed.

Lemma desc_shape frontmatter d :
  Regex.exec Markdown.desc_re frontmatter = Some d ->
  Text.every Regex.dot d = true /\ Text.occursIn d frontmatter.
Proof.
  apply (exec_group Markdown.desc_re
                    (Regex.lits "description:" ++ [Regex.Rep Regex.space 0 true])%list
                    Regex.dot 1 true []); reflexivity.
Qed.

Lemma frontmatter_shape content frontmatter :
  Regex.exec Markdown.frontmatter_re content = Some frontmatter ->
  Text.occursIn frontmatter content.
Proof.
  intros E.
  apply (exec_group Markdown.frontmatter_re
                    (Regex.lits "---" ++ [Regex.Rep Regex.space 0 true; Regex.Lit LF])%list
                    Regex.any 0 false (Regex.Lit LF :: Regex.lits "---")) in E;
    [apply E | reflexivity ..].
Qed.

Lemma trimmed_shape t content :
  Text.every Regex.dot t = true /\ Text.occursIn t content ->
  Js.trim (Js.trim t) = Js.trim t
  /\ Text.every Regex.dot (Js.trim t) = true
  /\ Text.occursIn (Js.trim t) content.
Proof.
  intros [Hdot Hin]. split; [apply trim_idempotent |]. split.
  - exact (every_occursIn _ _ _ (trim_occursIn t) Hdot).
  - exact (occursIn_trans _ _ _ (trim_occursIn t) Hin).
Qed.

(** X14.  Whenever a description is extracted from a Markdown text, it is
    trimmed (trimming it again changes nothing), it contains no line
    terminator, and it occurs in the text as a run of consecutive
    characters: the description is copied from the file, never made up,
    and never spans more than the rest of one line. *)
Theorem description_shape content d :
  Markdown.extractDescription content = Some d ->
  Js.trim d = d
  /\ Text.every Regex.dot d = true
  /\ Text.occursIn d content.
Proof.
  unfold Markdown.extractDescription, Markdown.titleOf.
  assert (Htitle : match Regex.exec Markdown.title_re content with
                   | Some t => Some (Js.trim t)
                   | None => None
                   end = Some d ->
                   Js.trim d = d /\ Text.every Regex.dot d = true /\ Text.occursIn d content).
  { destruct (Regex.exec Markdown.title_re content) as [t |] eqn:Et; [| discriminate].
    intros [= <-]. apply trimmed_shape, title_shape, Et. }
  destruct (Regex.exec Markdown.frontmatter_re content) as [frontmatter |] eqn:Ef;
    [| exact Htitle].
  destruct (Regex.exec Markdown.desc_re frontmatter) as [t |] eqn:Ed; [| exact Htitle].
  intros [= <-]. apply trimmed_shape.
  destruct (desc_shape _ _ Ed) as [Hdot Hin]. split; [exact Hdot |].
  exact (occursIn_trans _ _ _ Hin (frontmatter_shape _ _ Ef)).
Qed.

Lemma description_shape_witness :
  Markdown.extractDescription ("#  My agent  " ++ nl ++ "body") = Some "My agent"
  /\ Js.trim "My agent" = "My agent"
  /\ Text.every Regex.dot "My agent" = true
  /\ Text.occursIn "My agent" ("#  My agent  " ++ nl ++ "body").
Proof.
  split; [vm_compute; reflexivity |].
  apply (description_shape ("#  My agent  " ++ nl ++ "body") "My agent").
  vm_compute. reflexivity.
Defined.

(** ** What the webview is answered *)

Lemma try_catch_returns {S A} (body : M S (option A)) (st : S) :
  exists outcome st', try_catch body (fun _ => ret None) st = (Ok outcome, st').
Proof.
  unfold try_catch, ret. destruct (body st) as [[a | e] st1]; eauto.
Qed.

Section RouterRequests.

Import ManagementViewProvider.

Variable Plugin : Type.
Variable rawName : Plugin -> jsval.
Variable PluginManager : Type.
Variable loadInstalledPlugins : bool -> M PluginManager (list Plugin).
Variable getPluginEnabledStatus : jsval -> M PluginManager bool.
Variable enablePlugin : jsval -> M PluginManager bool.
Variable disablePlugin : jsval -> M PluginManager bool.

Local Abbreviation St := (State Plugin PluginManager).
Local Abbreviation Handle :=
  (_handleMessage Plugin rawName PluginManager loadInstalledPlugins
                  getPluginEnabledStatus enablePlugin disablePlugin).
Local Abbreviation Status := (withStatus Plugin rawName PluginManager getPluginEnabledStatus).

(** X15.  The six read requests are always answered with data, never
    with an error response.  With the panel open, [getSkills],
    [getCommands] and [getAgents] post one message with the whole list the
    manager returns for a load that is not forced; [getSkillDetails],
    [getCommandDetails] and [getAgentDetails] post one message with what
    the manager returns for the name (and location) of the request, the
    not-found value included.  Each message carries the [requestId] of the
    request; the only part of the provider that may change besides the
    posted messages is the manager asked. *)
Theorem read_requests_answered (h : Host) (message : Message) (st : St) :
  panel _ _ st = true ->
  let rid := requestId message in
  let st' := snd (Handle h message st) in
  (In (type message)
      (map JStr ["getSkills"; "getSkillDetails"; "getCommands"; "getCommandDetails";
                 "getAgents"; "getAgentDetails"]) ->
   fst (Handle h message st) = Ok tt
   /\ panel _ _ st' = true
   /\ notifications _ _ st' = notifications _ _ st
   /\ pluginManager _ _ st' = pluginManager _ _ st)
  /\ (type message = JStr "getSkills" ->
      exists loaded,
        SkillsManager.loadSkills h false (skillsManager _ _ st)
        = (Ok loaded, skillsManager _ _ st')
        /\ posted _ _ st'
           = (posted _ _ st ++ [Response "skillsData" rid (SkillsData _ (elems loaded))])%list
        /\ commandsManager _ _ st' = commandsManager _ _ st
        /\ agentsManager _ _ st' = agentsManager _ _ st)
  /\ (type message = JStr "getSkillDetails" ->
      exists details,
        SkillsManager.getSkillDetails h (skillName message) (location message)
                                      (skillsManager _ _ st)
        = (Ok details, skillsManager _ _ st')
        /\ posted _ _ st'
           = (posted _ _ st ++ [Response "skillDetails" rid (SkillDetailsData _ details)])%list
        /\ commandsManager _ _ st' = commandsManager _ _ st
        /\ agentsManager _ _ st' = agentsManager _ _ st)
  /\ (type message = JStr "getCommands" ->
      exists loaded,
        CommandsManager.loadCommands h false (commandsManager _ _ st)
        = (Ok loaded, commandsManager _ _ st')
        /\ posted _ _ st'
           = (posted _ _ st
                     ++ [Response "commandsData" rid (CommandsData _ (elems loaded))])%list
        /\ skillsManager _ _ st' = skillsManager _ _ st
        /\ agentsManager _ _ st' = agentsManager _ _ st)
  /\ (type message = JStr "getCommandDetails" ->
      exists details,
        CommandsManager.getCommandDetails h (commandName message) (commandsManager _ _ st)
        = (Ok details, commandsManager _ _ st')
        /\ posted _ _ st'
           = (posted _ _ st
                     ++ [Response "commandDetails" rid (CommandDetailsData _ details)])%list
        /\ skillsManager _ _ st' = skillsManager _ _ st
        /\ agentsManager _ _ st' = agentsManager _ _ st)
  /\ (type message = JStr "getAgents" ->
      exists loaded,
        AgentsManager.loadAgents h false (agentsManager _ _ st)
        = (Ok loaded, agentsManager _ _ st')
        /\ posted _ _ st'
           = (posted _ _ st ++ [Response "agentsData" rid (AgentsData _ (elems loaded))])%list
        /\ skillsManager _ _ st' = skillsManager _ _ st
        /\ commandsManager _ _ st' = commandsManager _ _ st)
  /\ (type message = JStr "getAgentDetails" ->
      exists details,
        AgentsManager.getAgentDetails h (agentName message) (agentsManager _ _ st)
        = (Ok details, agentsManager _ _ st')
        /\ posted _ _ st'
           = (posted _ _ st ++ [Response "agentDetails" rid (AgentDetailsData _ details)])%list
        /\ skillsManager _ _ st' = skillsManager _ _ st
        /\ commandsManager _ _ st' = commandsManager _ _ st).
Proof.
  intros Hopen. cbv zeta.
  destruct (loadSkills_returns h false (skillsManager _ _ st)) as (sl & sm & Es & _).
  destruct (loadCommands_returns h false (commandsManager _ _ st)) as (cl & cm & Ec & _).
  destruct (loadAgents_returns h false (agentsManager _ _ st)) as (al & am & Ea & _).
  destruct (try_catch_returns
              (skills <- SkillsManager.loadSkills h false ;;
               match find (SkillsManager.matchesSkill (skillName message) (location message))
                          (elems skills) with
               | None => ret None
               | Some skill =>
                   json <- lift (readIfExists h (Path.join2 (SkillsManager.path skill)
                                                            "skill.json") (JSON_parse h)) ;;
                   readme <- lift (readIfExists h (Path.join2 (SkillsManager.path skill)
                                                              "README.md") Ok) ;;
                   prompt <- lift (readIfExists h (Path.join2 (SkillsManager.path skill)
                                                              "prompt.md") Ok) ;;
                   ret (Some {| SkillsManager.skill := skill;
                                SkillsManager.skillJson := json;
                                SkillsManager.readmeContent := readme;
                                SkillsManager.promptContent := prompt |})
               end) (skillsManager _ _ st)) as (sd & sm' & Esd).
  change (SkillsManager.getSkillDetails h (skillName message) (location message)
                                        (skillsManager _ _ st) = (Ok sd, sm')) in Esd.
  assert (Ecd : exists cd cm', CommandsManager.getCommandDetails
                                 h (commandName message) (commandsManager _ _ st)
                               = (Ok cd, cm')) by apply try_catch_returns.
  assert (Ead : exists ad am', AgentsManager.getAgentDetails
                                 h (agentName message) (agentsManager _ _ st)
                               = (Ok ad, am')) by apply try_catch_returns.
  destruct Ecd as (cd & cm' & Ecd), Ead as (ad & am' & Ead).
  split; [| repeat split].
  1: intros [Htag | [Htag | [Htag | [Htag | [Htag | [Htag | []]]]]]]; symmetry in Htag.
  all: try intros Htag.
  all: unfold _handleMessage, try_catch, dispatch; rewrite Htag;
    cbn [Js.strict_eq_str String.eqb Ascii.eqb Bool.eqb];
    unfold _handleGetSkills, _handleGetSkillDetails, _handleGetCommands,
      _handleGetCommandDetails, _handleGetAgents, _handleGetAgentDetails,
      bind, onSkills, onCommands, onAgents, _sendMessage;
    rewrite ?Es, ?Esd, ?Ec, ?Ecd, ?Ea, ?Ead; cbn; rewrite Hopen; cbn.
  all: try (repeat split; reflexivity).
  all: eexists; repeat split; reflexivity.
Qed.

(** X16.  A [searchSkills] request.  The router searches without a
    location filter, after a load that is not forced, and the skills stay
    loaded whatever the search does.  With the panel open exactly one
    message is posted: for a query that is a string, the entries that match
    it, in cached order, unless some cached description is neither a string
    nor absent, in which case the error response of the TypeError; for a
    request without a query, or with one that is not a string, an error
    response.  The router returns in every case. *)
Theorem search_request_outcome (h : Host) (message : Message) (st : St) :
  panel _ _ st = true ->
  type message = JStr "searchSkills" ->
  let rid := requestId message in
  let st' := snd (Handle h message st) in
  exists loaded,
    SkillsManager.loadSkills h false (skillsManager _ _ st)
    = (Ok loaded, skillsManager _ _ st')
    /\ fst (Handle h message st) = Ok tt
    /\ notifications _ _ st' = notifications _ _ st
    /\ pluginManager _ _ st' = pluginManager _ _ st
    /\ commandsManager _ _ st' = commandsManager _ _ st
    /\ agentsManager _ _ st' = agentsManager _ _ st
    /\ match query message with
       | JStr q =>
           posted _ _ st'
           = (posted _ _ st
              ++ [if forallb SkillSearch.searchable (elems loaded)
                  then Response "skillsSearchResults" rid
                                (SkillsData _ (filter (SkillsManager.matchesQuery
                                                         (Js.toLowerCase q) None)
                                                      (elems loaded)))
                  else ErrorResponse
                         rid "skill.description?.toLowerCase is not a function"])%list
       | _ =>
           exists text,
             Js.call_toLowerCase "query" (query message) = Throw (JsError text)
             /\ posted _ _ st' = (posted _ _ st ++ [ErrorResponse rid text])%list
       end.
Proof.
  intros Hopen Htag. cbv zeta.
  destruct (loadSkills_returns h false (skillsManager _ _ st)) as (loaded & sm & Es & _).
  exists loaded.
  unfold _handleMessage, try_catch, dispatch. rewrite Htag.
  cbn [Js.strict_eq_str String.eqb Ascii.eqb Bool.eqb].
  unfold _handleSearchSkills, bind, onSkills, SkillsManager.searchSkills, bind, lift.
  rewrite Es.
  destruct (query message) as [| | b | z | q | l | o];
    cbn [Js.call_toLowerCase].
  5: { rewrite filter_r_outcome
         with (q := SkillsManager.matchesQuery (Js.toLowerCase q) None)
              (ok := SkillSearch.searchable)
              (e := JsError "skill.description?.toLowerCase is not a function")
         by (intros sk; rewrite searchPredicate_outcome; reflexivity).
       destruct (forallb SkillSearch.searchable (elems loaded));
         unfold _sendMessage; cbn; rewrite Hopen; cbn; repeat split; reflexivity. }
  all: unfold _sendMessage; cbn; rewrite Hopen; cbn; repeat split; try reflexivity.
  all: eexists; split; reflexivity.
Qed.

(** X17.  Enabling and disabling a plugin.  The request is passed to
    the plugin manager with the [pluginId] of the message as it is.  When
    the manager returns, the response carries that id and the manager's
    verdict, and the user is notified exactly when the verdict is success;
    when the manager throws, the webview gets the error response and the
    user no notification.  The other three managers are left alone. *)
Theorem plugin_toggle_requests (h : Host) (message : Message) (st : St) :
  panel _ _ st = true ->
  let rid := requestId message in
  let id := pluginId message in
  let st' := snd (Handle h message st) in
  let outcome (call : jsval -> M PluginManager bool) (tag : string)
              (notice : jsval -> Notice) :=
    fst (Handle h message st) = Ok tt
    /\ pluginManager _ _ st' = snd (call id (pluginManager _ _ st))
    /\ skillsManager _ _ st' = skillsManager _ _ st
    /\ commandsManager _ _ st' = commandsManager _ _ st
    /\ agentsManager _ _ st' = agentsManager _ _ st
    /\ match fst (call id (pluginManager _ _ st)) with
       | Ok success =>
           posted _ _ st'
           = (posted _ _ st ++ [Response tag rid (PluginResult _ id success)])%list
           /\ notifications _ _ st'
              = (notifications _ _ st ++ if success then [notice id] else [])%list
       | Throw e =>
           posted _ _ st' = (posted _ _ st ++ [ErrorResponse rid (errorText e)])%list
           /\ notifications _ _ st' = notifications _ _ st
       end in
  (type message = JStr "enablePlugin" ->
   outcome enablePlugin "pluginEnabled" PluginEnabledNotice)
  /\ (type message = JStr "disablePlugin" ->
      outcome disablePlugin "pluginDisabled" PluginDisabledNotice).
Proof.
  intros Hopen. cbv zeta.
  split; intros Htag; unfold _handleMessage, try_catch, dispatch; rewrite Htag;
    cbn [Js.strict_eq_str String.eqb Ascii.eqb Bool.eqb];
    unfold _handleEnablePlugin, _handleDisablePlugin, bind, onPlugins.
  - destruct (enablePlugin (pluginId message) (pluginManager _ _ st)) as [[[] | e] pm];
      unfold _sendMessage, showInformationMessage, ret; cbn; rewrite Hopen; cbn;
      rewrite ?app_nil_r; repeat split; reflexivity.
  - destruct (disablePlugin (pluginId message) (pluginManager _ _ st)) as [[[] | e] pm];
      unfold _sendMessage, showInformationMessage, ret; cbn; rewrite Hopen; cbn;
      rewrite ?app_nil_r; repeat split; reflexivity.
Qed.

Lemma withStatus_shape (plugins : list Plugin) (pm pm' : PluginManager) l :
  Status plugins pm = (Ok l, pm') ->
  map fst l = plugins
  /\ (forall plugin enabled,
         In (plugin, enabled) l -> Js.truthy (rawName plugin) = false -> enabled = true)
  /\ (forall plugin enabled,
         In (plugin, enabled) l -> Js.truthy (rawName plugin) = true ->
         exists pm0, fst (getPluginEnabledStatus (rawName plugin) pm0) = Ok enabled).
Proof.
  revert pm l. induction plugins as [| plugin rest IH]; intros pm l.
  - intros [= <- _]. repeat split; intros ? ? [].
  - cbn [withStatus]. destruct (Js.truthy (rawName plugin)) eqn:Hraw; unfold bind, ret.
    + destruct (getPluginEnabledStatus (rawName plugin) pm) as [[enabled | e] pm1] eqn:Hst;
        [| discriminate].
      destruct (Status rest pm1) as [[others | e] pm2] eqn:Hrest; [| discriminate].
      intros [= <- <-]. destruct (IH _ _ Hrest) as (Hmap & Hfalsy & Htruthy).
      simpl. split; [now rewrite Hmap |]. split.
      * intros p b [[= <- <-] | Hin]; [congruence | eauto].
      * intros p b [[= <- <-] | Hin] Hp; [| eauto].
        exists pm. now rewrite Hst.
    + destruct (Status rest pm) as [[others | e] pm2] eqn:Hrest; [| discriminate].
      intros [= <- <-]. destruct (IH _ _ Hrest) as (Hmap & Hfalsy & Htruthy).
      simpl. split; [now rewrite Hmap |]. split.
      * intros p b [[= <- <-] | Hin]; [reflexivity | eauto].
      * intros p b [[= <- <-] | Hin] Hp; [congruence | eauto].
Qed.

(** X18.  Listing the plugins.  With the panel open a [getPlugins]
    request is answered by exactly one message.  It is the data response
    when listing and every status lookup return: then the data are the
    installed plugins in the order of the listing, each once, each paired
    with a flag; a plugin without a raw name (absent or empty) counts as
    enabled without the manager being asked, and the flag of any other
    plugin is an answer of the manager for its raw name.  If the listing or
    one lookup throws, the answer is the error response and no partial list
    is sent.  The user is not notified and the other managers are left
    alone. *)
Theorem plugins_request_outcome (h : Host) (message : Message) (st : St) :
  panel _ _ st = true ->
  type message = JStr "getPlugins" ->
  let rid := requestId message in
  let st' := snd (Handle h message st) in
  fst (Handle h message st) = Ok tt
  /\ notifications _ _ st' = notifications _ _ st
  /\ skillsManager _ _ st' = skillsManager _ _ st
  /\ commandsManager _ _ st' = commandsManager _ _ st
  /\ agentsManager _ _ st' = agentsManager _ _ st
  /\ match loadInstalledPlugins false (pluginManager _ _ st) with
     | (Ok plugins, pm) =>
         match Status plugins pm with
         | (Ok data, _) =>
             posted _ _ st'
             = (posted _ _ st ++ [Response "pluginsData" rid (PluginsData _ data)])%list
             /\ map fst data = plugins
             /\ (forall plugin enabled,
                    In (plugin, enabled) data ->
                    if Js.truthy (rawName plugin)
                    then exists pm0,
                        fst (getPluginEnabledStatus (rawName plugin) pm0) = Ok enabled
                    else enabled = true)
         | (Throw e, _) =>
             posted _ _ st' = (posted _ _ st ++ [ErrorResponse rid (errorText e)])%list
         end
     | (Throw e, _) =>
         posted _ _ st' = (posted _ _ st ++ [ErrorResponse rid (errorText e)])%list
     end.
Proof.
  intros Hopen Htag. cbv zeta.
  unfold _handleMessage, try_catch, dispatch. rewrite Htag.
  cbn [Js.strict_eq_str String.eqb Ascii.eqb Bool.eqb].
  unfold _handleGetPlugins, bind, onPlugins.
  destruct (loadInstalledPlugins false (pluginManager _ _ st)) as [[plugins | e] pm];
    cbn [pluginManager].
  - destruct (Status plugins pm) as [[data | e] pm'] eqn:Hstatus.
    + destruct (withStatus_shape _ _ _ _ Hstatus) as (Hmap & Hfalsy & Htruthy).
      unfold _sendMessage; cbn; rewrite Hopen; cbn. repeat split; try reflexivity.
      * exact Hmap.
      * intros plugin enabled Hin.
        destruct (Js.truthy (rawName plugin)) eqn:Hraw; eauto.
    + unfold _sendMessage; cbn; rewrite Hopen; cbn. repeat split; reflexivity.
  - unfold _sendMessage; cbn; rewrite Hopen; cbn. repeat split; reflexivity.
Qed.

Lemma popAll_calls (fromEnd calls : list PanelLifecycle.Disposable) :
  PanelLifecycle.popAll fromEnd calls = (calls ++ fromEnd)%list.
Proof.
  revert calls. induction fromEnd as [| d rest IH]; intros calls; simpl.
  - now rewrite app_nil_r.
  - now rewrite IH, <- app_assoc.
Qed.

(** Without a panel the router posts nothing, whatever the request. *)
Lemma handle_without_panel (h : Host) (message : Message) (st : St) :
  panel _ _ st = false ->
  fst (Handle h message st) = Ok tt
  /\ panel _ _ (snd (Handle h message st)) = false
  /\ posted _ _ (snd (Handle h message st)) = posted _ _ st.
Proof.
  intros Hclosed. unfold _handleMessage, try_catch.
  destruct (recognized message) eqn:Hrec.
  - pose proof (dispatch_responds Plugin rawName PluginManager loadInstalledPlugins
                                  getPluginEnabledStatus enablePlugin disablePlugin
                                  h message Hrec st) as [Hpanel Hposted].
    destruct (dispatch _ _ _ _ _ _ _ h message st) as [[[] | e] st1]; simpl in *.
    + rewrite Hclosed in Hposted. destruct Hposted as (type & data & ->).
      rewrite app_nil_r. repeat split; congruence.
    + unfold _sendMessage. rewrite Hpanel, Hclosed. simpl. repeat split; congruence.
  - rewrite (dispatch_default Plugin rawName PluginManager loadInstalledPlugins
                              getPluginEnabledStatus enablePlugin disablePlugin
                              h message Hrec).
    simpl. repeat split; assumption.
Qed.

(** X19.  Releasing the provider.  [dispose] forgets the panel, empties
    the array of disposables and calls [dispose()] on each of them once,
    the last registered first; the posted messages, the notifications and
    the four managers stay as they are.  Releasing twice is releasing once.
    A request that is handled after the release still returns, and posts
    nothing. *)
Theorem dispose_closes_panel (h : Host) (p : PanelLifecycle.Provider Plugin PluginManager) :
  let p' := PanelLifecycle.dispose _ _ p in
  let before := PanelLifecycle.view _ _ p in
  let after := PanelLifecycle.view _ _ p' in
  panel _ _ after = false
  /\ PanelLifecycle._disposables _ _ p' = []
  /\ PanelLifecycle.disposedOf _ _ p'
     = (PanelLifecycle.disposedOf _ _ p ++ rev (PanelLifecycle._disposables _ _ p))%list
  /\ posted _ _ after = posted _ _ before
  /\ notifications _ _ after = notifications _ _ before
  /\ pluginManager _ _ after = pluginManager _ _ before
  /\ skillsManager _ _ after = skillsManager _ _ before
  /\ commandsManager _ _ after = commandsManager _ _ before
  /\ agentsManager _ _ after = agentsManager _ _ before
  /\ PanelLifecycle.dispose _ _ p' = p'
  /\ (forall message,
         fst (Handle h message after) = Ok tt
         /\ posted _ _ (snd (Handle h message after)) = posted _ _ before).
Proof.
  cbv zeta. unfold PanelLifecycle.dispose, PanelLifecycle._dispose. cbn.
  rewrite popAll_calls. repeat (split; [reflexivity |]).
  intros message.
  destruct (handle_without_panel h message (PanelLifecycle.closePanel _ _
                                              (PanelLifecycle.view _ _ p)) eq_refl)
    as (Hok & _ & Hposted).
  split; [exact Hok | exact Hposted].
Qed.

End RouterRequests.

(** Asked for the details of a skill that does not exist, the provider
    answers with the not-found value. *)
Lemma read_requests_answered_witness :
  let message := SampleRegistry.detailsRequest "getSkillDetails" 3 (JStr "nope") (JStr "user") in
  ManagementViewProvider.posted _ _ (snd (SampleRegistry.handle Sample.host message
                                                                 SampleRegistry.start))
  = [ManagementViewProvider.Response
       "skillDetails" (JNum 3) (ManagementViewProvider.SkillDetailsData _ None)].
Proof.
  intros message.
  destruct (read_requests_answered
              SampleRegistry.Plugin SampleRegistry.rawName SampleRegistry.Registry
              SampleRegistry.loadInstalledPlugins SampleRegistry.getPluginEnabledStatus
              SampleRegistry.enablePlugin SampleRegistry.disablePlugin
              Sample.host message SampleRegistry.start eq_refl)
    as (_ & _ & Hdetails & _).
  destruct (Hdetails eq_refl) as (details & Hget & Hposted & _).
  apply (f_equal fst) in Hget. vm_compute in Hget. injection Hget as <-.
  exact Hposted.
Defined.

(** A search for [FO] on the sample host finds the user skill [foo]. *)
Lemma search_request_outcome_witness :
  let message := SampleRouter.request "searchSkills" 8 (JStr "FO") in
  exists foo,
    ManagementViewProvider.posted _ _ (snd (SampleRouter.handle Sample.host message
                                                                 SampleRouter.start))
    = [ManagementViewProvider.Response
         "skillsSearchResults" (JNum 8) (ManagementViewProvider.SkillsData _ [foo])]
    /\ SkillsManager.name foo = "foo".
Proof.
  intros message.
  destruct (search_request_outcome
              SampleRouter.Plugin SampleRouter.rawName SampleRouter.Registry
              SampleRouter.loadInstalledPlugins SampleRouter.getPluginEnabledStatus
              SampleRouter.enablePlugin SampleRouter.disablePlugin
              Sample.host message SampleRouter.start eq_refl eq_refl)
    as (loaded & Hload & _ & _ & _ & _ & _ & Hposted).
  cbn [message SampleRouter.request ManagementViewProvider.query] in Hposted.
  apply (f_equal fst) in Hload. cbn [fst] in Hload.
  pose (foo := hd (SkillsManager.Build_Skill "" SkillsManager.user "" JUndefined None
                                              false false)
                  (filter (SkillsManager.matchesQuery (Js.toLowerCase "FO") None)
                          (elems loaded))).
  exists foo. split.
  - etransitivity; [exact Hposted |]. vm_compute in Hload. injection Hload as <-.
    vm_compute. reflexivity.
  - vm_compute in Hload. injection Hload as <-. vm_compute. reflexivity.
Defined.

(** Enabling the installed plugin [alpha@mk] succeeds: the webview is
    answered, the user is notified and the plugin is no longer disabled.
    Enabling [zeta], which is not installed, is answered with a failure and
    nobody is notified. *)
Lemma plugin_toggle_requests_witness :
  let known := SampleRegistry.pluginRequest "enablePlugin" 5 (JStr "alpha@mk") in
  let unknown := SampleRegistry.pluginRequest "enablePlugin" 6 (JStr "zeta") in
  let after m := snd (SampleRegistry.handle Sample.host m SampleRegistry.start) in
  ManagementViewProvider.posted _ _ (after known)
  = [ManagementViewProvider.Response
       "pluginEnabled" (JNum 5)
       (ManagementViewProvider.PluginResult _ (JStr "alpha@mk") true)]
  /\ ManagementViewProvider.notifications _ _ (after known)
     = [ManagementViewProvider.PluginEnabledNotice (JStr "alpha@mk")]
  /\ ManagementViewProvider.pluginManager _ _ (after known) = []
  /\ ManagementViewProvider.posted _ _ (after unknown)
     = [ManagementViewProvider.Response
          "pluginEnabled" (JNum 6)
          (ManagementViewProvider.PluginResult _ (JStr "zeta") false)]
  /\ ManagementViewProvider.notifications _ _ (after unknown) = [].
Proof.
  intros known unknown after.
  pose proof (fun m =>
                proj1 (plugin_toggle_requests
                         SampleRegistry.Plugin SampleRegistry.rawName SampleRegistry.Registry
                         SampleRegistry.loadInstalledPlugins
                         SampleRegistry.getPluginEnabledStatus
                         SampleRegistry.enablePlugin SampleRegistry.disablePlugin
                         Sample.host m SampleRegistry.start eq_refl)) as H.
  destruct (H known eq_refl) as (_ & Hpm & _ & _ & _ & Hposted & Hnotes).
  destruct (H unknown eq_refl) as (_ & _ & _ & _ & _ & Hposted' & Hnotes').
  repeat split; assumption.
Defined.

(** The sample registry lists [alpha], which is disabled, and [beta],
    which has no raw name and so counts as enabled. *)
Lemma plugins_request_outcome_witness :
  let message := SampleRegistry.pluginRequest "getPlugins" 1 JUndefined in
  ManagementViewProvider.posted _ _ (snd (SampleRegistry.handle Sample.host message
                                                                 SampleRegistry.start))
  = [ManagementViewProvider.Response
       "pluginsData" (JNum 1)
       (ManagementViewProvider.PluginsData
          _ [({| SampleRegistry.name := "alpha"; SampleRegistry.raw := JStr "alpha@mk" |},
              false);
             ({| SampleRegistry.name := "beta"; SampleRegistry.raw := JUndefined |},
              true)])].
Proof.
  intros message.
  destruct (plugins_request_outcome
              SampleRegistry.Plugin SampleRegistry.rawName SampleRegistry.Registry
              SampleRegistry.loadInstalledPlugins SampleRegistry.getPluginEnabledStatus
              SampleRegistry.enablePlugin SampleRegistry.disablePlugin
              Sample.host message SampleRegistry.start eq_refl eq_refl)
    as (_ & _ & _ & _ & _ & Hposted & _).
  exact Hposted.
Defined.

(** ** Searches on a loaded manager *)

Lemma filter_r_sub {A} (p : A -> result bool) (l found : list A) :
  filter_r p l = Ok found -> forall x, In x found -> In x l.
Proof.
  revert found. induction l as [| a l IH]; intros found; simpl.
  - intros [= <-] x [].
  - destruct (p a) as [b | e]; [| discriminate].
    destruct (filter_r p l) as [ys | e]; [| discriminate].
    intros [= <-] x Hin. destruct b; [destruct Hin as [-> | Hin] |]; eauto.
Qed.

(** X20.  Once a manager has loaded, a search never looks at the file
    system: on any two hosts it has the same outcome and leaves the same
    state, and what it returns are entries of the cached array.  So a
    search does not see files added or removed since the load, and after a
    load that came back empty every search is empty. *)
Theorem search_reads_cache_only (h h' : Host) :
  (forall query locationFilter st cached,
      SkillsManager.cachedSkills st = Some cached ->
      SkillsManager.searchSkills h query locationFilter st
      = SkillsManager.searchSkills h' query locationFilter st
      /\ snd (SkillsManager.searchSkills h query locationFilter st) = st
      /\ (forall found,
             fst (SkillsManager.searchSkills h query locationFilter st) = Ok found ->
             forall sk, In sk found -> In sk (elems cached))
      /\ (elems cached = [] ->
          forall q, fst (SkillsManager.searchSkills h (JStr q) locationFilter st) = Ok []))
  /\ (forall query st cached,
         AgentsManager.cachedAgents st = Some cached ->
         AgentsManager.searchAgents h query st = AgentsManager.searchAgents h' query st
         /\ snd (AgentsManager.searchAgents h query st) = st
         /\ (forall found,
                fst (AgentsManager.searchAgents h query st) = Ok found ->
                forall a, In a found -> In a (elems cached))
         /\ (elems cached = [] ->
             forall q, fst (AgentsManager.searchAgents h (JStr q) st) = Ok []))
  /\ (forall query st cached,
         CommandsManager.cachedCommands st = Some cached ->
         CommandsManager.searchCommands h query st
         = CommandsManager.searchCommands h' query st
         /\ snd (CommandsManager.searchCommands h query st) = st
         /\ (forall found,
                fst (CommandsManager.searchCommands h query st) = Ok found ->
                forall c, In c found -> In c (elems cached))
         /\ (elems cached = [] ->
             forall q, fst (CommandsManager.searchCommands h (JStr q) st) = Ok [])).
Proof.
  split; [| split].
  - intros query f st cached Hc.
    assert (E : forall host,
               SkillsManager.searchSkills host query f st
               = (match Js.call_toLowerCase "query" query with
                  | Ok lowerQuery =>
                      filter_r (SkillsManager.searchPredicate lowerQuery f) (elems cached)
                  | Throw e => Throw e
                  end, st)).
    { intros host. unfold SkillsManager.searchSkills, SkillsManager.loadSkills.
      rewrite (bind_ok _ _ _ _ _ (loadSkills_with_cached _ _ _ _ _ _ Hc)).
      unfold bind, lift. now destruct (Js.call_toLowerCase "query" query). }
    rewrite !E. split; [reflexivity |]. split; [reflexivity |]. split.
    + simpl. destruct (Js.call_toLowerCase "query" query); [| discriminate].
      apply filter_r_sub.
    + intros Hempty q. unfold SkillsManager.searchSkills, SkillsManager.loadSkills.
      rewrite (bind_ok _ _ _ _ _ (loadSkills_with_cached _ _ _ _ _ _ Hc)).
      unfold bind, lift. simpl. now rewrite Hempty.
  - intros query st cached Hc.
    assert (E : forall host,
               AgentsManager.searchAgents host query st
               = (match Js.call_toLowerCase "query" query with
                  | Ok lowerQuery =>
                      filter_r (AgentsManager.searchPredicate lowerQuery) (elems cached)
                  | Throw e => Throw e
                  end, st)).
    { intros host. unfold AgentsManager.searchAgents, AgentsManager.loadAgents.
      rewrite (bind_ok _ _ _ _ _ (loadAgents_with_cached _ _ _ _ Hc)).
      unfold bind, lift. now destruct (Js.call_toLowerCase "query" query). }
    rewrite !E. split; [reflexivity |]. split; [reflexivity |]. split.
    + simpl. destruct (Js.call_toLowerCase "query" query); [| discriminate].
      apply filter_r_sub.
    + intros Hempty q. unfold AgentsManager.searchAgents, AgentsManager.loadAgents.
      rewrite (bind_ok _ _ _ _ _ (loadAgents_with_cached _ _ _ _ Hc)).
      unfold bind, lift. simpl. now rewrite Hempty.
  - intros query st cached Hc.
    assert (E : forall host,
               CommandsManager.searchCommands host query st
               = (match Js.call_toLowerCase "query" query with
                  | Ok lowerQuery =>
                      filter_r (CommandsManager.searchPredicate lowerQuery) (elems cached)
                  | Throw e => Throw e
                  end, st)).
    { intros host. unfold CommandsManager.searchCommands, CommandsManager.loadCommands.
      rewrite (bind_ok _ _ _ _ _ (loadCommands_with_cached _ _ _ _ Hc)).
      unfold bind, lift. now destruct (Js.call_toLowerCase "query" query). }
    rewrite !E. split; [reflexivity |]. split; [reflexivity |]. split.
    + simpl. destruct (Js.call_toLowerCase "query" query); [| discriminate].
      apply filter_r_sub.
    + intros Hempty q. unfold CommandsManager.searchCommands, CommandsManager.loadCommands.
      rewrite (bind_ok _ _ _ _ _ (loadCommands_with_cached _ _ _ _ Hc)).
      unfold bind, lift. simpl. now rewrite Hempty.
Qed.

(** The skills are loaded on the sample host; a search on the host
    without any of the directories still finds what the sample host had. *)
Lemma search_reads_cache_only_witness :
  let st := snd (SkillsManager.loadSkills Sample.host true SkillsManager.init) in
  SkillsManager.searchSkills Sample.emptyHost (JStr "ba") None st
  = SkillsManager.searchSkills Sample.host (JStr "ba") None st
  /\ exists bar baz,
      fst (SkillsManager.searchSkills Sample.emptyHost (JStr "ba") None st) = Ok [bar; baz].
Proof.
  intros st.
  pose (cached := match SkillsManager.cachedSkills st with
                  | Some arr => arr
                  | None => {| id := 0; elems := [] |}
                  end).
  assert (Hc : SkillsManager.cachedSkills st = Some cached) by (vm_compute; reflexivity).
  destruct (proj1 (search_reads_cache_only Sample.emptyHost Sample.host)
                  (JStr "ba") None st cached Hc) as (Hsame & _).
  split; [exact Hsame |].
  eexists _, _. vm_compute. reflexivity.
Defined.
